(** * Generic array reductions: a shallow embedding of
      [numpy/core/src/umath/reduction.c]

    The file embeds the three functions of [reduction.c]

    - [count_axes],
    - [PyArray_CopyInitialReduceValues] (the seeder for reductions without
      an identity),
    - [PyUFunc_ReduceWrapper] (the reduction driver),

    over an explicit world (array objects, element memory, the pending
    Python error, the floating-point status word).  The functions that
    [reduction.c] calls but does not define (the nditer API, the array
    constructor, the array copy, the fperr check) form the [Host]
    interface; the driver is written against that interface and the
    theorems quantify over every implementation of it, each stating the
    contract it needs from the collaborators as a hypothesis.

    Conventions.
    - C [int] flags used as truth values ([reorderable], [keepdims]) and
      [npy_bool] are [bool]; loop counters bounded by the rank are [nat].
    - [npy_intp] and [int] values are [Z]; the places where C narrows or
      may wrap are written out with [to_intp] and [to_int].
    - A NULL pointer is [None]; [Py_None] for the identity is [None].
    - Reference counting ([Py_INCREF], [Py_DECREF]) is host bookkeeping and
      has no counterpart here: objects are never freed in the model.
    - Every call of a collaborator is appended to a log, so that "nothing
      was allocated" and "the callback was not invoked" can be stated. *)

From Stdlib Require Import ZArith Lia.
From stdpp Require Import base list gmap strings.

Open Scope Z_scope.

(* ===================================================================== *)
(** * Machine integers *)
(* ===================================================================== *)

(** Two's-complement reduction of [z] to [bits] bits. *)
Definition wrap_signed (bits z : Z) : Z :=
  (z + 2 ^ (bits - 1)) mod 2 ^ bits - 2 ^ (bits - 1).

(** A value stored in a C [int] (32 bits on every platform numpy supports). *)
Definition to_int (z : Z) : Z := wrap_signed 32 z.

(** A value stored in an [npy_intp] (64 bits on LP64 and LLP64). *)
Definition to_intp (z : Z) : Z := wrap_signed 64 z.

Definition INT_MAX : Z := 2 ^ 31 - 1.
Definition NPY_MAX_INTP : Z := 2 ^ 63 - 1.

(** [NPY_MAXDIMS] of this numpy generation (from [ndarraytypes.h]). *)
Definition NPY_MAXDIMS : nat := 32.

(* ===================================================================== *)
(** * Constants of the traversal primitive *)
(* ===================================================================== *)

(** Modelled from the spec: the flag words of the nditer API live in
    numpy's public header [ndarraytypes.h], which is not under src/.  The
    spec names each flag by its meaning (section 4.3); the values are the
    ones of the public header.  Only the fact that they are distinct bits
    is ever used. *)
Module IterFlag.
(** Modelled from the spec: the global flags of a traversal (values of
    the public header [ndarraytypes.h], absent from src/). *)
Definition NPY_ITER_EXTERNAL_LOOP       : Z := 0x00000008.
Definition NPY_ITER_REFS_OK             : Z := 0x00000020.
Definition NPY_ITER_ZEROSIZE_OK         : Z := 0x00000040.
Definition NPY_ITER_BUFFERED            : Z := 0x00000200.
Definition NPY_ITER_GROWINNER           : Z := 0x00000400.
Definition NPY_ITER_DELAY_BUFALLOC      : Z := 0x00000800.
Definition NPY_ITER_DONT_NEGATE_STRIDES : Z := 0x00001000.
Definition NPY_ITER_COPY_IF_OVERLAP     : Z := 0x00002000.
(** Modelled from the spec: the per-operand flags (same header). *)
Definition NPY_ITER_READWRITE    : Z := 0x00010000.
Definition NPY_ITER_READONLY     : Z := 0x00020000.
Definition NPY_ITER_WRITEONLY    : Z := 0x00040000.
Definition NPY_ITER_ALIGNED      : Z := 0x00100000.
Definition NPY_ITER_ALLOCATE     : Z := 0x01000000.
Definition NPY_ITER_NO_SUBTYPE   : Z := 0x02000000.
Definition NPY_ITER_NO_BROADCAST : Z := 0x08000000.
(** Modelled from the spec: [NPY_ORDER] (same header). *)
Definition NPY_KEEPORDER : Z := 2.
(** Modelled from the spec: the reduction-axis marker of the same header,
    [NPY_ITER_REDUCTION_AXIS(axis)] is [axis + (1 << (NPY_BITSOF_INT - 2))]. *)
Definition NPY_ITER_REDUCTION_AXIS (axis : Z) : Z := to_int (axis + 2 ^ 30).
(** Modelled from the spec: [NPY_ARRAY_WRITEABLE] of the same header, the
    array flag a view needs to be written. *)
Definition NPY_ARRAY_WRITEABLE : Z := 0x0400.
End IterFlag.
Import IterFlag.

(** [flag_set w f]: every bit of [f] is set in the flag word [w]. *)
Definition flag_set (w f : Z) : bool := Z.land w f =? f.
(** [flag_clear w f]: no bit of [f] is set in the flag word [w]. *)
Definition flag_clear (w f : Z) : bool := Z.land w f =? 0.

(* ===================================================================== *)
(** * Data model *)
(* ===================================================================== *)

(** [PyArrayObject *]: the identity of an array object. *)
Abbreviation ref := positive.
(** A byte address of element memory. *)
Abbreviation addr := Z (only parsing).
(** An element value, also the value of a Python scalar. *)
Abbreviation Scalar := Z (only parsing).

Record PyArray_Descr : Type := mkDescr { type_num : Z }.

#[global] Instance PyArray_Descr_eq_dec : EqDecision PyArray_Descr.
Proof. solve_decision. Defined.

(** The fields of an array object that [reduction.c] reads through the
    [PyArray_NDIM], [PyArray_SHAPE], [PyArray_STRIDES], [PyArray_DESCR],
    [PyArray_DATA] accessors; the rank is the length of [f_dimensions]. *)
Record PyArrayObject : Type := mkArray {
  f_dimensions : list Z;
  f_strides : list Z;
  f_descr : PyArray_Descr;
  f_data : addr;
  f_flags : Z
}.

#[global] Instance PyArrayObject_eq_dec : EqDecision PyArrayObject.
Proof. solve_decision. Defined.

(** The pending Python error: exception type, format string and the
    arguments handed to [PyErr_Format]. *)
Inductive PyExc : Type :=
| PyExc_ValueError
| PyExc_TypeError
| PyExc_FloatingPointError
| PyExc_MemoryError
| PyExc_RuntimeError.

Inductive FmtArg : Type :=
| ArgS (s : string)
| ArgD (d : Z).

Record PyErr : Type := mkErr {
  exc : PyExc;
  fmt : string;
  fmt_args : list FmtArg
}.

#[global] Instance PyExc_eq_dec : EqDecision PyExc.
Proof. solve_decision. Defined.
#[global] Instance FmtArg_eq_dec : EqDecision FmtArg.
Proof. solve_decision. Defined.
#[global] Instance PyErr_eq_dec : EqDecision PyErr.
Proof. solve_decision. Defined.

(** The world the engine runs in.  [host] is private state of the
    collaborators (iterator cursors, buffers). *)
Record World (X : Type) : Type := mkWorld {
  objects : gmap ref PyArrayObject;
  memory : gmap addr Scalar;
  pyerr : option PyErr;
  fpstatus : Z;
  host : X
}.
Arguments mkWorld {X}.
Arguments objects {X}.
Arguments memory {X}.
Arguments pyerr {X}.
Arguments fpstatus {X}.
Arguments host {X}.

Definition set_pyerr {X} (e : option PyErr) (w : World X) : World X :=
  mkWorld (objects w) (memory w) e (fpstatus w) (host w).
Definition set_fpstatus {X} (f : Z) (w : World X) : World X :=
  mkWorld (objects w) (memory w) (pyerr w) f (host w).
Definition set_memory {X} (m : gmap addr Scalar) (w : World X) : World X :=
  mkWorld (objects w) m (pyerr w) (fpstatus w) (host w).
Definition set_objects {X} (o : gmap ref PyArrayObject) (w : World X) : World X :=
  mkWorld o (memory w) (pyerr w) (fpstatus w) (host w).

(** ** Accessors (what the [PyArray_*] macros read).  A dangling pointer is
    undefined behaviour in C; the model reads an empty array there. *)
Definition PyArray_SHAPE {X} (r : ref) (w : World X) : list Z :=
  from_option f_dimensions [] (objects w !! r).
Definition PyArray_STRIDES {X} (r : ref) (w : World X) : list Z :=
  from_option f_strides [] (objects w !! r).
Definition PyArray_NDIM {X} (r : ref) (w : World X) : nat :=
  length (PyArray_SHAPE r w).
Definition PyArray_DESCR {X} (r : ref) (w : World X) : PyArray_Descr :=
  from_option f_descr (mkDescr 0) (objects w !! r).
Definition PyArray_DATA {X} (r : ref) (w : World X) : addr :=
  from_option f_data 0 (objects w !! r).

(** ** Element addresses *)

(** Byte offsets of all elements of an array of extents [dims] and strides
    [strs], in row-major index order. *)
Fixpoint offsets (dims strs : list Z) : list Z :=
  match dims, strs with
  | d :: ds, s :: ss =>
      seqZ 0 d ≫= (λ i, (λ o, i * s + o) <$> offsets ds ss)
  | _, _ => [0]
  end.

(** The addresses an array object denotes, in row-major index order. *)
Definition footprint (a : PyArrayObject) : list addr :=
  (λ o, f_data a + o) <$> offsets (f_dimensions a) (f_strides a).

(** The contents of an array, in row-major index order. *)
Definition elements {X} (w : World X) (a : PyArrayObject) : list (option Scalar) :=
  (λ p, memory w !! p) <$> footprint a.

(** Product of a list of extents. *)
Definition product (l : list Z) : Z := foldr Z.mul 1 l.

(** ** The array invariant the constructor enforces: at most [NPY_MAXDIMS]
    axes, one stride per axis, no negative extent, and an element count
    (zero extents skipped) that fits an [npy_intp]. *)
Definition wf_array (a : PyArrayObject) : Prop :=
  (length (f_dimensions a) ≤ NPY_MAXDIMS)%nat ∧
  length (f_strides a) = length (f_dimensions a) ∧
  Forall (λ d, 0 ≤ d) (f_dimensions a) ∧
  product (filter (λ d, d ≠ 0) (f_dimensions a)) ≤ NPY_MAX_INTP.

(* ===================================================================== *)
(** * The collaborators *)
(* ===================================================================== *)

(** The arguments of [NpyIter_AdvancedNew], in the order of the call. *)
Record IterArgs : Type := mkIterArgs {
  ia_nop : Z;
  ia_op : list (option ref);
  ia_flags : Z;
  ia_order : Z;
  ia_casting : Z;
  ia_op_flags : list Z;
  ia_op_dtypes : list PyArray_Descr;
  ia_oa_ndim : nat;
  ia_op_axes : list (option (list Z));
  ia_itershape : option (list Z);
  ia_buffersize : Z
}.

(** One entry per collaborator call. *)
Inductive Event : Type :=
| EvNewFromDescr (descr : PyArray_Descr) (nd : nat) (shape strs : list Z)
                 (data : addr) (flags : Z)
| EvCopyInto (dst src : ref)
| EvFillWithScalar (arr : ref) (v : Scalar)
| EvAdvancedNew (args : IterArgs)
| EvReset
| EvGetIterNext
| EvLoop (needs_api : Z) (skip_first_count : Z)
| EvCheckFPErr (errormask : Z)
| EvDeallocate.

(** The functions [reduction.c] calls and does not define.  Each runs on the
    world and may set the pending error; the return conventions are the C
    ones (NULL as [None], a negative [int] for failure, [NPY_FAIL] as
    [false]). *)
Class Host : Type := {
  host_state : Type;
  NpyIter : Type;
  NpyIter_IterNextFunc : Type;
  DataPtrArray : Type;
  IntpArray : Type;
  UserData : Type;
  PyArray_NewFromDescr :
    PyArray_Descr → nat → list Z → list Z → addr → Z →
    World host_state → option ref * World host_state;
  PyArray_CopyInto :
    ref → ref → World host_state → Z * World host_state;
  PyArray_FillWithScalar :
    ref → Scalar → World host_state → Z * World host_state;
  NpyIter_AdvancedNew :
    IterArgs → World host_state → option NpyIter * World host_state;
  NpyIter_GetOperandArray : NpyIter → nat → ref;
  NpyIter_IterationNeedsAPI : NpyIter → Z;
  NpyIter_Reset : NpyIter → World host_state → bool * World host_state;
  NpyIter_GetIterSize : NpyIter → Z;
  NpyIter_GetIterNext :
    NpyIter → World host_state → option NpyIter_IterNextFunc * World host_state;
  NpyIter_GetDataPtrArray : NpyIter → DataPtrArray;
  NpyIter_GetInnerStrideArray : NpyIter → IntpArray;
  NpyIter_GetInnerLoopSizePtr : NpyIter → IntpArray;
  _check_ufunc_fperr : Z → World host_state → Z * World host_state;
  NpyIter_Deallocate : NpyIter → World host_state → bool * World host_state
}.

(** [PyArray_ReduceLoopFunc]: the accumulation callback. *)
Definition PyArray_ReduceLoopFunc `{Host} : Type :=
  NpyIter → DataPtrArray → IntpArray → IntpArray → NpyIter_IterNextFunc →
  Z → Z → UserData → World host_state → Z * World host_state.

(* ===================================================================== *)
(** * The driver monad: world passing with a call log *)
(* ===================================================================== *)

Record St (X : Type) : Type := mkSt {
  world : World X;
  log : list Event
}.
Arguments mkSt {X}.
Arguments world {X}.
Arguments log {X}.

Definition M (X A : Type) : Type := St X → A * St X.

Definition ret {X A} (a : A) : M X A := λ st, (a, st).
Definition bind {X A B} (m : M X A) (k : A → M X B) : M X B :=
  λ st, let (a, st') := m st in k a st'.
(** Read from the world. *)
Definition gets {X A} (f : World X → A) : M X A := λ st, (f (world st), st).
(** Change the world without calling a collaborator. *)
Definition modify {X} (f : World X → World X) : M X unit :=
  λ st, (tt, mkSt (f (world st)) (log st)).
(** Call a collaborator and log the call. *)
Definition call {X A} (ev : Event) (f : World X → A * World X) : M X A :=
  λ st, let (a, w') := f (world st) in (a, mkSt w' (log st ++ [ev])).

Notation "x <- c ;; k" := (bind c (λ x, k))
  (at level 100, c at next level, right associativity).
Notation "c ;;; k" := (bind c (λ _, k))
  (at level 100, right associativity).

(** [PyErr_Format]: raise-with-message of the host error interface. *)
Definition PyErr_Format {X} (e : PyExc) (f : string) (a : list FmtArg) : M X unit :=
  modify (set_pyerr (Some (mkErr e f a))).
(** [PyErr_Occurred]: query-pending of the host error interface. *)
Definition PyErr_Occurred {X} (w : World X) : bool :=
  bool_decide (is_Some (pyerr w)).
(** [npy_clear_floatstatus_barrier]: clear-all of the status interface. *)
Definition npy_clear_floatstatus_barrier {X} : M X unit :=
  modify (set_fpstatus 0).

(** The events a run added to the log. *)
Definition new_events {X} (st st' : St X) : list Event :=
  drop (length (log st)) (log st').

(* ===================================================================== *)
(** * [reduction.c] *)
(* ===================================================================== *)

(** [axis_flags[idim]]; reading past the end of the flag vector is undefined
    in C and reads [false] here. *)
Definition flag_at (axis_flags : list bool) (idim : nat) : bool :=
  default false (axis_flags !! idim).

(** [a[i]] for an [npy_intp] array; out of range reads 0. *)
Definition intp_at (a : list Z) (i : nat) : Z := default 0 (a !! i).

(** [count_axes] (lines 31-43): the number of dimensions selected in
    [axis_flags]. *)
Definition count_axes (ndim : nat) (axis_flags : list bool) : Z :=
  foldl (λ naxes idim, if flag_at axis_flags idim then naxes + 1 else naxes)
        0 (seq 0 ndim).

(** The locals of [PyArray_CopyInitialReduceValues] that its loop updates:
    the [shape] and [strides] buffers, [idim_out] and [size]. *)
Record SeedLocals : Type := mkSeedLocals {
  sl_shape : list Z;
  sl_strides : list Z;
  sl_idim_out : nat;
  sl_size : Z
}.

(** The locals before the loop (lines 77, 91-92); the buffers are
    uninitialised in C and hold zeros here. *)
Definition seed_init : SeedLocals :=
  mkSeedLocals (replicate NPY_MAXDIMS 0) (replicate NPY_MAXDIMS 0) 0%nat 1.

(** The loop of lines 93-113 over the axes [idims]; [None] is the early
    [return -1] of line 99, taken at the first reduced axis of extent 0. *)
Fixpoint seed_axes (axis_flags : list bool) (keepdims : bool)
    (shape_orig strides_orig : list Z) (idims : list nat) (l : SeedLocals)
    : option SeedLocals :=
  match idims with
  | [] => Some l
  | idim :: rest =>
      if flag_at axis_flags idim then
        if intp_at shape_orig idim =? 0 then None
        else if keepdims then
          seed_axes axis_flags keepdims shape_orig strides_orig rest
            (mkSeedLocals (<[sl_idim_out l := 1]> (sl_shape l))
                          (<[sl_idim_out l := 0]> (sl_strides l))
                          (S (sl_idim_out l))
                          (sl_size l))
        else
          seed_axes axis_flags keepdims shape_orig strides_orig rest l
      else
        seed_axes axis_flags keepdims shape_orig strides_orig rest
          (mkSeedLocals (<[sl_idim_out l := intp_at shape_orig idim]> (sl_shape l))
                        (<[sl_idim_out l := intp_at strides_orig idim]> (sl_strides l))
                        (S (sl_idim_out l))
                        (to_intp (sl_size l * intp_at shape_orig idim)))
  end.

(** The locals of [PyUFunc_ReduceWrapper] that the loop of lines 258-272
    updates: the [result_axes] buffer and [curr_axis]. *)
Record AxesLocals : Type := mkAxesLocals {
  al_result_axes : list Z;
  al_curr_axis : nat
}.

Definition axes_init : AxesLocals :=
  mkAxesLocals (replicate NPY_MAXDIMS 0) 0%nat.

(** One iteration of the loop of lines 258-272. *)
Definition axes_step (axis_flags : list bool) (keepdims : bool)
    (l : AxesLocals) (i : nat) : AxesLocals :=
  if flag_at axis_flags i then
    if keepdims then
      mkAxesLocals
        (<[i := NPY_ITER_REDUCTION_AXIS (Z.of_nat (al_curr_axis l))]> (al_result_axes l))
        (S (al_curr_axis l))
    else
      mkAxesLocals
        (<[i := NPY_ITER_REDUCTION_AXIS (-1)]> (al_result_axes l))
        (al_curr_axis l)
  else
    mkAxesLocals
      (<[i := Z.of_nat (al_curr_axis l)]> (al_result_axes l))
      (S (al_curr_axis l)).

(** The loop of lines 258-272. *)
Definition result_axes_loop (ndim : nat) (axis_flags : list bool)
    (keepdims : bool) : AxesLocals :=
  foldl (axes_step axis_flags keepdims) axes_init (seq 0 ndim).

(** The messages of the four errors [reduction.c] raises itself. *)
Definition msg_empty : string :=
  "zero-size array to reduction operation %s which has no identity".
Definition msg_not_reorderable : string :=
  "reduction operation '%s' is not reorderable, so at most one axis may be specified".
Definition msg_where_no_identity : string :=
  "reduction operation '%s' does not have an identity, so to use a where mask one has to specify 'initial'".
Definition msg_out_ndim_keepdims : string :=
  "output parameter for reduction operation %s has the wrong number of dimensions: Found %d but expected %d (must match the operand's when keepdims=True)".
Definition msg_out_ndim : string :=
  "output parameter for reduction operation %s has the wrong number of dimensions: Found %d but expected %d".

(** The error kinds of the spec, as the pending error the code sets. *)
Definition EmptyReductionError (funcname : string) : PyErr :=
  mkErr PyExc_ValueError msg_empty [ArgS funcname].
Definition NonReorderableMultiAxisError (funcname : string) : PyErr :=
  mkErr PyExc_ValueError msg_not_reorderable [ArgS funcname].
Definition WhereWithoutIdentityError (funcname : string) : PyErr :=
  mkErr PyExc_ValueError msg_where_no_identity [ArgS funcname].
Definition OutputShapeMismatchError (funcname : string) (keepdims : bool)
    (found expected : Z) : PyErr :=
  mkErr PyExc_ValueError
        (if keepdims then msg_out_ndim_keepdims else msg_out_ndim)
        [ArgS funcname; ArgD found; ArgD expected].

Section Reduction.
Context `{H : Host}.

Abbreviation Run := (M host_state).

(** [PyArray_CopyInitialReduceValues] (lines 71-141).  The function is
    declared [int] (line 71) and returns [size], an [npy_intp] (lines 92,
    140): the return converts the value to 32 bits. *)
Definition PyArray_CopyInitialReduceValues
    (result operand : ref) (axis_flags : list bool) (funcname : string)
    (keepdims : bool) : Run Z :=
  shape_orig <- gets (PyArray_SHAPE operand) ;;
  strides_orig <- gets (PyArray_STRIDES operand) ;;
  ndim <- gets (PyArray_NDIM operand) ;;
  match seed_axes axis_flags keepdims shape_orig strides_orig
                  (seq 0 ndim) seed_init with
  | None =>
      PyErr_Format PyExc_ValueError msg_empty [ArgS funcname] ;;;
      ret (-1)
  | Some l =>
      descr <- gets (PyArray_DESCR operand) ;;
      data <- gets (PyArray_DATA operand) ;;
      op_view <- call (EvNewFromDescr descr (sl_idim_out l) (sl_shape l)
                                      (sl_strides l) data 0)
                      (PyArray_NewFromDescr descr (sl_idim_out l) (sl_shape l)
                                            (sl_strides l) data 0) ;;
      match op_view with
      | None => ret (-1)
      | Some op_view =>
          res <- call (EvCopyInto result op_view)
                      (PyArray_CopyInto result op_view) ;;
          if res <? 0 then ret (-1)
          else ret (to_int (sl_size l))
      end
  end.

(** The [fail:] label (lines 371-376). *)
Definition fail (iter : option NpyIter) : Run (option ref) :=
  match iter with
  | Some it =>
      call EvDeallocate (NpyIter_Deallocate it) ;;;
      ret None
  | None => ret None
  end.

(** Lines 330-369: reset, iterate, check the error state, return. *)
Definition reduce_iterate (out : option ref) (loop : PyArray_ReduceLoopFunc)
    (data : UserData) (errormask : Z) (iter : NpyIter) (result : ref)
    (needs_api : Z) (skip_first_count : Z) : Run (option ref) :=
  ok <- call EvReset (NpyIter_Reset iter) ;;
  if negb ok then fail (Some iter)
  else
    let finish : Run (option ref) :=
      pending <- gets PyErr_Occurred ;;
      fperr <- (if pending then ret false
                else r <- call (EvCheckFPErr errormask)
                               (_check_ufunc_fperr errormask) ;;
                     ret (r <? 0)) ;;
      if pending || fperr then fail (Some iter)
      else
        let result := match out with Some o => o | None => result end in
        ok <- call EvDeallocate (NpyIter_Deallocate iter) ;;
        if negb ok then ret None
        else ret (Some result)
    in
    if negb (NpyIter_GetIterSize iter =? 0) then
      iternext <- call EvGetIterNext (NpyIter_GetIterNext iter) ;;
      match iternext with
      | None => fail (Some iter)
      | Some iternext =>
          let dataptr := NpyIter_GetDataPtrArray iter in
          let strideptr := NpyIter_GetInnerStrideArray iter in
          let countptr := NpyIter_GetInnerLoopSizePtr iter in
          r <- call (EvLoop needs_api skip_first_count)
                    (loop iter dataptr strideptr countptr iternext
                          needs_api skip_first_count data) ;;
          if r <? 0 then fail (Some iter)
          else finish
      end
    else finish.

(** Lines 302-328: take the result from the iterator, clear the status
    flags, seed the result. *)
Definition reduce_seed (operand : ref) (out : option ref)
    (axis_flags : list bool) (keepdims : bool) (identity : option Scalar)
    (loop : PyArray_ReduceLoopFunc) (data : UserData) (funcname : string)
    (errormask : Z) (iter : NpyIter) : Run (option ref) :=
  let result := NpyIter_GetOperandArray iter 0 in
  let needs_api := NpyIter_IterationNeedsAPI iter in
  npy_clear_floatstatus_barrier ;;;
  match identity with
  | Some identity =>
      r <- call (EvFillWithScalar result identity)
                (PyArray_FillWithScalar result identity) ;;
      if r <? 0 then fail (Some iter)
      else reduce_iterate out loop data errormask iter result needs_api 0
  | None =>
      (* the [int] result widens to the [npy_intp skip_first_count] *)
      skip_first_count <-
        PyArray_CopyInitialReduceValues result operand axis_flags
                                        funcname keepdims ;;
      if skip_first_count <? 0 then fail (Some iter)
      else reduce_iterate out loop data errormask iter result needs_api
                          skip_first_count
  end.

(** Lines 293-300: construct the iterator, then go on to seeding. *)
Definition reduce_construct (operand : ref) (out : option ref)
    (axis_flags : list bool) (keepdims : bool) (identity : option Scalar)
    (loop : PyArray_ReduceLoopFunc) (data : UserData) (funcname : string)
    (errormask : Z) (args : IterArgs) : Run (option ref) :=
  iter <- call (EvAdvancedNew args) (NpyIter_AdvancedNew args) ;;
  match iter with
  | None => fail None
  | Some iter =>
      reduce_seed operand out axis_flags keepdims identity loop data
                  funcname errormask iter
  end.

(** The arguments of the [NpyIter_AdvancedNew] call of line 293, from the
    set-up of lines 221-256. *)
Definition iter_args (operand : ref) (out wheremask : option ref)
    (operand_dtype result_dtype : PyArray_Descr) (casting : Z)
    (buffersize : Z) (ndim : nat) (result_axes : list Z)
    (where_dtype : option PyArray_Descr) : IterArgs :=
  let it_flags :=
    Z.lor NPY_ITER_BUFFERED
      (Z.lor NPY_ITER_EXTERNAL_LOOP
        (Z.lor NPY_ITER_GROWINNER
          (Z.lor NPY_ITER_DONT_NEGATE_STRIDES
            (Z.lor NPY_ITER_ZEROSIZE_OK
              (Z.lor NPY_ITER_REFS_OK
                (Z.lor NPY_ITER_DELAY_BUFALLOC NPY_ITER_COPY_IF_OVERLAP)))))) in
  let op_flags0 :=
    Z.lor NPY_ITER_READWRITE
      (Z.lor NPY_ITER_ALIGNED (Z.lor NPY_ITER_ALLOCATE NPY_ITER_NO_SUBTYPE)) in
  let op_flags1 :=
    Z.lor NPY_ITER_READONLY (Z.lor NPY_ITER_ALIGNED NPY_ITER_NO_BROADCAST) in
  mkIterArgs
    (match wheremask with Some _ => 3 | None => 2 end)
    ([out; Some operand] ++ match wheremask with Some m => [Some m] | None => [] end)
    it_flags NPY_KEEPORDER casting
    ([op_flags0; op_flags1] ++
     match wheremask with Some _ => [NPY_ITER_READONLY] | None => [] end)
    ([result_dtype; operand_dtype] ++ option_list where_dtype)
    ndim
    [Some result_axes; None; None]
    None
    buffersize.

(** [PyUFunc_ReduceWrapper] (lines 184-377).  The branch of lines 248-250
    ([op_dtypes[2] == NULL]) cannot be taken: an array object always has a
    descriptor, and [f_descr] is total. *)
Definition PyUFunc_ReduceWrapper
    (operand : ref) (out wheremask : option ref)
    (operand_dtype result_dtype : PyArray_Descr) (casting : Z)
    (axis_flags : list bool) (reorderable keepdims : bool)
    (identity : option Scalar) (loop : PyArray_ReduceLoopFunc)
    (data : UserData) (buffersize : Z) (funcname : string) (errormask : Z)
    : Run (option ref) :=
  ndim <- gets (PyArray_NDIM operand) ;;
  if negb reorderable && (1 <? count_axes ndim axis_flags) then
    PyErr_Format PyExc_ValueError msg_not_reorderable [ArgS funcname] ;;;
    ret None
  else if bool_decide (is_Some wheremask) && bool_decide (identity = None) then
    PyErr_Format PyExc_ValueError msg_where_no_identity [ArgS funcname] ;;;
    ret None
  else
    where_dtype <- match wheremask with
                   | Some m => d <- gets (PyArray_DESCR m) ;; ret (Some d)
                   | None => ret None
                   end ;;
    let axes := result_axes_loop ndim axis_flags keepdims in
    let curr_axis := al_curr_axis axes in
    let args := iter_args operand out wheremask operand_dtype result_dtype
                          casting buffersize ndim (al_result_axes axes)
                          where_dtype in
    let construct : Run (option ref) :=
      reduce_construct operand out axis_flags keepdims identity loop data
                       funcname errormask args
    in
    match out with
    | Some o =>
        out_ndim <- gets (PyArray_NDIM o) ;;
        if negb (bool_decide (curr_axis = out_ndim)) then
          PyErr_Format PyExc_ValueError
            (if keepdims then msg_out_ndim_keepdims else msg_out_ndim)
            [ArgS funcname; ArgD (Z.of_nat out_ndim);
             ArgD (Z.of_nat curr_axis)] ;;;
          fail None
        else construct
    | None => construct
    end.
End Reduction.

(* ===================================================================== *)
(** * A reference implementation of the collaborators *)
(* ===================================================================== *)

(** Modelled from the spec: the array constructor, the array copy, the
    scalar fill, the traversal primitive and the floating-point check are
    numpy code outside src/.  This module implements the contracts the spec
    lists for them (section 6, and the operand policies of section 4.3) over
    a single element type with unit item size: a view constructor that
    shares the data pointer, an element-wise copy and fill that refuse a
    read-only target, and a traversal that allocates the result when no
    output is given, works on a private copy of the output when it overlaps
    the operand and writes it back on release.  It is what the driver is run
    on for concrete inputs. *)
Module RefHost.

Record RefIter : Type := mkRefIter {
  ri_result : ref;
  ri_writeback : option ref;
  ri_itersize : Z
}.

Abbreviation RW := (World unit).

(** The first address above everything allocated. *)
Definition mem_top (m : gmap addr Scalar) : Z :=
  map_fold (λ k _ acc, Z.max (k + 1) acc) 0 m.

(** Strides of a C-contiguous array. *)
Fixpoint c_strides (dims : list Z) : list Z :=
  match dims with
  | [] => []
  | _ :: ds => product ds :: c_strides ds
  end.

Definition writeable (a : PyArrayObject) : bool :=
  flag_set (f_flags a) NPY_ARRAY_WRITEABLE.

(** Store [vs] at the addresses [ps], pairwise. *)
Definition write_list (ps : list addr) (vs : list Scalar)
    (m : gmap addr Scalar) : gmap addr Scalar :=
  list_to_map (zip ps vs) ∪ m.

(** The values of an array in row-major order; unmapped memory reads 0. *)
Definition values (w : RW) (a : PyArrayObject) : list Scalar :=
  (λ p, default 0 (memory w !! p)) <$> footprint a.

Definition raise (e : PyExc) (msg : string) (w : RW) : RW :=
  set_pyerr (Some (mkErr e msg [])) w.

(** A new writeable C-contiguous array of extents [shape] holding [init]. *)
Definition alloc (shape : list Z) (d : PyArray_Descr) (init : list Scalar)
    (w : RW) : ref * RW :=
  let r := fresh (dom (objects w)) in
  let a := mkArray shape (c_strides shape) d (mem_top (memory w))
                   NPY_ARRAY_WRITEABLE in
  (r, set_memory (write_list (footprint a) init (memory w))
        (set_objects (<[r := a]> (objects w)) w)).

(** Modelled from the spec: [PyArray_NewFromDescr] (numpy's array
    constructor, absent from src/), called with a data pointer: a new
    object over the cells at [data], with the first [nd] extents and
    strides; no cell is allocated or written. *)
Definition NewFromDescr (d : PyArray_Descr) (nd : nat) (shape strs : list Z)
    (data : addr) (flags : Z) (w : RW) : option ref * RW :=
  if bool_decide (nd ≤ NPY_MAXDIMS)%nat then
    let r := fresh (dom (objects w)) in
    (Some r,
     set_objects (<[r := mkArray (take nd shape) (take nd strs) d data flags]>
                    (objects w)) w)
  else (None, raise PyExc_ValueError "number of dimensions must be within [0, 32]" w).

(** Modelled from the spec: [PyArray_CopyInto] (absent from src/): the
    source's elements are stored in the destination in index order; a
    read-only destination and a different shape are errors. *)
Definition CopyInto (dst src : ref) (w : RW) : Z * RW :=
  match objects w !! dst, objects w !! src with
  | Some d, Some s =>
      if negb (writeable d) then
        (-1, raise PyExc_ValueError "assignment destination is read-only" w)
      else if negb (bool_decide (f_dimensions d = f_dimensions s)) then
        (-1, raise PyExc_ValueError "could not broadcast input array" w)
      else
        (0, set_memory (write_list (footprint d) (values w s) (memory w)) w)
  | _, _ => (-1, raise PyExc_RuntimeError "dangling array" w)
  end.

(** Modelled from the spec: [PyArray_FillWithScalar] (absent from src/):
    every cell of the array receives the scalar. *)
Definition FillWithScalar (arr : ref) (v : Scalar) (w : RW) : Z * RW :=
  match objects w !! arr with
  | Some d =>
      if negb (writeable d) then
        (-1, raise PyExc_ValueError "assignment destination is read-only" w)
      else
        (0, set_memory
              (write_list (footprint d) (replicate (length (footprint d)) v)
                          (memory w)) w)
  | None => (-1, raise PyExc_RuntimeError "dangling array" w)
  end.

(** The extent an output axis gets from the axis-mapping entry [m] of an
    operand axis of extent [d]: a reduction marker with ordinal gives
    extent 1, a reduction marker without ordinal drops the axis. *)
Definition out_extent (md : Z * Z) : option Z :=
  let (m, d) := md in
  if NPY_ITER_REDUCTION_AXIS 0 - 1 <=? m then
    if 0 <=? m - NPY_ITER_REDUCTION_AXIS 0 then Some 1 else None
  else Some d.

Definition out_shape (axes dims : list Z) : list Z :=
  omap out_extent (zip axes dims).

Definition overlaps (a b : PyArrayObject) : bool :=
  bool_decide (Exists (λ p, p ∈ footprint b) (footprint a)).

(** What the reference traversal accepts as a supplied output: writeable,
    of the computed shape, one stride per axis, no two indices on the same
    cell. *)
Definition out_ok (oa : PyArrayObject) (shape : list Z) : bool :=
  writeable oa &&
  bool_decide (f_dimensions oa = shape) &&
  bool_decide (length (f_strides oa) = length (f_dimensions oa)) &&
  bool_decide (NoDup (footprint oa)).

(** Modelled from the spec: [NpyIter_AdvancedNew] (the traversal
    primitive, absent from src/), restricted to what the driver asks of it:
    operand 1 is bound as it is, so the iteration space is its shape;
    operand 0 is allocated with the shape the axis mapping gives when no
    output is supplied, is the supplied output when that shares no cell
    with the operand, and is a private copy of it, written back on release,
    when it does. *)
Definition AdvancedNew (args : IterArgs) (w : RW) : option RefIter * RW :=
  match ia_op args, ia_op_axes args, ia_op_dtypes args with
  | out :: Some operand :: _, Some axes :: _, rdt :: _ =>
      match objects w !! operand with
      | None => (None, raise PyExc_RuntimeError "dangling array" w)
      | Some a =>
          let shape := out_shape axes (f_dimensions a) in
          let size := product (f_dimensions a) in
          match out with
          | None =>
              let (r, w') :=
                alloc shape rdt
                      (replicate (length (offsets shape (c_strides shape))) 0) w in
              (Some (mkRefIter r None size), w')
          | Some o =>
              match objects w !! o with
              | None => (None, raise PyExc_RuntimeError "dangling array" w)
              | Some oa =>
                  if negb (out_ok oa shape) then
                    (None, raise PyExc_ValueError
                                 "non-broadcastable output operand" w)
                  else if overlaps oa a then
                    let (r, w') := alloc shape rdt (values w oa) w in
                    (Some (mkRefIter r (Some o) size), w')
                  else (Some (mkRefIter o None size), w)
              end
          end
      end
  | _, _, _ => (None, raise PyExc_ValueError "bad iterator arguments" w)
  end.

(** Modelled from the spec: [NpyIter_Deallocate] (absent from src/): a
    private copy of the output is written back to the output. *)
Definition Deallocate (it : RefIter) (w : RW) : bool * RW :=
  match ri_writeback it with
  | None => (true, w)
  | Some o =>
      match objects w !! o, objects w !! ri_result it with
      | Some oa, Some ta =>
          (true, set_memory (write_list (footprint oa) (values w ta) (memory w)) w)
      | _, _ => (false, w)
      end
  end.

(** Modelled from the spec: [_check_ufunc_fperr] (absent from src/): the
    floating-point status masked by [errormask] decides. *)
Definition check_fperr (errormask : Z) (w : RW) : Z * RW :=
  if Z.land (fpstatus w) errormask =? 0 then (0, w)
  else (-1, raise PyExc_FloatingPointError "floating point error in reduce" w).

#[global] Instance ref_host : Host := {|
  host_state := unit;
  NpyIter := RefIter;
  NpyIter_IterNextFunc := unit;
  DataPtrArray := unit;
  IntpArray := unit;
  UserData := unit;
  PyArray_NewFromDescr := NewFromDescr;
  PyArray_CopyInto := CopyInto;
  PyArray_FillWithScalar := FillWithScalar;
  NpyIter_AdvancedNew := AdvancedNew;
  NpyIter_GetOperandArray := λ it _, ri_result it;
  NpyIter_IterationNeedsAPI := λ _, 0;
  NpyIter_Reset := λ _ w, (true, w);
  NpyIter_GetIterSize := ri_itersize;
  NpyIter_GetIterNext := λ _ w, (Some tt, w);
  NpyIter_GetDataPtrArray := λ _, tt;
  NpyIter_GetInnerStrideArray := λ _, tt;
  NpyIter_GetInnerLoopSizePtr := λ _, tt;
  _check_ufunc_fperr := check_fperr;
  NpyIter_Deallocate := Deallocate
|}.

(** Modelled from the spec: an accumulation callback (the callers' loop
    functions are absent from src/); this one folds nothing. *)
Definition loop_idle : PyArray_ReduceLoopFunc :=
  λ _ _ _ _ _ _ _ _ w, (0, w).

(** A world holding the arrays [arrs] at references 1, 2, ... and the
    memory cells [cells]. *)
Definition world_of (arrs : list PyArrayObject) (cells : list (addr * Scalar)) : RW :=
  mkWorld (list_to_map (zip (Pos.of_nat <$> seq 1 (length arrs)) arrs))
          (list_to_map cells) None 0 tt.

Definition start (w : RW) : St unit := mkSt w [].

Definition float64 : PyArray_Descr := mkDescr 12.
(** Case analysis on a run of the reference [AdvancedNew]. *)
Ltac case_new Hnew :=
  simpl in Hnew; unfold AdvancedNew in Hnew;
  repeat match type of Hnew with
         | context [match ?x with _ => _ end] => destruct x eqn:?
         end;
  inversion Hnew; subst; clear Hnew.
End RefHost.

(** The number of flagged axes, counted on the flag vector itself. *)
Definition num_flagged (axis_flags : list bool) : nat :=
  length (filter Is_true axis_flags).

(** The extents of the axes that are not reduced. *)
Fixpoint kept_extents (axis_flags : list bool) (dims : list Z) : list Z :=
  match axis_flags, dims with
  | f :: fs, d :: ds =>
      if f then kept_extents fs ds else d :: kept_extents fs ds
  | _, _ => []
  end.

(** The extents of the axes that are reduced. *)
Fixpoint reduced_extents (axis_flags : list bool) (dims : list Z) : list Z :=
  match axis_flags, dims with
  | f :: fs, d :: ds =>
      if f then d :: reduced_extents fs ds else reduced_extents fs ds
  | _, _ => []
  end.

(** The computed output rank, on the flag vector. *)
Definition expected_rank (ndim : nat) (axis_flags : list bool)
    (keepdims : bool) : nat :=
  if keepdims then ndim else (ndim - num_flagged axis_flags)%nat.

(** The state in which a validation error leaves the engine: the pending
    error is set, nothing else has changed and no collaborator ran. *)
Definition raised {X} (st : St X) (e : PyErr) : St X :=
  mkSt (set_pyerr (Some e) (world st)) (log st).

(** No accumulation callback among the events. *)
Definition no_loop (evs : list Event) : Prop := ∀ n s, EvLoop n s ∉ evs.

(** Every accumulation callback among the events got skip count [k]. *)
Definition loop_skip (k : Z) (evs : list Event) : Prop :=
  ∀ n s, EvLoop n s ∈ evs → s = k.

(** What the events of a run say about the skip count: with an identity
    every callback got 0; a callback that got a non-zero count was
    preceded by the seeder's copy into [result]. *)
Definition skip_discipline (identity : option Scalar) (evs : list Event) : Prop :=
  ∀ n s, EvLoop n s ∈ evs →
    (is_Some identity → s = 0) ∧
    (s ≠ 0 → identity = None ∧ ∃ dst src, EvCopyInto dst src ∈ evs).

(** The view the seeder's documentation describes: the subarray indexed at
    zero along each reduction axis, the reduction axes kept with extent 1
    and stride 0 under [keepdims] and removed otherwise. *)
Fixpoint view_shape (axis_flags : list bool) (keepdims : bool)
    (dims : list Z) : list Z :=
  match axis_flags, dims with
  | f :: fs, d :: ds =>
      if f then
        if keepdims then 1 :: view_shape fs keepdims ds
        else view_shape fs keepdims ds
      else d :: view_shape fs keepdims ds
  | _, _ => []
  end.

Fixpoint view_strides (axis_flags : list bool) (keepdims : bool)
    (strs : list Z) : list Z :=
  match axis_flags, strs with
  | f :: fs, s :: ss =>
      if f then
        if keepdims then 0 :: view_strides fs keepdims ss
        else view_strides fs keepdims ss
      else s :: view_strides fs keepdims ss
  | _, _ => []
  end.

(** [size] as the loop computes it, one [npy_intp] multiplication per
    non-reduced axis. *)
Definition intp_product (size : Z) (l : list Z) : Z :=
  foldl (λ acc d, to_intp (acc * d)) size l.

(** The loop of the seeder on an array object. *)
Definition seed_view (axis_flags : list bool) (keepdims : bool)
    (a : PyArrayObject) : option SeedLocals :=
  seed_axes axis_flags keepdims (f_dimensions a) (f_strides a)
            (seq 0 (length (f_dimensions a))) seed_init.

(* ===================================================================== *)
(** * Tactics for unfolding a run *)
(* ===================================================================== *)

Ltac run_monad :=
  unfold bind, ret, gets, modify, call, PyErr_Format,
         npy_clear_floatstatus_barrier in *; simpl in *.

Ltac step_run :=
  match goal with
  | H : context [let (_, _) := ?x in _] |- _ => destruct x eqn:?
  | H : context [if ?b then _ else _] |- _ => destruct b eqn:?
  | H : context [match ?x with Some _ => _ | None => _ end] |- _ =>
      destruct x eqn:?
  | H : (_, _) = (_, _) |- _ => inversion H; subst; clear H
  end.

Ltac steps := repeat (step_run; run_monad).

(** Splits a membership [ev ∈ l] in an explicit event list into its cases
    and closes those in which [ev] is a different event. *)
Ltac event_cases Hin :=
  repeat first
    [ apply elem_of_app in Hin as [Hin|Hin]
    | apply elem_of_cons in Hin as [Hin|Hin]
    | by apply not_elem_of_nil in Hin ];
  try discriminate; try (by inversion Hin; subst).

(** Closes [log st' = log st ++ ?evs] once the run has been unfolded. *)
Ltac log_ext :=
  first [ rewrite <- !app_assoc; reflexivity
        | symmetry; apply app_nil_r
        | reflexivity ].

Arguments PyArray_CopyInitialReduceValues : simpl never.
Arguments reduce_iterate : simpl never.
Arguments reduce_seed : simpl never.
Arguments reduce_construct : simpl never.


(* ===================================================================== *)
(** * Contracts of the collaborators *)
(* ===================================================================== *)

(** The footprint of the object a reference denotes (empty if dangling). *)
Definition footprint_of {X} (w : World X) (r : ref) : list addr :=
  from_option footprint [] (objects w !! r).

(** Every object of [w] is still there, unchanged, in [w']. *)
Definition obj_stable {X} (w w' : World X) : Prop :=
  ∀ r a, objects w !! r = Some a → objects w' !! r = Some a.

(** [w'] differs from [w] on memory allocated in [w] at most inside [W]. *)
Definition mem_frame {X} (W : list addr) (w w' : World X) : Prop :=
  ∀ p, is_Some (memory w !! p) → p ∉ W → memory w' !! p = memory w !! p.

Definition frame {X} (W : list addr) (w w' : World X) : Prop :=
  obj_stable w w' ∧ mem_frame W w w'.

(** The cells [P] that are allocated in [w] hold the same values in [w'],
    and the objects of [w] are unchanged. *)
Definition kept {X} (P : list addr) (w w' : World X) : Prop :=
  obj_stable w w' ∧
  ∀ p, p ∈ P → is_Some (memory w !! p) → memory w' !! p = memory w !! p.

(** All cells of an array are allocated. *)
Definition allocated {X} (w : World X) (a : PyArrayObject) : Prop :=
  Forall (λ p, is_Some (memory w !! p)) (footprint a).

(** Two arrays share no cell. *)
Definition disjoint_arrays (a b : PyArrayObject) : Prop :=
  Forall (λ p, p ∉ footprint b) (footprint a).

(** The output operand of an iterator construction ([op[0]]). *)
Definition ia_out (args : IterArgs) : option ref :=
  default None (ia_op args !! 0%nat).

(** The array operand of an iterator construction ([op[1]]). *)
Definition ia_operand (args : IterArgs) : option ref :=
  default None (ia_op args !! 1%nat).

Section Contracts.
Context `{H : Host}.

(** Iterator construction changes no existing object and no allocated
    cell, whether it succeeds or not. *)
Definition host_new_frame : Prop :=
  ∀ args w it w', NpyIter_AdvancedNew args w = (it, w') → frame [] w w'.

(** Operand 0 of a new iterator is an object of the new world; it is the
    supplied output, or an array in cells that were not allocated before. *)
Definition host_new_result : Prop :=
  ∀ args w it w', NpyIter_AdvancedNew args w = (Some it, w') →
    ∃ ra, objects w' !! NpyIter_GetOperandArray it 0 = Some ra ∧
          (ia_out args = Some (NpyIter_GetOperandArray it 0) ∨
           Forall (λ p, memory w !! p = None) (footprint ra)).

(** The operand is bound without broadcasting with its own axes: the
    iteration space is the operand's shape. *)
Definition host_iter_size : Prop :=
  ∀ args w it w' operand a, NpyIter_AdvancedNew args w = (Some it, w') →
    ia_operand args = Some operand → objects w !! operand = Some a →
    NpyIter_GetIterSize it = product (f_dimensions a).


(** A fill writes only into the array it fills. *)
Definition host_fill_frame : Prop :=
  ∀ r v w rc w', PyArray_FillWithScalar r v w = (rc, w') →
    frame (footprint_of w r) w w'.

(** Building a view writes no allocated cell. *)
Definition host_view_frame : Prop :=
  ∀ d nd shape strs data flags w v w',
    PyArray_NewFromDescr d nd shape strs data flags w = (v, w') →
    frame [] w w'.

(** A copy writes only into its destination. *)
Definition host_copy_frame : Prop :=
  ∀ dst src w rc w', PyArray_CopyInto dst src w = (rc, w') →
    frame (footprint_of w dst) w w'.

(** A view is an array object over the cells it was given: [nd] extents
    and strides at [data]. *)
Definition host_view_post : Prop :=
  ∀ d nd shape strs data flags w v w',
    PyArray_NewFromDescr d nd shape strs data flags w = (Some v, w') →
    objects w' !! v
    = Some (mkArray (take nd shape) (take nd strs) d data flags).

(** A successful copy between arrays of the same extents and the same
    element type (nothing to broadcast, nothing to cast) leaves the
    elements the source had before the copy in the destination, element by
    element in index order, when the destination has one cell per
    element. *)
Definition host_copy_post : Prop :=
  ∀ dst src w rc w' da sa, PyArray_CopyInto dst src w = (rc, w') → 0 ≤ rc →
    objects w !! dst = Some da → objects w !! src = Some sa →
    f_dimensions da = f_dimensions sa →
    f_descr da = f_descr sa →
    length (f_strides da) = length (f_dimensions da) →
    length (f_strides sa) = length (f_dimensions sa) →
    NoDup (footprint da) → allocated w sa →
    elements w' da = elements w sa.

(** Resetting the cursor, fetching the advance function and checking the
    floating-point status write no allocated cell. *)
Definition host_reset_frame : Prop :=
  ∀ it w b w', NpyIter_Reset it w = (b, w') → frame [] w w'.
Definition host_iternext_frame : Prop :=
  ∀ it w f w', NpyIter_GetIterNext it w = (f, w') → frame [] w w'.
Definition host_fperr_frame : Prop :=
  ∀ mask w rc w', _check_ufunc_fperr mask w = (rc, w') → frame [] w w'.

(** Releasing an iterator writes at most into the supplied output (the
    write-back of a private copy). *)
Definition host_dealloc_frame : Prop :=
  ∀ args w0 it w1 w b w', NpyIter_AdvancedNew args w0 = (Some it, w1) →
    NpyIter_Deallocate it w = (b, w') →
    frame (from_option (footprint_of w) [] (ia_out args)) w w'.



(** Objects survive every collaborator (the part of the frame contracts the
    error-path theorems need). *)
Definition host_new_stable : Prop :=
  ∀ args w it w', NpyIter_AdvancedNew args w = (it, w') → obj_stable w w'.

(** The accumulation callback writes only through operand 0. *)
Definition loop_frame (loop : PyArray_ReduceLoopFunc) : Prop :=
  ∀ it dp sp cp nx na skip data w rc w',
    loop it dp sp cp nx na skip data w = (rc, w') →
    frame (footprint_of w (NpyIter_GetOperandArray it 0)) w w'.
End Contracts.

(** What the log says about how the operand is handed to collaborators:
    bound read-only to the iterator, and viewed through an array without
    the writeable flag. *)
Definition event_readonly (ev : Event) : Prop :=
  match ev with
  | EvAdvancedNew args =>
      ∃ f, ia_op_flags args !! 1%nat = Some f ∧
           flag_set f NPY_ITER_READONLY = true ∧
           flag_clear f NPY_ITER_READWRITE = true ∧
           flag_clear f NPY_ITER_WRITEONLY = true
  | EvNewFromDescr _ _ _ _ _ flags =>
      flag_clear flags NPY_ARRAY_WRITEABLE = true
  | _ => True
  end.

(** The arguments the driver hands to [NpyIter_AdvancedNew] in world [w]. *)
Definition wrapper_iter_args {X} (operand : ref) (out wheremask : option ref)
    (operand_dtype result_dtype : PyArray_Descr) (casting buffersize : Z)
    (axis_flags : list bool) (keepdims : bool) (w : World X) : IterArgs :=
  iter_args operand out wheremask operand_dtype result_dtype casting
    buffersize (PyArray_NDIM operand w)
    (al_result_axes (result_axes_loop (PyArray_NDIM operand w) axis_flags keepdims))
    (match wheremask with
     | Some m => Some (PyArray_DESCR m w)
     | None => None
     end).

(** The driver's three validation checks pass in state [st]. *)
Definition validation_passes {X} (operand : ref) (out wheremask : option ref)
    (axis_flags : list bool) (reorderable keepdims : bool)
    (identity : option Scalar) (st : St X) : Prop :=
  (reorderable = true ∨ (num_flagged axis_flags ≤ 1)%nat) ∧
  (wheremask = None ∨ identity ≠ None) ∧
  (∀ o, out = Some o →
        PyArray_NDIM o (world st) =
        expected_rank (PyArray_NDIM operand (world st)) axis_flags keepdims).

(** A supplied output is an array object of [w] that shares no cell with
    the protected cells [P]. *)
Definition out_apart {X} (w : World X) (out : option ref) (P : list addr) : Prop :=
  ∀ o, out = Some o →
       ∃ oa, objects w !! o = Some oa ∧ ∀ p, p ∈ P → p ∉ footprint oa.

(* ===================================================================== *)
(** * Concrete inputs *)
(* ===================================================================== *)

Module Inputs.
Import RefHost.

(** A 2x3 operand with values 1..6 at reference 1, and a 3-element and a
    2-element output array at references 2 and 3. *)
Definition a_2x3 : PyArrayObject :=
  mkArray [2; 3] [3; 1] float64 100 NPY_ARRAY_WRITEABLE.
Definition a_out3 : PyArrayObject :=
  mkArray [3] [1] float64 200 NPY_ARRAY_WRITEABLE.
Definition a_out2 : PyArrayObject :=
  mkArray [2] [1] float64 300 NPY_ARRAY_WRITEABLE.
Definition w_2x3 : World unit :=
  world_of [a_2x3; a_out3; a_out2]
           [(100, 1); (101, 2); (102, 3); (103, 4); (104, 5); (105, 6);
            (200, 0); (201, 0); (202, 0); (300, 0); (301, 0)].

(** A 0x3 operand (no elements) at reference 1 and a 3-element output. *)
Definition a_0x3 : PyArrayObject :=
  mkArray [0; 3] [3; 1] float64 100 NPY_ARRAY_WRITEABLE.
Definition w_0x3 : World unit :=
  world_of [a_0x3; a_out3] [(200, 5); (201, 5); (202, 5)].


(** A 1x3 operand with values 1, 2, 3 at reference 1 and a 3-element
    output. *)
Definition a_1x3 : PyArrayObject :=
  mkArray [1; 3] [3; 1] float64 100 NPY_ARRAY_WRITEABLE.
Definition w_1x3 : World unit :=
  world_of [a_1x3; a_out3]
           [(100, 1); (101, 2); (102, 3); (200, 0); (201, 0); (202, 0)].

(** An operand of 2^31 elements, all views of one cell (a broadcast
    scalar), at reference 1 and a result array of the same shape at 2. *)
Definition a_huge : PyArrayObject :=
  mkArray [2 ^ 31] [0] float64 100 0.
Definition a_huge_result : PyArrayObject :=
  mkArray [2 ^ 31] [1] float64 1000 NPY_ARRAY_WRITEABLE.
Definition w_huge : World unit :=
  world_of [a_huge; a_huge_result] [(100, 1)].

(** The driver on the reference collaborators, from an empty log. *)
Definition reduce (w : World unit) (operand : ref) (out wheremask : option ref)
    (axis_flags : list bool) (reorderable keepdims : bool)
    (identity : option Scalar) (funcname : string)
    : option ref * St unit :=
  PyUFunc_ReduceWrapper operand out wheremask float64 float64 0 axis_flags
    reorderable keepdims identity loop_idle tt 0 funcname 0 (start w).

(** The seeder on the reference collaborators, from an empty log. *)
Definition seed (w : World unit) (result operand : ref)
    (axis_flags : list bool) (keepdims : bool) (funcname : string)
    : Z * St unit :=
  PyArray_CopyInitialReduceValues result operand axis_flags funcname
                                  keepdims (start w).
End Inputs.

(** The events a run appended to the log all hand the operand out
    read-only. *)
Definition readonly_run {X} (st st' : St X) : Prop :=
  ∃ evs, log st' = log st ++ evs ∧ Forall event_readonly evs.

(* ===================================================================== *)
(** * Slices and the call protocol *)
(* ===================================================================== *)

(** The operand's extents with every reduced axis cut down to its first
    index. *)
Fixpoint first_slice (axis_flags : list bool) (dims : list Z) : list Z :=
  match axis_flags, dims with
  | f :: fs, d :: ds => (if f then 1 else d) :: first_slice fs ds
  | _, _ => []
  end.

(** The subarray of [a] indexed at zero along each reduction axis: the
    operand's own data pointer and strides, over the cut-down extents. *)
Definition first_subarray (axis_flags : list bool) (a : PyArrayObject)
    : PyArrayObject :=
  mkArray (first_slice axis_flags (f_dimensions a)) (f_strides a)
          (f_descr a) (f_data a) (f_flags a).

(** How far a call of the driver has come, as seen from its collaborator
    calls. *)
Inductive Phase : Type :=
| PStart         (* no collaborator called yet *)
| PConstructed   (* [NpyIter_AdvancedNew] was called *)
| PViewed        (* the seeder built its view *)
| PSeeded        (* the fill or the seeder's copy was called *)
| PReset         (* [NpyIter_Reset] was called *)
| PNext          (* [NpyIter_GetIterNext] was called *)
| PLooped        (* the accumulation callback was called *)
| PChecked       (* [_check_ufunc_fperr] was called *)
| PReleased.     (* [NpyIter_Deallocate] was called *)

#[global] Instance Phase_eq_dec : EqDecision Phase.
Proof. solve_decision. Defined.

(** The collaborator calls that can follow each other.  The fill is the
    seeding of a call with an identity and carries that identity; the view
    and the copy are the seeding of a call without, which can fail before
    it calls anything; the callback gets a skip count that is not negative;
    the status check gets the caller's error mask. *)
Definition phase_step (identity : option Scalar) (errormask : Z)
    (p : Phase) (ev : Event) : option Phase :=
  match p, ev with
  | PStart, EvAdvancedNew _ => Some PConstructed
  | PConstructed, EvFillWithScalar _ v =>
      if bool_decide (identity = Some v) then Some PSeeded else None
  | PConstructed, EvNewFromDescr _ _ _ _ _ _ =>
      if bool_decide (identity = None) then Some PViewed else None
  | PViewed, EvCopyInto _ _ => Some PSeeded
  | PSeeded, EvReset => Some PReset
  | PReset, EvGetIterNext => Some PNext
  | PNext, EvLoop _ skip => if 0 <=? skip then Some PLooped else None
  | PReset, EvCheckFPErr m | PLooped, EvCheckFPErr m =>
      if bool_decide (m = errormask) then Some PChecked else None
  | PConstructed, EvDeallocate =>
      if bool_decide (identity = None) then Some PReleased else None
  | PViewed, EvDeallocate
  | PSeeded, EvDeallocate | PReset, EvDeallocate | PNext, EvDeallocate
  | PLooped, EvDeallocate | PChecked, EvDeallocate => Some PReleased
  | _, _ => None
  end.

(** The phase a sequence of collaborator calls leads to from [p]; [None]
    when the sequence is out of order. *)
Fixpoint phase_run (identity : option Scalar) (errormask : Z)
    (p : Phase) (evs : list Event) : option Phase :=
  match evs with
  | [] => Some p
  | ev :: evs =>
      match phase_step identity errormask p ev with
      | Some p' => phase_run identity errormask p' evs
      | None => None
      end
  end.

(** The phases in which a call can end: before any collaborator call (a
    validation error), right after a failed construction, or with the
    iterator released. *)
Definition phase_final (p : Phase) : bool :=
  match p with
  | PStart | PConstructed | PReleased => true
  | _ => false
  end.

Definition is_loop (ev : Event) : bool :=
  match ev with EvLoop _ _ => true | _ => false end.

Definition is_new (ev : Event) : bool :=
  match ev with EvAdvancedNew _ => true | _ => false end.

(** Iterator construction does not look at the floating-point status
    flags: started with other flags it returns the same iterator and
    leaves the same world, the flags apart. *)
Definition host_new_fp_blind `{H : Host} : Prop :=
  ∀ args w f,
    fst (NpyIter_AdvancedNew args (set_fpstatus f w))
    = fst (NpyIter_AdvancedNew args w) ∧
    set_fpstatus 0 (snd (NpyIter_AdvancedNew args (set_fpstatus f w)))
    = set_fpstatus 0 (snd (NpyIter_AdvancedNew args w)).


(* ===================================================================== *)
(** * Proofs *)
(* ===================================================================== *)

(* ===================================================================== *)
(** * Properties of the axis loops *)
(* ===================================================================== *)

Lemma foldl_ext_in {A B} (f g : A → B → A) (l : list B) (a : A) :
  (∀ x b, b ∈ l → f x b = g x b) → foldl f a l = foldl g a l.
Proof.
  revert a. induction l as [|b l IH]; intros a Hfg; [done|].
  simpl. rewrite Hfg by left. apply IH. intros x b' Hb'. apply Hfg. by right.
Qed.

Lemma flag_at_app_l (l1 l2 : list bool) (i : nat) :
  (i < length l1)%nat → flag_at (l1 ++ l2) i = flag_at l1 i.
Proof. intros Hi. unfold flag_at. by rewrite lookup_app_l. Qed.

Lemma count_axes_app_l (n : nat) (l1 l2 : list bool) :
  (n ≤ length l1)%nat → count_axes n (l1 ++ l2) = count_axes n l1.
Proof.
  intros Hn. unfold count_axes. apply foldl_ext_in.
  intros x i Hi. apply elem_of_seq in Hi. rewrite flag_at_app_l; [done|lia].
Qed.

Lemma count_axes_snoc (l : list bool) (b : bool) :
  count_axes (S (length l)) (l ++ [b]) =
  count_axes (length l) l + (if b then 1 else 0).
Proof.
  unfold count_axes at 1. rewrite seq_S, foldl_app. simpl.
  replace (flag_at (l ++ [b]) (length l)) with b.
  2:{ unfold flag_at. rewrite lookup_app_r by lia.
      by rewrite Nat.sub_diag. }
  fold (count_axes (length l) (l ++ [b])).
  rewrite count_axes_app_l by lia. destruct b; lia.
Qed.

(** [count_axes] over the whole flag vector counts the flagged axes. *)
Lemma count_axes_num_flagged (l : list bool) :
  count_axes (length l) l = Z.of_nat (num_flagged l).
Proof.
  induction l as [|b l IH] using rev_ind; [done|].
  rewrite length_app. simpl. rewrite Nat.add_1_r, count_axes_snoc, IH.
  unfold num_flagged. rewrite filter_app, length_app.
  destruct b; simpl; lia.
Qed.

Lemma result_axes_loop_snoc (n : nat) (l : list bool) (k : bool) :
  result_axes_loop (S n) l k = axes_step l k (result_axes_loop n l k) n.
Proof. unfold result_axes_loop. by rewrite seq_S, foldl_app. Qed.

Lemma count_axes_S (n : nat) (l : list bool) :
  count_axes (S n) l = count_axes n l + (if flag_at l n then 1 else 0).
Proof.
  unfold count_axes. rewrite seq_S, foldl_app. simpl.
  destruct (flag_at l n); lia.
Qed.

(** [curr_axis] after the loop of lines 258-272: the operand's rank when
    [keepdims], the rank minus the number of flagged axes otherwise. *)
Lemma result_axes_loop_curr_axis (n : nat) (l : list bool) (k : bool) :
  Z.of_nat (al_curr_axis (result_axes_loop n l k)) =
  if k then Z.of_nat n else Z.of_nat n - count_axes n l.
Proof.
  induction n as [|n IH]; [by destruct k|].
  rewrite result_axes_loop_snoc, count_axes_S. unfold axes_step.
  destruct (flag_at l n), k; simpl in *; lia.
Qed.

Lemma num_flagged_le (l : list bool) : (num_flagged l ≤ length l)%nat.
Proof. unfold num_flagged. apply length_filter. Qed.

Lemma curr_axis_expected_rank (l : list bool) (k : bool) :
  al_curr_axis (result_axes_loop (length l) l k) = expected_rank (length l) l k.
Proof.
  pose proof (result_axes_loop_curr_axis (length l) l k) as Hc.
  rewrite count_axes_num_flagged in Hc. pose proof (num_flagged_le l).
  unfold expected_rank. destruct k; lia.
Qed.

(* ===================================================================== *)
(** * The driver: validation and planning *)
(* ===================================================================== *)

Section Validation.
Context `{H : Host}.

Variables (operand : ref) (out wheremask : option ref).
Variables (operand_dtype result_dtype : PyArray_Descr) (casting : Z).
Variables (axis_flags : list bool) (keepdims : bool).
Variables (identity : option Scalar) (loop : PyArray_ReduceLoopFunc).
Variables (data : UserData) (buffersize : Z) (funcname : string).
Variables (errormask : Z) (st : St host_state).

Hypothesis flags_rank : length axis_flags = PyArray_NDIM operand (world st).

(** C2. More than one flagged axis on a non-reorderable reduction: the
    driver fails with NonReorderableMultiAxisError whatever the operand's
    shape, the other arguments and the collaborators are; it does so
    before anything is allocated or iterated (objects, memory and the call
    log are those of the initial state). *)
Theorem C2_non_reorderable_multi_axis :
  (1 < num_flagged axis_flags)%nat →
  PyUFunc_ReduceWrapper operand out wheremask operand_dtype result_dtype
    casting axis_flags false keepdims identity loop data buffersize
    funcname errormask st
  = (None, raised st (NonReorderableMultiAxisError funcname)).
Proof using flags_rank.
  intros Hmany. unfold PyUFunc_ReduceWrapper. run_monad.
  rewrite <- flags_rank, count_axes_num_flagged.
  destruct (1 <? Z.of_nat (num_flagged axis_flags)) eqn:Hc; [done|].
  apply Z.ltb_ge in Hc. lia.
Qed.

(** C3, as the code has it. A where-mask without an identity fails with
    WhereWithoutIdentityError, whatever the operand, the axis flags and
    keepdims are, once the reorderability check has passed (the reduction
    is reorderable or at most one axis is flagged); nothing is allocated
    or iterated. *)
Theorem C3_where_without_identity (reorderable : bool) (m : ref) :
  wheremask = Some m →
  identity = None →
  reorderable = true ∨ (num_flagged axis_flags ≤ 1)%nat →
  PyUFunc_ReduceWrapper operand out wheremask operand_dtype result_dtype
    casting axis_flags reorderable keepdims identity loop data buffersize
    funcname errormask st
  = (None, raised st (WhereWithoutIdentityError funcname)).
Proof using flags_rank.
  intros -> -> Hre. unfold PyUFunc_ReduceWrapper. run_monad.
  rewrite <- flags_rank, count_axes_num_flagged.
  replace (negb reorderable && (1 <? Z.of_nat (num_flagged axis_flags)))
    with false; [done|].
  symmetry. destruct Hre as [-> | Hle]; [done|].
  apply andb_false_iff. right. apply Z.ltb_ge. lia.
Qed.

(** C6, as the code has it. Once the two validation checks have passed, a
    caller-supplied output whose rank differs from the computed output
    rank (the operand's rank under keepdims, the operand's rank minus the
    number of flagged axes otherwise) makes the driver fail with
    OutputShapeMismatchError; the message reports the rank found and the
    rank expected, and its wording under keepdims differs from the wording
    without. No collaborator is called. *)
Theorem C6_output_rank_mismatch (reorderable : bool) (o : ref) :
  out = Some o →
  reorderable = true ∨ (num_flagged axis_flags ≤ 1)%nat →
  wheremask = None ∨ identity ≠ None →
  PyArray_NDIM o (world st) ≠
    expected_rank (PyArray_NDIM operand (world st)) axis_flags keepdims →
  PyUFunc_ReduceWrapper operand out wheremask operand_dtype result_dtype
    casting axis_flags reorderable keepdims identity loop data buffersize
    funcname errormask st
  = (None,
     raised st (OutputShapeMismatchError funcname keepdims
               (Z.of_nat (PyArray_NDIM o (world st)))
               (Z.of_nat (expected_rank (PyArray_NDIM operand (world st))
                                        axis_flags keepdims))))
  ∧ fmt (OutputShapeMismatchError funcname true 0 0) ≠
    fmt (OutputShapeMismatchError funcname false 0 0).
Proof using flags_rank.
  intros -> Hre Hwh Hrank. split; [|done].
  unfold PyUFunc_ReduceWrapper. run_monad.
  rewrite <- flags_rank in *. rewrite count_axes_num_flagged.
  replace (negb reorderable && (1 <? Z.of_nat (num_flagged axis_flags)))
    with false.
  2:{ symmetry. destruct Hre as [-> | Hle]; [done|].
      apply andb_false_iff. right. apply Z.ltb_ge. lia. }
  replace (bool_decide (is_Some wheremask) && bool_decide (identity = None))
    with false.
  2:{ symmetry. apply andb_false_iff. destruct Hwh as [-> | Hid].
      - left. apply bool_decide_eq_false. by intros [? ?].
      - right. by apply bool_decide_eq_false. }
  assert (Hw : ∀ (k : option PyArray_Descr → M host_state (option ref)),
    (let (a, st') :=
       match wheremask with
       | Some m => λ st0 : St host_state, (Some (PyArray_DESCR m (world st0)), st0)
       | None => λ st0 : St host_state, (None, st0)
       end st in k a st') =
    k (match wheremask with
       | Some m => Some (PyArray_DESCR m (world st)) | None => None end) st).
  { intros k. by destruct wheremask. }
  rewrite Hw. rewrite curr_axis_expected_rank.
  rewrite bool_decide_eq_false_2 by done. simpl.
  unfold OutputShapeMismatchError, raised. by destruct keepdims.
Qed.
End Validation.

(* ===================================================================== *)
(** * The driver: what a run returns and which calls it makes *)
(* ===================================================================== *)

Section Runs.
Context `{H : Host}.

Implicit Types (st : St host_state) (evs : list Event).

Lemma new_events_app st st' evs :
  log st' = log st ++ evs → new_events st st' = evs.
Proof. intros Hl. unfold new_events. rewrite Hl. apply drop_app_length. Qed.

Lemma seed_run result operand axis_flags funcname keepdims st r st' :
  PyArray_CopyInitialReduceValues result operand axis_flags funcname
                                  keepdims st = (r, st') →
  ∃ evs, log st' = log st ++ evs ∧ no_loop evs ∧
         (0 ≤ r → ∃ src, EvCopyInto result src ∈ evs).
Proof.
  unfold PyArray_CopyInitialReduceValues. run_monad. intros Hrun. steps;
    (eexists; split; [log_ext|]; split;
     [ intros ? ? Hin; event_cases Hin
     | first [ lia
             | intros _; eexists;
               apply list_elem_of_further, list_elem_of_here ] ]).
Qed.

Lemma reduce_iterate_run out loop data errormask iter result needs_api
      skip st r st' :
  reduce_iterate out loop data errormask iter result needs_api skip st
    = (r, st') →
  (∀ x, r = Some x → x = from_option id result out) ∧
  ∃ evs, log st' = log st ++ evs ∧ loop_skip skip evs.
Proof.
  unfold reduce_iterate, fail. run_monad. intros Hrun. steps;
    (split;
     [ intros x Hx; try discriminate; by inversion Hx
     | eexists; split; [log_ext|]; intros ? ? Hin; event_cases Hin ]).
Qed.
End Runs.

Section WrapperRuns.
Context `{H : Host}.

Implicit Types (st : St host_state) (evs : list Event).

Lemma reduce_seed_run operand out axis_flags keepdims identity loop data
      funcname errormask iter st r st' :
  reduce_seed operand out axis_flags keepdims identity loop data funcname
              errormask iter st = (r, st') →
  (∀ x, r = Some x → x = from_option id (NpyIter_GetOperandArray iter 0) out) ∧
  ∃ evs, log st' = log st ++ evs ∧ skip_discipline identity evs.
Proof.
  unfold reduce_seed, fail. run_monad. intros Hrun.
  destruct identity as [v|]; run_monad.
  - destruct (PyArray_FillWithScalar _ _ _) as [rc w1] eqn:Hfill.
    destruct (rc <? 0).
    + steps. split; [done|]. eexists. split; [log_ext|].
      intros ? ? Hin. event_cases Hin.
    + apply reduce_iterate_run in Hrun as [Hret (evs & Hlog & Hskip)].
      split; [done|]. simpl in Hlog. eexists. split.
      { rewrite Hlog, <- app_assoc. reflexivity. }
      intros n s Hin. assert (s = 0) as ->.
      { apply elem_of_app in Hin as [Hin|Hin]; [event_cases Hin|by eapply Hskip]. }
      split; [done|lia].
  - destruct (PyArray_CopyInitialReduceValues _ _ _ _ _ _)
      as [skip st1] eqn:Hseed.
    apply seed_run in Hseed as (evs1 & Hlog1 & Hno & Hcopy).
    destruct (skip <? 0) eqn:Hneg.
    + steps. split; [done|]. eexists. split.
      { rewrite Hlog1, <- app_assoc. reflexivity. }
      intros n s Hin. apply elem_of_app in Hin as [Hin|Hin].
      * by destruct (Hno n s).
      * event_cases Hin.
    + apply reduce_iterate_run in Hrun as [Hret (evs & Hlog & Hskip)].
      split; [done|]. eexists. split.
      { rewrite Hlog, Hlog1, <- app_assoc. reflexivity. }
      intros n s Hin. split; [by intros [? ?]|]. intros _. split; [done|].
      apply Z.ltb_ge in Hneg. destruct (Hcopy Hneg) as [src Hsrc].
      exists (NpyIter_GetOperandArray iter 0), src.
      apply elem_of_app. by left.
Qed.

Lemma skip_discipline_cons identity ev evs :
  (∀ n s, ev ≠ EvLoop n s) →
  skip_discipline identity evs → skip_discipline identity (ev :: evs).
Proof.
  intros Hev Hd n s Hin. apply elem_of_cons in Hin as [Heq|Hin].
  - by destruct (Hev n s).
  - destruct (Hd n s Hin) as [H0 Hnz]. split; [done|].
    intros Hs. destruct (Hnz Hs) as (? & dst & src & ?).
    split; [done|]. exists dst, src. by right.
Qed.

Lemma skip_discipline_no_loop identity evs :
  no_loop evs → skip_discipline identity evs.
Proof. intros Hn n s Hin. by destruct (Hn n s). Qed.

Lemma reduce_construct_run operand out axis_flags keepdims identity loop
      data funcname errormask args st r st' :
  reduce_construct operand out axis_flags keepdims identity loop data
                   funcname errormask args st = (r, st') →
  (∀ x o, out = Some o → r = Some x → x = o) ∧
  ∃ evs, log st' = log st ++ evs ∧ skip_discipline identity evs.
Proof.
  unfold reduce_construct, fail. run_monad. intros Hrun.
  destruct (NpyIter_AdvancedNew args (world st)) as [[iter|] w1].
  - apply reduce_seed_run in Hrun as [Hret (evs & Hlog & Hd)].
    split.
    + intros x o -> Hx. by apply Hret in Hx.
    + simpl in Hlog. eexists. split.
      { rewrite Hlog, <- app_assoc. reflexivity. }
      by apply skip_discipline_cons.
  - inversion Hrun; subst. split; [done|]. eexists. split; [done|].
    apply skip_discipline_cons; [done|].
    apply skip_discipline_no_loop. intros n s Hin.
    by apply not_elem_of_nil in Hin.
Qed.

(** The run of the whole driver: the object returned when an output was
    supplied, and the skip counts the callback can see. *)
Lemma wrapper_run operand out wheremask operand_dtype result_dtype casting
      axis_flags reorderable keepdims identity loop data buffersize
      funcname errormask st r st' :
  PyUFunc_ReduceWrapper operand out wheremask operand_dtype result_dtype
    casting axis_flags reorderable keepdims identity loop data buffersize
    funcname errormask st = (r, st') →
  (∀ x o, out = Some o → r = Some x → x = o) ∧
  ∃ evs, log st' = log st ++ evs ∧ skip_discipline identity evs.
Proof.
  unfold PyUFunc_ReduceWrapper, fail. run_monad. intros Hrun.
  assert (Hnil : skip_discipline identity []).
  { apply skip_discipline_no_loop. intros n s Hin.
    by apply not_elem_of_nil in Hin. }
  destruct (negb reorderable && _).
  { steps. split; [done|]. exists []. by rewrite app_nil_r. }
  destruct (bool_decide (is_Some wheremask) && _).
  { steps. split; [done|]. exists []. by rewrite app_nil_r. }
  destruct wheremask as [m|]; simpl in Hrun.
  all: destruct out as [o|]; [|by eapply reduce_construct_run].
  all: destruct (negb (bool_decide _)).
  all: try (by eapply reduce_construct_run).
  all: inversion Hrun; subst; split; [done|]; exists []; by rewrite app_nil_r.
Qed.

(** C7. A successful call with a caller-supplied output returns that very
    array object, whatever operand 0 of the iterator is. *)
Theorem C7_returns_supplied_out operand o wheremask operand_dtype
      result_dtype casting axis_flags reorderable keepdims identity loop
      data buffersize funcname errormask st x st' :
  PyUFunc_ReduceWrapper operand (Some o) wheremask operand_dtype
    result_dtype casting axis_flags reorderable keepdims identity loop
    data buffersize funcname errormask st = (Some x, st') →
  x = o.
Proof. intros Hrun. apply wrapper_run in Hrun as [Hret _]. by eapply Hret. Qed.

(** C9. In every call with an identity the accumulation callback is only
    ever handed skip_first_count = 0; a callback invocation with a
    non-zero skip count happens only in a call without identity, after the
    seeder has copied the initial values. *)
Theorem C9_skip_count_zero_with_identity operand out wheremask
      operand_dtype result_dtype casting axis_flags reorderable keepdims
      identity loop data buffersize funcname errormask st r st' n s :
  PyUFunc_ReduceWrapper operand out wheremask operand_dtype result_dtype
    casting axis_flags reorderable keepdims identity loop data buffersize
    funcname errormask st = (r, st') →
  EvLoop n s ∈ new_events st st' →
  (is_Some identity → s = 0) ∧
  (s ≠ 0 → identity = None ∧
           ∃ dst src, EvCopyInto dst src ∈ new_events st st').
Proof.
  intros Hrun Hin. apply wrapper_run in Hrun as [_ (evs & Hlog & Hd)].
  rewrite (new_events_app _ _ _ Hlog) in *. exact (Hd n s Hin).
Qed.
End WrapperRuns.

(* ===================================================================== *)
(** * The seeder *)
(* ===================================================================== *)

Lemma wrap_signed_small (bits z : Z) :
  0 < bits → - 2 ^ (bits - 1) ≤ z < 2 ^ (bits - 1) → wrap_signed bits z = z.
Proof.
  intros Hb Hz. unfold wrap_signed.
  assert (Hp : 2 ^ bits = 2 * 2 ^ (bits - 1)).
  { rewrite <- Z.pow_succ_r by lia. f_equal. lia. }
  rewrite Z.mod_small by lia. lia.
Qed.

Lemma to_intp_small (z : Z) : - 2 ^ 63 ≤ z ≤ NPY_MAX_INTP → to_intp z = z.
Proof. intros Hz. apply wrap_signed_small; unfold NPY_MAX_INTP in *; lia. Qed.

Lemma to_int_small (z : Z) : - 2 ^ 31 ≤ z ≤ INT_MAX → to_int z = z.
Proof. intros Hz. apply wrap_signed_small; unfold INT_MAX in *; lia. Qed.

(** What comes back through an [int] is an [int]. *)
Lemma to_int_range (z : Z) : - 2 ^ 31 ≤ to_int z ≤ INT_MAX.
Proof.
  unfold to_int, wrap_signed, INT_MAX.
  pose proof (Z.mod_pos_bound (z + 2 ^ (32 - 1)) (2 ^ 32) ltac:(lia)). lia.
Qed.

Lemma product_nonneg (l : list Z) : Forall (λ d, 0 ≤ d) l → 0 ≤ product l.
Proof. unfold product. induction 1; simpl; lia. Qed.

Lemma product_nonzero_pos (l : list Z) :
  Forall (λ d, 0 ≤ d) l → 1 ≤ product (filter (λ d, d ≠ 0) l).
Proof.
  unfold product. induction 1 as [|d l Hd Hl IH]; simpl; [lia|].
  destruct (decide (d = 0)) as [->|Hnz].
  - by rewrite filter_cons_False by (intros ?; done).
  - rewrite filter_cons_True by done. simpl. nia.
Qed.

(** Without overflow the loop's [size] is the plain product. *)
Lemma intp_product_exact (size : Z) (l : list Z) :
  0 ≤ size → Forall (λ d, 0 ≤ d) l →
  size * product (filter (λ d, d ≠ 0) l) ≤ NPY_MAX_INTP →
  intp_product size l = size * product l.
Proof.
  unfold intp_product. revert size.
  induction l as [|d l IH]; intros size Hs Hl Hmax; simpl.
  { unfold product. simpl. lia. }
  apply Forall_cons in Hl as [Hd Hl].
  pose proof (product_nonzero_pos l Hl) as Hpos.
  unfold product in *. simpl. destruct (decide (d = 0)) as [->|Hnz].
  - rewrite Z.mul_0_r. rewrite to_intp_small by (unfold NPY_MAX_INTP; lia).
    rewrite IH; [lia|lia|done|]. unfold NPY_MAX_INTP. lia.
  - rewrite filter_cons_True in Hmax by done. simpl in Hmax.
    rewrite to_intp_small.
    + rewrite IH; [lia|nia|done|]. lia.
    + split; [nia|]. nia.
Qed.

Lemma kept_extents_nonneg (fs : list bool) (ds : list Z) :
  Forall (λ d, 0 ≤ d) ds → Forall (λ d, 0 ≤ d) (kept_extents fs ds).
Proof.
  intros Hall. revert fs.
  induction Hall as [|d ds Hd Hds IH]; intros [|f fs]; simpl; try done.
  destruct f; [apply IH|]. constructor; [done|apply IH].
Qed.

Lemma kept_extents_nonzero_le (fs : list bool) (ds : list Z) :
  Forall (λ d, 0 ≤ d) ds →
  product (filter (λ d, d ≠ 0) (kept_extents fs ds)) ≤
  product (filter (λ d, d ≠ 0) ds).
Proof.
  intros Hall. revert fs. induction Hall as [|d ds Hd Hds IH]; intros fs.
  { by destruct fs. }
  pose proof (product_nonzero_pos ds Hds) as Hpos.
  destruct fs as [|f fs]; simpl.
  { pose proof (product_nonzero_pos (d :: ds)) as Hp.
    unfold product in *. simpl. apply Hp. by constructor. }
  specialize (IH fs).
  pose proof (product_nonzero_pos (kept_extents fs ds)
                (kept_extents_nonneg fs ds Hds)) as Hpos'.
  destruct (decide (d = 0)) as [->|Hnz].
  - rewrite (filter_cons_False _ 0 ds) by (intros ?; done).
    destruct f; [done|]. by rewrite filter_cons_False by (intros ?; done).
  - rewrite (filter_cons_True _ d ds) by done.
    destruct f.
    + unfold product in *. simpl. nia.
    + rewrite filter_cons_True by done. unfold product in *. simpl. nia.
Qed.

(** A reduced axis of extent 0 makes the loop take its early return. *)
Lemma seed_axes_none axis_flags keepdims shape_orig strides_orig idims l idim :
  idim ∈ idims → flag_at axis_flags idim = true →
  intp_at shape_orig idim = 0 →
  seed_axes axis_flags keepdims shape_orig strides_orig idims l = None.
Proof.
  revert l. induction idims as [|i idims IH]; intros l Hin Hflag Hzero.
  { by apply not_elem_of_nil in Hin. }
  simpl. apply elem_of_cons in Hin as [<-|Hin].
  - by rewrite Hflag, Hzero.
  - destruct (flag_at axis_flags i); [|by apply IH].
    destruct (intp_at shape_orig i =? 0); [done|].
    destruct keepdims; by apply IH.
Qed.

Lemma flag_at_middle (pre rest : list bool) (f : bool) :
  flag_at (pre ++ f :: rest) (length pre) = f.
Proof.
  unfold flag_at. rewrite lookup_app_r by lia. by rewrite Nat.sub_diag.
Qed.

Lemma intp_at_middle (pre rest : list Z) (d : Z) (k : nat) :
  length pre = k → intp_at (pre ++ d :: rest) k = d.
Proof.
  intros <-. unfold intp_at. rewrite lookup_app_r by lia.
  by rewrite Nat.sub_diag.
Qed.

Lemma take_S_insert (l : list Z) (n : nat) (v : Z) :
  (n < length l)%nat → take (S n) (<[n := v]> l) = take n l ++ [v].
Proof.
  intros Hn. rewrite (take_S_r _ _ v) by by apply list_lookup_insert_eq.
  by rewrite take_insert_ge by lia.
Qed.

(** The loop invariant of lines 93-113: started after the axes [fpre] with
    locals [l], the loop over the remaining axes appends the view's extents
    and strides to the buffers and multiplies [size] by the extents of the
    non-reduced axes. *)
Lemma seed_axes_gen (keepdims : bool) (frest : list bool) :
  ∀ (drest srest : list Z) (fpre : list bool) (dpre spre : list Z)
    (l : SeedLocals),
  length dpre = length fpre → length spre = length fpre →
  length drest = length frest → length srest = length frest →
  Forall (λ d, d ≠ 0) (reduced_extents frest drest) →
  length (sl_strides l) = length (sl_shape l) →
  (sl_idim_out l + length frest ≤ length (sl_shape l))%nat →
  ∃ l', seed_axes (fpre ++ frest) keepdims (dpre ++ drest) (spre ++ srest)
                  (seq (length fpre) (length frest)) l = Some l' ∧
    sl_idim_out l' =
      (sl_idim_out l + length (view_shape frest keepdims drest))%nat ∧
    take (sl_idim_out l') (sl_shape l') =
      take (sl_idim_out l) (sl_shape l) ++ view_shape frest keepdims drest ∧
    take (sl_idim_out l') (sl_strides l') =
      take (sl_idim_out l) (sl_strides l) ++ view_strides frest keepdims srest ∧
    sl_size l' = intp_product (sl_size l) (kept_extents frest drest).
Proof.
  induction frest as [|f frest IH];
    intros drest srest fpre dpre spre l Hdp Hsp Hd Hs Hnz Hbuf Hroom.
  { destruct drest, srest; try done. exists l. simpl.
    rewrite !app_nil_r, Nat.add_0_r. done. }
  destruct drest as [|d drest]; [done|]. destruct srest as [|s srest]; [done|].
  simpl in Hd, Hs, Hroom. simpl seq. simpl seed_axes.
  rewrite flag_at_middle, (intp_at_middle dpre drest d) by done.
  rewrite (intp_at_middle spre srest s) by done.
  assert (Hf : fpre ++ f :: frest = (fpre ++ [f]) ++ frest)
    by by rewrite <- app_assoc.
  assert (Hdd : dpre ++ d :: drest = (dpre ++ [d]) ++ drest)
    by by rewrite <- app_assoc.
  assert (Hss : spre ++ s :: srest = (spre ++ [s]) ++ srest)
    by by rewrite <- app_assoc.
  assert (Hk : S (length fpre) = length (fpre ++ [f]))
    by (rewrite length_app; simpl; lia).
  rewrite Hf, Hdd, Hss, Hk.
  assert (Hdp' : length (dpre ++ [d]) = length (fpre ++ [f]))
    by (rewrite !length_app; simpl; lia).
  assert (Hsp' : length (spre ++ [s]) = length (fpre ++ [f]))
    by (rewrite !length_app; simpl; lia).
  destruct f; simpl in Hnz |- *.
  - apply Forall_cons in Hnz as [Hd0 Hnz].
    apply Z.eqb_neq in Hd0. rewrite Hd0. destruct keepdims.
    + edestruct (IH drest srest (fpre ++ [true]) (dpre ++ [d]) (spre ++ [s]))
        as (l' & Hrun & Hout & Hshape & Hstr & Hsize);
        [done|done|lia|lia|done| | |].
      3:{ exists l'. split; [exact Hrun|]. simpl in *.
          rewrite !take_S_insert in * by lia.
          rewrite Hshape, Hstr, <- !app_assoc. split; [lia|done]. }
      * simpl. by rewrite !length_insert.
      * simpl. rewrite length_insert. lia.
    + edestruct (IH drest srest (fpre ++ [true]) (dpre ++ [d]) (spre ++ [s]) l)
        as (l' & Hrun & Hout & Hshape & Hstr & Hsize);
        [done|done|lia|lia|done|done|lia|].
      exists l'. done.
  - edestruct (IH drest srest (fpre ++ [false]) (dpre ++ [d]) (spre ++ [s]))
      as (l' & Hrun & Hout & Hshape & Hstr & Hsize);
      [done|done|lia|lia|done| | |].
    3:{ exists l'. split; [exact Hrun|]. simpl in *.
        rewrite !take_S_insert in * by lia.
        rewrite Hshape, Hstr, <- !app_assoc. split; [lia|done]. }
    * simpl. by rewrite !length_insert.
    * simpl. rewrite length_insert. lia.
Qed.

(** On a well-formed operand whose reduced axes all have elements, the loop
    runs to its end and leaves the documented view in the buffers. *)
Lemma seed_view_some (axis_flags : list bool) (keepdims : bool)
    (a : PyArrayObject) :
  wf_array a →
  length axis_flags = length (f_dimensions a) →
  Forall (λ d, d ≠ 0) (reduced_extents axis_flags (f_dimensions a)) →
  ∃ l, seed_view axis_flags keepdims a = Some l ∧
    sl_idim_out l = length (view_shape axis_flags keepdims (f_dimensions a)) ∧
    take (sl_idim_out l) (sl_shape l) =
      view_shape axis_flags keepdims (f_dimensions a) ∧
    take (sl_idim_out l) (sl_strides l) =
      view_strides axis_flags keepdims (f_strides a) ∧
    sl_size l = product (kept_extents axis_flags (f_dimensions a)).
Proof.
  intros (Hmax & Hstr & Hnonneg & Hfit) Hlen Hnz.
  assert (Hroom : (sl_idim_out seed_init + length axis_flags
                   ≤ length (sl_shape seed_init))%nat).
  { change (length (sl_shape seed_init)) with NPY_MAXDIMS. simpl. lia. }
  destruct (seed_axes_gen keepdims axis_flags (f_dimensions a) (f_strides a)
              [] [] [] seed_init eq_refl eq_refl (eq_sym Hlen)
              (eq_trans Hstr (eq_sym Hlen)) Hnz eq_refl Hroom)
    as (l & Hrun & Hout & Hshape & Hstrides & Hsize).
  exists l. unfold seed_view. simpl in Hrun. rewrite <- Hlen.
  split; [exact Hrun|]. simpl in *. split; [done|]. split; [done|].
  split; [done|]. rewrite Hsize, intp_product_exact; [lia|lia| |].
  - by apply kept_extents_nonneg.
  - pose proof (kept_extents_nonzero_le axis_flags _ Hnonneg). lia.
Qed.

Section Seeder.
Context `{H : Host}.

Variables (result operand : ref) (axis_flags : list bool).
Variables (funcname : string) (keepdims : bool) (st : St host_state).

(** C10. When a reduced axis has extent 0 the seeder returns -1 with
    EmptyReductionError pending, and that is all it does: the check comes
    before the view is built and before anything is copied, so objects and
    memory (the result buffer included) are those of the initial state and
    no collaborator was called. *)
Theorem C10_seed_error_leaves_result_untouched (idim : nat) :
  (idim < PyArray_NDIM operand (world st))%nat →
  flag_at axis_flags idim = true →
  intp_at (PyArray_SHAPE operand (world st)) idim = 0 →
  PyArray_CopyInitialReduceValues result operand axis_flags funcname
                                  keepdims st
    = (-1, raised st (EmptyReductionError funcname))
  ∧ memory (world (raised st (EmptyReductionError funcname))) = memory (world st)
  ∧ objects (world (raised st (EmptyReductionError funcname))) = objects (world st)
  ∧ log (raised st (EmptyReductionError funcname)) = log st.
Proof.
  intros Hidim Hflag Hzero. split; [|done].
  unfold PyArray_CopyInitialReduceValues. run_monad.
  rewrite (seed_axes_none _ _ _ _ _ _ idim); try done.
  apply elem_of_seq. lia.
Qed.

(** What the seeder returns once its loop has passed and both collaborators
    have succeeded: [size], narrowed to the [int] return type. *)
Lemma seed_returns (a : PyArrayObject) (l : SeedLocals) (v : ref)
    (w1 w2 : World host_state) (rc : Z) :
  objects (world st) !! operand = Some a →
  seed_view axis_flags keepdims a = Some l →
  PyArray_NewFromDescr (f_descr a) (sl_idim_out l) (sl_shape l)
                       (sl_strides l) (f_data a) 0 (world st) = (Some v, w1) →
  PyArray_CopyInto result v w1 = (rc, w2) →
  0 ≤ rc →
  PyArray_CopyInitialReduceValues result operand axis_flags funcname
                                  keepdims st
    = (to_int (sl_size l),
       mkSt w2 (log st ++ [EvNewFromDescr (f_descr a) (sl_idim_out l)
                             (sl_shape l) (sl_strides l) (f_data a) 0;
                           EvCopyInto result v])).
Proof.
  intros Ha Hview Hnew Hcopy Hrc.
  unfold PyArray_CopyInitialReduceValues. run_monad.
  unfold PyArray_NDIM, PyArray_SHAPE, PyArray_STRIDES, PyArray_DESCR,
         PyArray_DATA. rewrite Ha. simpl.
  unfold seed_view in Hview. rewrite Hview. simpl. rewrite !Ha. simpl.
  rewrite Hnew. simpl. rewrite Hcopy. simpl.
  assert ((rc <? 0) = false) as -> by (apply Z.ltb_ge; lia).
  by rewrite <- app_assoc.
Qed.

(** C4, on the code. When every reduced axis has a non-zero extent the
    zero-extent check passes, and when the view construction and the copy
    succeed the seeder returns the product of the extents of the
    non-reduced axes as the [int] return type holds it: the product itself
    when it is at most [INT_MAX], and another value, never the product,
    when it is larger.  [size] is an [npy_intp] and is narrowed by the
    [return] (lines 71, 92, 140); the function's own description (lines
    68-69) and its caller, which stores the result in an [npy_intp] (lines
    195, 323), expect the product. *)
Theorem C4_seed_returns_narrowed_product (a : PyArrayObject) :
  objects (world st) !! operand = Some a →
  wf_array a →
  length axis_flags = length (f_dimensions a) →
  Forall (λ d, d ≠ 0) (reduced_extents axis_flags (f_dimensions a)) →
  ∃ l, seed_view axis_flags keepdims a = Some l ∧
    ∀ v w1 rc w2,
      PyArray_NewFromDescr (f_descr a) (sl_idim_out l) (sl_shape l)
                           (sl_strides l) (f_data a) 0 (world st) = (Some v, w1) →
      PyArray_CopyInto result v w1 = (rc, w2) →
      0 ≤ rc →
      let kept := product (kept_extents axis_flags (f_dimensions a)) in
      PyArray_CopyInitialReduceValues result operand axis_flags funcname
                                      keepdims st
        = (to_int kept,
           mkSt w2 (log st ++ [EvNewFromDescr (f_descr a) (sl_idim_out l)
                                 (sl_shape l) (sl_strides l) (f_data a) 0;
                               EvCopyInto result v])) ∧
      (kept ≤ INT_MAX → to_int kept = kept) ∧
      (INT_MAX < kept → to_int kept ≠ kept).
Proof.
  intros Ha Hwf Hlen Hnz.
  destruct (seed_view_some axis_flags keepdims a Hwf Hlen Hnz)
    as (l & Hview & _ & _ & _ & Hsize).
  exists l. split; [done|]. intros v w1 rc w2 Hnew Hcopy Hrc kept.
  split; [|split].
  - rewrite (seed_returns a l v w1 w2 rc) by done. by rewrite Hsize.
  - intros Hfit. apply to_int_small.
    destruct Hwf as (_ & _ & Hnonneg & _).
    pose proof (product_nonneg _ (kept_extents_nonneg axis_flags _ Hnonneg)).
    subst kept. lia.
  - intros Hbig. pose proof (to_int_range kept). lia.
Qed.
End Seeder.

(* ===================================================================== *)
(** * Reducing axes of extent 1 *)
(* ===================================================================== *)

Lemma offsets_unit_axis (s : Z) (ds ss : list Z) :
  offsets (1 :: ds) (s :: ss) = offsets ds ss.
Proof.
  simpl. change (seqZ 0 1) with [0]. simpl. rewrite app_nil_r.
  rewrite <- (list_fmap_id (offsets ds ss)) at 2.
  apply list_fmap_ext. intros _ o _. simpl. lia.
Qed.

(** Dropping reduced axes of extent 1, or keeping them with stride 0, does
    not change which elements the view denotes, nor their order. *)
Lemma offsets_view_unit_axes (fs : list bool) (k : bool) (ds ss : list Z) :
  length ds = length fs → length ss = length fs →
  Forall (λ d, d = 1) (reduced_extents fs ds) →
  offsets (view_shape fs k ds) (view_strides fs k ss) = offsets ds ss.
Proof.
  revert ds ss. induction fs as [|f fs IH]; intros ds ss Hd Hs Hone.
  { by destruct ds, ss. }
  destruct ds as [|d ds]; [done|]. destruct ss as [|s ss]; [done|].
  simpl in Hd, Hs.
  destruct f; simpl in Hone; simpl view_shape; simpl view_strides.
  - apply Forall_cons in Hone as [-> Hone].
    rewrite (offsets_unit_axis s ds ss).
    destruct k; [rewrite offsets_unit_axis|]; apply IH; done || lia.
  - cbn [offsets]. rewrite IH by (done || lia). done.
Qed.

Lemma view_shape_keepdims_unit (fs : list bool) (ds : list Z) :
  length ds = length fs →
  Forall (λ d, d = 1) (reduced_extents fs ds) →
  view_shape fs true ds = ds.
Proof.
  revert ds. induction fs as [|f fs IH]; intros [|d ds] Hd Hone; try done.
  simpl in Hd. destruct f; simpl in Hone |- *.
  - apply Forall_cons in Hone as [-> Hone]. rewrite IH; done || lia.
  - rewrite IH; done || lia.
Qed.

Lemma view_shape_no_keepdims (fs : list bool) (ds : list Z) :
  view_shape fs false ds = kept_extents fs ds.
Proof.
  revert ds. induction fs as [|f fs IH]; intros [|d ds]; try done.
  simpl. destruct f; by rewrite IH.
Qed.

Lemma view_strides_length (fs : list bool) (k : bool) (ds ss : list Z) :
  length ds = length fs → length ss = length fs →
  length (view_strides fs k ss) = length (view_shape fs k ds).
Proof.
  revert ds ss. induction fs as [|f fs IH]; intros [|d ds] [|s ss] Hd Hs;
    try done.
  simpl in Hd, Hs. simpl. destruct f, k; simpl; rewrite (IH ds ss); lia.
Qed.

Lemma product_kept_unit (fs : list bool) (ds : list Z) :
  length ds = length fs →
  Forall (λ d, d = 1) (reduced_extents fs ds) →
  product (kept_extents fs ds) = product ds.
Proof.
  unfold product.
  revert ds. induction fs as [|f fs IH]; intros [|d ds] Hd Hone; try done.
  simpl in Hd. destruct f; simpl in Hone |- *.
  - apply Forall_cons in Hone as [-> Hone]. rewrite IH; [lia|lia|done].
  - rewrite IH; [lia|lia|done].
Qed.

Lemma length_bind_const {A B} (f : A → list B) (l : list A) (k : nat) :
  (∀ x, length (f x) = k) → length (l ≫= f) = (length l * k)%nat.
Proof.
  intros Hf. induction l as [|x l IH]; [done|].
  rewrite bind_cons, length_app, Hf, IH. simpl. lia.
Qed.

(** An array has as many elements as the product of its extents. *)
Lemma length_offsets (ds ss : list Z) :
  length ss = length ds → Forall (λ d, 0 ≤ d) ds →
  Z.of_nat (length (offsets ds ss)) = product ds.
Proof.
  unfold product.
  revert ss. induction ds as [|d ds IH]; intros [|s ss] Hlen Hnn; try done.
  apply Forall_cons in Hnn as [Hd Hnn]. simpl in Hlen. cbn [offsets foldr].
  rewrite (length_bind_const _ _ (length (offsets ds ss))).
  2:{ intros x. by rewrite length_fmap. }
  rewrite length_seqZ, Nat2Z.inj_mul, IH by (done || lia).
  by rewrite Z2Nat.id by lia.
Qed.

Lemma length_footprint (a : PyArrayObject) :
  wf_array a → Z.of_nat (length (footprint a)) = product (f_dimensions a).
Proof.
  intros (_ & Hs & Hnn & _). unfold footprint.
  rewrite length_fmap. by apply length_offsets.
Qed.

Section UnitAxis.
Context `{H : Host}.

Variables (result operand : ref) (axis_flags : list bool).
Variables (funcname : string) (keepdims : bool) (st : St host_state).

(** C5, as the code has it. For a reduction without identity over exactly
    one flagged axis, of extent 1, the seeded slice is the whole answer:
    the view the seeder copies into the result is the operand itself,
    squeezed per keepdims (its shape is the operand's shape, or the
    operand's shape without the reduced axis, and it denotes the operand's
    elements in the operand's order), so that after a successful seeding
    a result of that shape and of the operand's element type holds the
    operand's elements (for a view constructor that builds the view it is
    asked for and a copy that, with nothing to broadcast and nothing to
    cast, copies element by element). The skip_first_count the seeder
    returns is not 0: it is the number of elements of the operand (the
    product of the non-reduced extents), whenever that number fits an
    [int]. *)
Theorem C5_unit_axis_seed (a : PyArrayObject) :
  objects (world st) !! operand = Some a →
  wf_array a →
  length axis_flags = length (f_dimensions a) →
  reduced_extents axis_flags (f_dimensions a) = [1] →
  ∃ l, seed_view axis_flags keepdims a = Some l ∧
    take (sl_idim_out l) (sl_shape l) =
      (if keepdims then f_dimensions a
       else kept_extents axis_flags (f_dimensions a)) ∧
    (λ o, f_data a + o) <$> offsets (take (sl_idim_out l) (sl_shape l))
                                    (take (sl_idim_out l) (sl_strides l))
      = footprint a ∧
    ∀ v w1 rc w2,
      PyArray_NewFromDescr (f_descr a) (sl_idim_out l) (sl_shape l)
                           (sl_strides l) (f_data a) 0 (world st) = (Some v, w1) →
      PyArray_CopyInto result v w1 = (rc, w2) →
      0 ≤ rc →
      (Z.of_nat (length (footprint a)) ≤ INT_MAX →
       PyArray_CopyInitialReduceValues result operand axis_flags funcname
                                       keepdims st
         = (Z.of_nat (length (footprint a)),
            mkSt w2 (log st ++ [EvNewFromDescr (f_descr a) (sl_idim_out l)
                                  (sl_shape l) (sl_strides l) (f_data a) 0;
                                EvCopyInto result v]))) ∧
      (host_view_post → host_view_frame → host_copy_post →
       ∀ ra, objects (world st) !! result = Some ra →
         f_dimensions ra = (if keepdims then f_dimensions a
                            else kept_extents axis_flags (f_dimensions a)) →
         f_descr ra = f_descr a →
         length (f_strides ra) = length (f_dimensions ra) →
         NoDup (footprint ra) →
         allocated (world st) a →
         elements w2 ra = elements (world st) a).
Proof.
  intros Ha Hwf Hlen Hred.
  assert (Hone : Forall (λ d, d = 1) (reduced_extents axis_flags (f_dimensions a)))
    by (rewrite Hred; by repeat constructor).
  assert (Hnz : Forall (λ d, d ≠ 0) (reduced_extents axis_flags (f_dimensions a)))
    by (rewrite Hred; by repeat constructor).
  destruct (seed_view_some axis_flags keepdims a Hwf Hlen Hnz)
    as (l & Hview & _ & Hshape & Hstrides & Hsize).
  pose proof Hwf as (_ & Hs & Hnn & _).
  assert (Hfoot : (λ o, f_data a + o)
                    <$> offsets (take (sl_idim_out l) (sl_shape l))
                                (take (sl_idim_out l) (sl_strides l))
                  = footprint a).
  { rewrite Hshape, Hstrides. unfold footprint.
    rewrite offsets_view_unit_axes; done || lia. }
  assert (Hext : take (sl_idim_out l) (sl_shape l) =
                  (if keepdims then f_dimensions a
                   else kept_extents axis_flags (f_dimensions a))).
  { rewrite Hshape. destruct keepdims.
    - apply view_shape_keepdims_unit; done || lia.
    - apply view_shape_no_keepdims. }
  exists l. split; [done|]. split; [exact Hext|split; [exact Hfoot|]].
  intros v w1 rc w2 Hnew Hcopy Hrc. split.
  - intros Hfit.
    rewrite (seed_returns result operand axis_flags funcname keepdims st
                          a l v w1 w2 rc) by done.
    rewrite Hsize, product_kept_unit by (done || lia).
    rewrite length_footprint in * by done.
    rewrite to_int_small; [done|].
    pose proof (product_nonneg _ Hnn). lia.
  - intros Hvpost Hvframe Hcpost ra Hra Hrad Hrat Hras Hnd Hal.
    pose proof (Hvpost _ _ _ _ _ _ _ _ _ Hnew) as Hv.
    destruct (Hvframe _ _ _ _ _ _ _ _ _ Hnew) as [Hst Hmem].
    set (va := mkArray (take (sl_idim_out l) (sl_shape l))
                       (take (sl_idim_out l) (sl_strides l))
                       (f_descr a) (f_data a) 0) in *.
    assert (Hfv : footprint va = footprint a) by exact Hfoot.
    assert (Hel : elements w1 va = elements (world st) a).
    { unfold elements. rewrite Hfv. apply list_fmap_ext. intros i p Hip.
      apply Hmem; [|apply not_elem_of_nil].
      exact (Forall_lookup_1 _ _ _ _ Hal Hip). }
    rewrite <- Hel.
    apply (Hcpost result v w1 rc w2 ra va Hcopy Hrc (Hst _ _ Hra) Hv).
    + subst va. simpl. by rewrite Hext.
    + exact Hrat.
    + exact Hras.
    + subst va. simpl. rewrite Hshape, Hstrides.
      apply view_strides_length; lia.
    + exact Hnd.
    + unfold allocated. rewrite Hfv. apply Forall_forall. intros p Hp.
      rewrite Hmem; [|by apply (proj1 (Forall_forall _ _) Hal)
                     |apply not_elem_of_nil].
      by apply (proj1 (Forall_forall _ _) Hal).
Qed.
End UnitAxis.

(* ===================================================================== *)
(** * The driver past validation *)
(* ===================================================================== *)

Section PastValidation.
Context `{H : Host}.

Variables (operand : ref) (out wheremask : option ref).
Variables (operand_dtype result_dtype : PyArray_Descr) (casting : Z).
Variables (axis_flags : list bool) (reorderable keepdims : bool).
Variables (identity : option Scalar) (loop : PyArray_ReduceLoopFunc).
Variables (data : UserData) (buffersize : Z) (funcname : string).
Variables (errormask : Z) (st : St host_state).

(** With the three checks passed the driver is its construction phase. *)
Lemma wrapper_past_validation :
  length axis_flags = PyArray_NDIM operand (world st) →
  validation_passes operand out wheremask axis_flags reorderable keepdims
                    identity st →
  PyUFunc_ReduceWrapper operand out wheremask operand_dtype result_dtype
    casting axis_flags reorderable keepdims identity loop data buffersize
    funcname errormask st
  = reduce_construct operand out axis_flags keepdims identity loop data
      funcname errormask
      (wrapper_iter_args operand out wheremask operand_dtype result_dtype
                         casting buffersize axis_flags keepdims (world st))
      st.
Proof.
  intros Hlen (Hre & Hwh & Hout).
  unfold PyUFunc_ReduceWrapper, wrapper_iter_args. run_monad.
  rewrite <- Hlen in *. rewrite count_axes_num_flagged.
  replace (negb reorderable && (1 <? Z.of_nat (num_flagged axis_flags)))
    with false.
  2:{ symmetry. destruct Hre as [-> | Hle]; [done|].
      apply andb_false_iff. right. apply Z.ltb_ge. lia. }
  replace (bool_decide (is_Some wheremask) && bool_decide (identity = None))
    with false.
  2:{ symmetry. apply andb_false_iff. destruct Hwh as [-> | Hid].
      - left. apply bool_decide_eq_false. by intros [? ?].
      - right. by apply bool_decide_eq_false. }
  rewrite curr_axis_expected_rank.
  destruct wheremask as [m|]; simpl.
  all: destruct out as [o|]; simpl; [|done].
  all: rewrite (Hout o eq_refl).
  all: by rewrite bool_decide_eq_true_2 by done.
Qed.
End PastValidation.


(* ===================================================================== *)
(** * Reducing an axis of extent 0 *)
(* ===================================================================== *)

Lemma obj_stable_refl {X} (w : World X) : obj_stable w w.
Proof. by intros r a. Qed.

Lemma obj_stable_trans {X} (w1 w2 w3 : World X) :
  obj_stable w1 w2 → obj_stable w2 w3 → obj_stable w1 w3.
Proof. intros H12 H23 r a Hr. by apply H23, H12. Qed.


Section EmptyReduction.
Context `{H : Host}.

Variables (operand : ref) (out : option ref).
Variables (axis_flags : list bool) (keepdims : bool).
Variables (loop : PyArray_ReduceLoopFunc).
Variables (data : UserData) (funcname : string).
Variables (errormask : Z) (st : St host_state).
Variables (a : PyArrayObject) (idim : nat).

Hypothesis operand_obj : objects (world st) !! operand = Some a.
Hypothesis idim_axis : (idim < length (f_dimensions a))%nat.
Hypothesis idim_flagged : flag_at axis_flags idim = true.
Hypothesis idim_empty : intp_at (f_dimensions a) idim = 0.





End EmptyReduction.

(* ===================================================================== *)
(** * The reference collaborators meet the contracts *)
(* ===================================================================== *)

Module RefLaws.
Import RefHost.

Lemma zip_fst_subset (ps : list addr) (vs : list Scalar) (p : addr) :
  p ∈ (zip ps vs).*1 → p ∈ ps.
Proof.
  revert vs. induction ps as [|q ps IH]; intros [|v vs] Hin; simpl in *;
    try by apply not_elem_of_nil in Hin.
  apply elem_of_cons in Hin as [->|Hin]; [by left|].
  right. by eapply IH.
Qed.

Lemma write_list_other (ps : list addr) (vs : list Scalar)
    (m : gmap addr Scalar) (p : addr) :
  p ∉ ps → write_list ps vs m !! p = m !! p.
Proof.
  intros Hp. unfold write_list. apply lookup_union_r.
  apply not_elem_of_list_to_map_1. intros Hin. apply Hp.
  by eapply zip_fst_subset.
Qed.


Lemma write_list_read (ps : list addr) (vs : list Scalar)
    (m : gmap addr Scalar) :
  NoDup ps → length vs = length ps →
  (λ p, write_list ps vs m !! p) <$> ps = Some <$> vs.
Proof.
  intros Hnd. revert vs. induction Hnd as [|q ps Hq Hnd IH]; intros [|v vs] Hlen;
    try done.
  simpl in Hlen. cbn [fmap list_fmap]. f_equal.
  - unfold write_list. apply lookup_union_Some_l. simpl. apply lookup_insert_eq.
  - rewrite <- (IH vs) by lia. apply list_fmap_ext. intros i p Hip.
    unfold write_list. simpl.
    assert (q ≠ p).
    { intros <-. apply Hq. by eapply list_elem_of_lookup_2. }
    by rewrite !lookup_union, lookup_insert_ne.
Qed.

(** Everything allocated lies below [mem_top]. *)
Lemma mem_top_above (m : gmap addr Scalar) (p : addr) :
  is_Some (m !! p) → p < mem_top m.
Proof.
  unfold mem_top.
  apply (map_fold_weak_ind
           (λ acc m', is_Some (m' !! p) → p < acc)).
  - intros [? Hx]. by rewrite lookup_empty in Hx.
  - intros k x m' acc Hk IH Hp.
    destruct (decide (k = p)) as [->|Hne]; [lia|].
    rewrite lookup_insert_ne in Hp by done. specialize (IH Hp). lia.
Qed.

(** The offsets of a C-contiguous array are not negative. *)
Lemma c_offsets_nonneg (ds : list Z) (o : Z) :
  o ∈ offsets ds (c_strides ds) → 0 ≤ o ∧ 0 < product ds.
Proof.
  unfold product.
  revert o. induction ds as [|d ds IH]; intros o Hin; simpl in *.
  { apply list_elem_of_singleton in Hin as ->. lia. }
  apply list_elem_of_bind in Hin as (i & Hin & Hi).
  apply list_elem_of_fmap in Hin as (o' & -> & Ho').
  apply elem_of_seqZ in Hi. destruct (IH o' Ho'). unfold product. nia.
Qed.

(** A fresh array sits in unallocated cells. *)
Lemma fresh_footprint (shape : list Z) (d : PyArray_Descr) (fl : Z)
    (m : gmap addr Scalar) :
  Forall (λ p, m !! p = None)
         (footprint (mkArray shape (c_strides shape) d (mem_top m) fl)).
Proof.
  apply Forall_forall. intros p Hp. unfold footprint in Hp. simpl in Hp.
  apply list_elem_of_fmap in Hp as (o & -> & Ho).
  apply c_offsets_nonneg in Ho as [Ho _].
  destruct (m !! (mem_top m + o)) eqn:Hm; [|done].
  assert (mem_top m + o < mem_top m) by (apply mem_top_above; by eexists).
  lia.
Qed.

Lemma alloc_frame (shape : list Z) (d : PyArray_Descr) (init : list Scalar)
    (w : RW) (r : ref) (w' : RW) :
  alloc shape d init w = (r, w') →
  frame [] w w' ∧ objects w !! r = None ∧
  objects w' !! r = Some (mkArray shape (c_strides shape) d (mem_top (memory w))
                                  NPY_ARRAY_WRITEABLE) ∧
  memory w' = write_list (footprint (mkArray shape (c_strides shape) d
                                             (mem_top (memory w))
                                             NPY_ARRAY_WRITEABLE))
                         init (memory w).
Proof.
  unfold alloc. intros Heq. inversion Heq; subst; clear Heq.
  assert (Hfresh : objects w !! fresh (dom (objects w)) = None).
  { apply not_elem_of_dom. apply is_fresh. }
  split; [split|split; [done|split]].
  - intros k a Hk. simpl. rewrite lookup_insert_ne; [done|].
    intros <-. by rewrite Hfresh in Hk.
  - intros p Hp _. simpl. apply write_list_other. intros Hin.
    pose proof (fresh_footprint shape d NPY_ARRAY_WRITEABLE (memory w)) as Hf.
    rewrite Forall_forall in Hf. specialize (Hf p Hin).
    rewrite Hf in Hp. by destruct Hp.
  - simpl. apply lookup_insert_eq.
  - done.
Qed.

Lemma frame_refl {X} (W : list addr) (w : World X) : frame W w w.
Proof. split; [apply obj_stable_refl|by intros p]. Qed.

Lemma frame_set_pyerr {X} (W : list addr) (e : option PyErr) (w : World X) :
  frame W w (set_pyerr e w).
Proof. split; [by intros r a|by intros p]. Qed.

Lemma ref_new_frame : host_new_frame.
Proof.
  intros args w it w' Hnew. simpl in Hnew. unfold AdvancedNew in Hnew.
  repeat match type of Hnew with
         | context [match ?x with _ => _ end] => destruct x eqn:?
         end;
    try (inversion Hnew; subst; apply frame_set_pyerr).
  - inversion Hnew; subst. by eapply alloc_frame.
  - inversion Hnew; subst. apply frame_refl.
  - inversion Hnew; subst. by eapply alloc_frame.
Qed.
Lemma ia_op_out (args : IterArgs) (out : option ref) (rest : list (option ref)) :
  ia_op args = out :: rest → ia_out args = out.
Proof. unfold ia_out. by intros ->. Qed.

Lemma ia_op_operand (args : IterArgs) (out x : option ref)
    (rest : list (option ref)) :
  ia_op args = out :: x :: rest → ia_operand args = x.
Proof. unfold ia_operand. by intros ->. Qed.

Lemma ref_new_result : host_new_result.
Proof.
  intros args w it w' Hnew. case_new Hnew; simpl;
    try (match goal with Ha : alloc _ _ _ _ = _ |- _ =>
           apply alloc_frame in Ha as (_ & _ & Hr & _) end;
         eexists; split; [exact Hr|]; right; apply fresh_footprint).
  eexists. split; [eassumption|]. left. by eapply ia_op_out.
Qed.

Lemma ref_iter_size : host_iter_size.
Proof.
  intros args w it w' operand a Hnew Hop Ha. case_new Hnew; simpl.
  all: match goal with Hia : ia_op _ = _ |- _ =>
         rewrite (ia_op_operand _ _ _ _ Hia) in Hop end.
  all: inversion Hop; subst; by simplify_eq/=.
Qed.


Lemma frame_set_memory (ps : list addr) (vs : list Scalar) (w : RW) :
  frame ps w (set_memory (write_list ps vs (memory w)) w).
Proof.
  split; [by intros r a|]. intros p _ Hp. simpl. by apply write_list_other.
Qed.

Lemma ref_fill_frame : host_fill_frame.
Proof.
  intros r v w rc w' Hf. simpl in *. unfold FillWithScalar in Hf.
  unfold footprint_of. destruct (objects w !! r) as [a|] eqn:Ha; simpl.
  - destruct (negb (writeable a)); inversion Hf; subst.
    + apply frame_set_pyerr.
    + apply frame_set_memory.
  - inversion Hf; subst. apply frame_set_pyerr.
Qed.

Lemma ref_view_frame : host_view_frame.
Proof.
  intros d nd shape strs data flags w v w' Hv. simpl in *.
  unfold NewFromDescr in Hv. destruct (bool_decide _); inversion Hv; subst.
  - split; [|by intros p]. intros k a Hk. simpl.
    rewrite lookup_insert_ne; [done|]. intros <-.
    assert (objects w !! fresh (dom (objects w)) = None) as Hfresh
      by (apply not_elem_of_dom, is_fresh).
    by rewrite Hfresh in Hk.
  - apply frame_set_pyerr.
Qed.

Lemma ref_copy_frame : host_copy_frame.
Proof.
  intros dst src w rc w' Hc. simpl in *. unfold CopyInto in Hc.
  unfold footprint_of. destruct (objects w !! dst) as [d|] eqn:Hd; simpl.
  - destruct (objects w !! src) as [s|].
    + destruct (negb (writeable d)); [inversion Hc; subst; apply frame_set_pyerr|].
      destruct (negb (bool_decide _)); inversion Hc; subst.
      * apply frame_set_pyerr.
      * apply frame_set_memory.
    + inversion Hc; subst. apply frame_set_pyerr.
  - inversion Hc; subst. apply frame_set_pyerr.
Qed.

Lemma ref_reset_frame : host_reset_frame.
Proof. intros it w b w' Hr. inversion Hr; subst. apply frame_refl. Qed.

Lemma ref_iternext_frame : host_iternext_frame.
Proof. intros it w f w' Hr. inversion Hr; subst. apply frame_refl. Qed.

Lemma ref_fperr_frame : host_fperr_frame.
Proof.
  intros mask w rc w' Hc. simpl in *. unfold check_fperr in Hc.
  destruct (_ =? _); inversion Hc; subst;
    [apply frame_refl|apply frame_set_pyerr].
Qed.


Lemma ref_dealloc_frame : host_dealloc_frame.
Proof.
  intros args w0 it w1 w b w' Hnew Hd. simpl in *. unfold Deallocate in Hd.
  destruct (ri_writeback it) as [o|] eqn:Hwb.
  2:{ inversion Hd; subst. apply frame_refl. }
  assert (Hout : ia_out args = Some o).
  { case_new Hnew; simpl in Hwb; try discriminate.
    inversion Hwb; subst. by eapply ia_op_out. }
  rewrite Hout. simpl. unfold footprint_of.
  destruct (objects w !! o) as [oa|]; simpl.
  - destruct (objects w !! ri_result it); inversion Hd; subst.
    + apply frame_set_memory.
    + apply frame_refl.
  - inversion Hd; subst. apply frame_refl.
Qed.

Lemma length_offsets_strides (ds ss ss' : list Z) :
  length ss = length ds → length ss' = length ds →
  length (offsets ds ss) = length (offsets ds ss').
Proof.
  revert ss ss'. induction ds as [|d ds IH]; intros [|s ss] [|s' ss'] H1 H2;
    try done.
  simpl in H1, H2. cbn [offsets].
  rewrite (length_bind_const _ _ (length (offsets ds ss)))
    by (intros x; by rewrite length_fmap).
  rewrite (length_bind_const _ _ (length (offsets ds ss')))
    by (intros x; by rewrite length_fmap).
  f_equal. apply IH; lia.
Qed.


Lemma elements_values (w : RW) (a : PyArrayObject) :
  allocated w a → Some <$> values w a = elements w a.
Proof.
  unfold allocated, values, elements. intros Hall.
  rewrite <- list_fmap_compose. apply list_fmap_ext. intros i p Hip. simpl.
  destruct (Forall_lookup_1 _ _ _ _ Hall Hip) as [x Hx]. by rewrite Hx.
Qed.

Lemma ref_view_post : host_view_post.
Proof.
  intros d nd shape strs data flags w v w' Hv. simpl in *.
  unfold NewFromDescr in Hv. destruct (bool_decide _); inversion Hv; subst.
  simpl. apply lookup_insert_eq.
Qed.

Lemma ref_copy_post : host_copy_post.
Proof.
  intros dst src w rc w' da sa Hc Hrc Hda Hsa _ _ Hds Hss Hnd Hal. simpl in *.
  unfold CopyInto in Hc. rewrite Hda, Hsa in Hc.
  destruct (negb (writeable da)); [inversion Hc; subst; lia|].
  destruct (bool_decide (f_dimensions da = f_dimensions sa)) eqn:Hdims;
    simpl in Hc; [|inversion Hc; subst; lia].
  apply bool_decide_eq_true in Hdims. inversion Hc; subst; clear Hc.
  unfold elements at 1. simpl. rewrite write_list_read; [|done|].
  - by apply elements_values.
  - unfold values, footprint. rewrite !length_fmap, Hdims.
    apply length_offsets_strides; congruence.
Qed.


Lemma loop_idle_frame : loop_frame loop_idle.
Proof.
  intros it dp sp cp nx na skip data w rc w' Hl. inversion Hl; subst.
  apply frame_refl.
Qed.

End RefLaws.

(* ===================================================================== *)
(** * C1: a reduced axis of extent 0 *)
(* ===================================================================== *)

Section ZeroExtent.
Context `{H : Host}.

Variables (operand : ref) (out wheremask : option ref).
Variables (operand_dtype result_dtype : PyArray_Descr) (casting : Z).
Variables (axis_flags : list bool) (reorderable keepdims : bool).
Variables (identity : option Scalar) (loop : PyArray_ReduceLoopFunc).
Variables (data : UserData) (buffersize : Z) (funcname : string).
Variables (errormask : Z) (st : St host_state).

End ZeroExtent.

(* ===================================================================== *)
(** * C8: the operand is not written *)
(* ===================================================================== *)

Lemma kept_refl {X} (P : list addr) (w : World X) : kept P w w.
Proof. split; [apply obj_stable_refl|done]. Qed.

Lemma kept_set_pyerr {X} (P : list addr) (e : option PyErr) (w : World X) :
  kept P w (set_pyerr e w).
Proof. split; [by intros r a|by intros p]. Qed.

Lemma kept_set_fpstatus {X} (P : list addr) (f : Z) (w : World X) :
  kept P w (set_fpstatus f w).
Proof. split; [by intros r a|by intros p]. Qed.

Lemma kept_trans {X} (P : list addr) (w1 w2 w3 : World X) :
  kept P w1 w2 → kept P w2 w3 → kept P w1 w3.
Proof.
  intros [Ho12 Hm12] [Ho23 Hm23]. split; [by eapply obj_stable_trans|].
  intros p Hp Hal. rewrite Hm23, Hm12; try done. by rewrite Hm12.
Qed.

Lemma kept_of_frame {X} (W P : list addr) (w w' : World X) :
  frame W w w' → (∀ p, p ∈ P → p ∉ W) → kept P w w'.
Proof. intros [Ho Hm] Hdis. split; [done|]. intros p Hp Hal. apply Hm; auto. Qed.

Lemma kept_of_frame_nil {X} (P : list addr) (w w' : World X) :
  frame [] w w' → kept P w w'.
Proof. intros Hf. eapply kept_of_frame; [exact Hf|]. intros p _. apply not_elem_of_nil. Qed.

Lemma kept_of_frame_obj {X} (P : list addr) (w w' : World X) (r : ref)
    (ra : PyArrayObject) :
  frame (footprint_of w r) w w' → objects w !! r = Some ra →
  (∀ p, p ∈ P → p ∉ footprint ra) → kept P w w'.
Proof.
  intros Hf Hr Hdis. eapply kept_of_frame; [exact Hf|].
  unfold footprint_of. by rewrite Hr.
Qed.

Lemma kept_of_frame_out {X} (P : list addr) (w w' : World X) (out : option ref) :
  frame (from_option (footprint_of w) [] out) w w' →
  out_apart w out P → kept P w w'.
Proof.
  intros Hf Hout. eapply kept_of_frame; [exact Hf|].
  destruct out as [o|]; simpl; [|intros p _; apply not_elem_of_nil].
  destruct (Hout o eq_refl) as (oa & Ho & Hdis).
  unfold footprint_of. by rewrite Ho.
Qed.

Lemma out_apart_stable {X} (w w' : World X) (out : option ref) (P : list addr) :
  obj_stable w w' → out_apart w out P → out_apart w' out P.
Proof.
  intros Hst Hout o Ho. destruct (Hout o Ho) as (oa & Hoa & Hdis).
  exists oa. split; [by apply Hst|done].
Qed.

Section ReadOnly.
Context `{H : Host}.

Implicit Types (st : St host_state).

Lemma readonly_run_trans st1 st2 st3 :
  readonly_run st1 st2 → readonly_run st2 st3 → readonly_run st1 st3.
Proof.
  intros (e12 & Hl12 & Hr12) (e23 & Hl23 & Hr23). exists (e12 ++ e23). split.
  - by rewrite Hl23, Hl12, app_assoc.
  - by apply Forall_app.
Qed.

(** Closes [readonly_run st st'] for a fully unfolded run. *)
Ltac close_readonly :=
  eexists; split; [simpl; log_ext|]; simpl;
  repeat first [apply Forall_nil_2 | apply Forall_cons_2 | exact I | done].

Lemma seed_readonly result operand axis_flags funcname keepdims st r st' :
  PyArray_CopyInitialReduceValues result operand axis_flags funcname
                                  keepdims st = (r, st') →
  readonly_run st st'.
Proof.
  unfold PyArray_CopyInitialReduceValues. run_monad. intros Hrun. steps;
    close_readonly.
Qed.

Lemma iterate_readonly out loop data errormask iter result needs_api skip
      st r st' :
  reduce_iterate out loop data errormask iter result needs_api skip st
    = (r, st') →
  readonly_run st st'.
Proof.
  unfold reduce_iterate, fail. run_monad. intros Hrun. steps; close_readonly.
Qed.

Lemma reduce_seed_readonly operand out axis_flags keepdims identity loop data
      funcname errormask iter st r st' :
  reduce_seed operand out axis_flags keepdims identity loop data funcname
              errormask iter st = (r, st') →
  readonly_run st st'.
Proof.
  unfold reduce_seed, fail. run_monad. intros Hrun.
  destruct identity as [v|]; run_monad.
  - destruct (PyArray_FillWithScalar _ _ _) as [rc w1] eqn:Hfill.
    destruct (rc <? 0).
    + steps. close_readonly.
    + apply iterate_readonly in Hrun. eapply readonly_run_trans; [|exact Hrun].
      close_readonly.
  - destruct (PyArray_CopyInitialReduceValues _ _ _ _ _ _)
      as [skip st1] eqn:Hseed.
    apply seed_readonly in Hseed. eapply readonly_run_trans; [exact Hseed|].
    destruct (skip <? 0).
    + steps. close_readonly.
    + by eapply iterate_readonly.
Qed.

Lemma iter_args_readonly (operand : ref) (out wheremask : option ref)
    (odt rdt : PyArray_Descr) (casting buffersize : Z) (ndim : nat)
    (axes : list Z) (wd : option PyArray_Descr) :
  event_readonly (EvAdvancedNew (iter_args operand out wheremask odt rdt
                                           casting buffersize ndim axes wd)).
Proof. simpl. eexists. split; [done|]. by vm_compute. Qed.

Lemma construct_readonly operand out axis_flags keepdims identity loop data
      funcname errormask args st r st' :
  event_readonly (EvAdvancedNew args) →
  reduce_construct operand out axis_flags keepdims identity loop data
                   funcname errormask args st = (r, st') →
  readonly_run st st'.
Proof.
  intros Hev. unfold reduce_construct, fail. run_monad. intros Hrun.
  destruct (NpyIter_AdvancedNew args (world st)) as [[iter|] w1].
  - apply reduce_seed_readonly in Hrun.
    eapply readonly_run_trans; [|exact Hrun].
    eexists. split; [simpl; reflexivity|]. by apply Forall_cons_2.
  - inversion Hrun; subst. eexists. split; [simpl; reflexivity|].
    by apply Forall_cons_2.
Qed.

(** Whatever the collaborators do, the driver binds the operand read-only
    and views it through a read-only array. *)
Lemma wrapper_readonly operand out wheremask operand_dtype result_dtype
      casting axis_flags reorderable keepdims identity loop data buffersize
      funcname errormask st r st' :
  PyUFunc_ReduceWrapper operand out wheremask operand_dtype result_dtype
    casting axis_flags reorderable keepdims identity loop data buffersize
    funcname errormask st = (r, st') →
  readonly_run st st'.
Proof.
  unfold PyUFunc_ReduceWrapper, fail. run_monad.
  assert (Hnil : ∀ w, readonly_run st (mkSt w (log st))).
  { intros w. exists []. split; [by rewrite app_nil_r|constructor]. }
  destruct (negb reorderable && _).
  { intros Heq. inversion Heq; subst. apply Hnil. }
  destruct (bool_decide (is_Some wheremask) && _).
  { intros Heq. inversion Heq; subst. apply Hnil. }
  destruct wheremask as [m|]; simpl.
  all: destruct out as [o|]; simpl.
  all: try destruct (negb (bool_decide _)).
  all: try (intros Heq; inversion Heq; subst; apply Hnil).
  all: intros Hrun; eapply construct_readonly; [|exact Hrun];
         apply iter_args_readonly.
Qed.
End ReadOnly.

Section OperandFrame.
Context `{H : Host}.

Variables (loop : PyArray_ReduceLoopFunc) (P : list addr).

Hypothesis view_frame : host_view_frame.
Hypothesis copy_frame : host_copy_frame.
Hypothesis fill_frame : host_fill_frame.
Hypothesis reset_frame : host_reset_frame.
Hypothesis iternext_frame : host_iternext_frame.
Hypothesis fperr_frame : host_fperr_frame.
Hypothesis callback_frame : loop_frame loop.

Lemma seed_ok (result operand : ref) (axis_flags : list bool)
    (funcname : string) (keepdims : bool) (st : St host_state) (ra : PyArrayObject)
    (r : Z) (st' : St host_state) :
  objects (world st) !! result = Some ra →
  (∀ p, p ∈ P → p ∉ footprint ra) →
  PyArray_CopyInitialReduceValues result operand axis_flags funcname
                                  keepdims st = (r, st') →
  kept P (world st) (world st').
Proof using view_frame copy_frame.
  intros Hra Hdis. unfold PyArray_CopyInitialReduceValues. run_monad.
  destruct (seed_axes _ _ _ _ _ _) as [l|].
  2:{ intros Heq. inversion Heq; subst. simpl. apply kept_set_pyerr. }
  destruct (PyArray_NewFromDescr _ _ _ _ _ _ _) as [v w1] eqn:Hv. simpl.
  pose proof (view_frame _ _ _ _ _ _ _ _ _ Hv) as Hf1.
  assert (Hk1 : kept P (world st) w1) by by apply kept_of_frame_nil.
  destruct v as [v|]; simpl.
  2:{ intros Heq. by inversion Heq; subst. }
  destruct (PyArray_CopyInto result v w1) as [rc w2] eqn:Hc. simpl.
  pose proof (copy_frame _ _ _ _ _ Hc) as Hf2.
  assert (Hk2 : kept P w1 w2).
  { eapply kept_of_frame_obj; [exact Hf2| |exact Hdis]. by apply Hf1. }
  intros Heq. assert (world st' = w2) as ->.
  { destruct (rc <? 0); by inversion Heq. }
  by eapply kept_trans.
Qed.

Lemma iterate_ok (out : option ref) (data : UserData) (errormask : Z)
    (iter : NpyIter) (needs_api skip : Z) (st : St host_state)
    (ra : PyArrayObject) (r : option ref) (st' : St host_state) :
  (∀ w b w', NpyIter_Deallocate iter w = (b, w') →
             frame (from_option (footprint_of w) [] out) w w') →
  objects (world st) !! NpyIter_GetOperandArray iter 0 = Some ra →
  (∀ p, p ∈ P → p ∉ footprint ra) →
  out_apart (world st) out P →
  reduce_iterate out loop data errormask iter (NpyIter_GetOperandArray iter 0)
                 needs_api skip st = (r, st') →
  kept P (world st) (world st').
Proof using reset_frame iternext_frame fperr_frame callback_frame.
  intros Hd Hra Hdis Hout.
  unfold reduce_iterate, fail. run_monad.
  generalize (match out with
              | Some o => o
              | None => NpyIter_GetOperandArray iter 0
              end).
  intros ret Hrun. steps.
  all: pose proof (kept_refl P (world st)) as Hk0.
  all: repeat match goal with
       | Hc : NpyIter_Reset _ ?w = (_, ?w'), Hk : kept P _ ?w |- _ =>
           pose proof (kept_trans _ _ _ _ Hk
                         (kept_of_frame_nil P _ _ (reset_frame _ _ _ _ Hc)));
           clear Hc
       | Hc : NpyIter_GetIterNext _ ?w = (_, ?w'), Hk : kept P _ ?w |- _ =>
           pose proof (kept_trans _ _ _ _ Hk
                         (kept_of_frame_nil P _ _ (iternext_frame _ _ _ _ Hc)));
           clear Hc
       | Hc : _check_ufunc_fperr _ ?w = (_, ?w'), Hk : kept P _ ?w |- _ =>
           pose proof (kept_trans _ _ _ _ Hk
                         (kept_of_frame_nil P _ _ (fperr_frame _ _ _ _ Hc)));
           clear Hc
       | Hc : loop _ _ _ _ _ _ _ _ ?w = (_, ?w'), Hk : kept P _ ?w |- _ =>
           pose proof (kept_trans _ _ _ _ Hk
                         (kept_of_frame_obj P _ _ _ ra
                            (callback_frame _ _ _ _ _ _ _ _ _ _ _ Hc)
                            (proj1 Hk _ _ Hra) Hdis));
           clear Hc
       | Hc : NpyIter_Deallocate _ ?w = (_, ?w'), Hk : kept P _ ?w |- _ =>
           pose proof (kept_trans _ _ _ _ Hk
                         (kept_of_frame_out P _ _ out (Hd _ _ _ Hc)
                            (out_apart_stable _ _ _ _ (proj1 Hk) Hout)));
           clear Hc
       end.
  all: simpl; first [eassumption | apply kept_refl].
Qed.

Lemma fail_ok (out : option ref) (iter : option NpyIter) (st : St host_state)
    (r : option ref) (st' : St host_state) :
  (∀ it w b w', iter = Some it → NpyIter_Deallocate it w = (b, w') →
                frame (from_option (footprint_of w) [] out) w w') →
  out_apart (world st) out P →
  fail iter st = (r, st') →
  kept P (world st) (world st').
Proof.
  intros Hd Hout. unfold fail. destruct iter as [it|]; run_monad.
  - destruct (NpyIter_Deallocate it (world st)) as [b w'] eqn:Hc.
    intros Heq. inversion Heq; subst; clear Heq. simpl.
    eapply kept_of_frame_out; [by eapply Hd|done].
  - intros Heq. inversion Heq; subst. apply kept_refl.
Qed.

Lemma reduce_seed_ok (operand : ref) (out : option ref)
    (axis_flags : list bool) (keepdims : bool) (identity : option Scalar)
    (data : UserData) (funcname : string) (errormask : Z) (iter : NpyIter)
    (st : St host_state) (ra : PyArrayObject) (r : option ref)
    (st' : St host_state) :
  (∀ w b w', NpyIter_Deallocate iter w = (b, w') →
             frame (from_option (footprint_of w) [] out) w w') →
  objects (world st) !! NpyIter_GetOperandArray iter 0 = Some ra →
  (∀ p, p ∈ P → p ∉ footprint ra) →
  out_apart (world st) out P →
  reduce_seed operand out axis_flags keepdims identity loop data funcname
              errormask iter st = (r, st') →
  kept P (world st) (world st').
Proof using view_frame copy_frame fill_frame reset_frame iternext_frame
            fperr_frame callback_frame.
  intros Hd Hra Hdis Hout. unfold reduce_seed. run_monad.
  set (st1 := mkSt (set_fpstatus 0 (world st)) (log st)).
  assert (H01 : kept P (world st) (world st1)) by apply kept_set_fpstatus.
  assert (Hfail : ∀ st2 r2 st3, kept P (world st) (world st2) →
            fail (Some iter) st2 = (r2, st3) → kept P (world st) (world st3)).
  { intros st2 r2 st3 H02 Hf. eapply kept_trans; [exact H02|].
    eapply (fail_ok out); [| |exact Hf].
    - intros it w b w' Hit. inversion Hit; subst. apply Hd.
    - eapply out_apart_stable; [apply H02|done]. }
  assert (Hiter : ∀ skip st2 r2 st3, kept P (world st) (world st2) →
            reduce_iterate out loop data errormask iter
              (NpyIter_GetOperandArray iter 0) (NpyIter_IterationNeedsAPI iter)
              skip st2 = (r2, st3) → kept P (world st) (world st3)).
  { intros skip st2 r2 st3 H02 Hf. eapply kept_trans; [exact H02|].
    eapply iterate_ok; [exact Hd| |exact Hdis| |exact Hf].
    - by apply H02.
    - eapply out_apart_stable; [apply H02|done]. }
  destruct identity as [v|]; simpl.
  - destruct (PyArray_FillWithScalar (NpyIter_GetOperandArray iter 0) v
                (set_fpstatus 0 (world st))) as [rc w2] eqn:Hf.
    set (st2 := mkSt w2 (log st ++ [EvFillWithScalar
                                      (NpyIter_GetOperandArray iter 0) v])).
    assert (H02 : kept P (world st) (world st2)).
    { eapply kept_trans; [exact H01|]. simpl.
      eapply kept_of_frame_obj; [by eapply fill_frame| |exact Hdis].
      exact Hra. }
    destruct (rc <? 0); intros Hrun.
    + by eapply Hfail.
    + by eapply Hiter.
  - fold st1.
    destruct (PyArray_CopyInitialReduceValues
                (NpyIter_GetOperandArray iter 0) operand axis_flags funcname
                keepdims st1) as [skip st2] eqn:Hs.
    assert (H02 : kept P (world st) (world st2)).
    { eapply kept_trans; [exact H01|].
      eapply seed_ok; [| |exact Hs]; [exact Hra|exact Hdis]. }
    destruct (skip <? 0); intros Hrun.
    + by eapply Hfail.
    + by eapply Hiter.
Qed.

Hypothesis new_frame : host_new_frame.
Hypothesis new_result : host_new_result.
Hypothesis dealloc_frame : host_dealloc_frame.

Lemma construct_ok (operand : ref) (out : option ref)
    (axis_flags : list bool) (keepdims : bool) (identity : option Scalar)
    (data : UserData) (funcname : string) (errormask : Z) (args : IterArgs)
    (st : St host_state) (r : option ref) (st' : St host_state) :
  ia_out args = out →
  (∀ p, p ∈ P → is_Some (memory (world st) !! p)) →
  out_apart (world st) out P →
  reduce_construct operand out axis_flags keepdims identity loop data
                   funcname errormask args st = (r, st') →
  kept P (world st) (world st').
Proof using All.
  intros Hargs Hal Hout. unfold reduce_construct. run_monad.
  destruct (NpyIter_AdvancedNew args (world st)) as [it w1] eqn:Hnew.
  pose proof (new_frame _ _ _ _ Hnew) as Hf1.
  set (st1 := mkSt w1 (log st ++ [EvAdvancedNew args])).
  assert (H01 : kept P (world st) (world st1)) by by apply kept_of_frame_nil.
  destruct it as [it|]; simpl.
  2:{ intros Heq. inversion Heq; subst. exact H01. }
  intros Hrun. eapply kept_trans; [exact H01|].
  destruct (new_result _ _ _ _ Hnew) as (ra & Hra & Horigin).
  eapply (reduce_seed_ok operand out); [| | | |exact Hrun].
  - intros w b w' Hd. rewrite <- Hargs. by eapply dealloc_frame.
  - exact Hra.
  - intros p Hp Hin. destruct Horigin as [Hsame|Hfresh].
    + rewrite Hargs in Hsame. destruct (Hout _ Hsame) as (oa & Hoa & Hdis).
      apply Hf1 in Hoa. simpl in Hra. rewrite Hoa in Hra.
      inversion Hra; subst. by apply (Hdis p).
    + rewrite Forall_forall in Hfresh. specialize (Hfresh p Hin).
      destruct (Hal p Hp) as [x Hx]. congruence.
  - eapply out_apart_stable; [apply Hf1|done].
Qed.

(** Under the frame contracts a run of the driver keeps every allocated
    cell of [P], provided a supplied output stays clear of [P]. *)
Lemma wrapper_ok (operand : ref) (out wheremask : option ref)
    (operand_dtype result_dtype : PyArray_Descr) (casting : Z)
    (axis_flags : list bool) (reorderable keepdims : bool)
    (identity : option Scalar) (data : UserData) (buffersize : Z)
    (funcname : string) (errormask : Z) (st : St host_state)
    (r : option ref) (st' : St host_state) :
  (∀ p, p ∈ P → is_Some (memory (world st) !! p)) →
  out_apart (world st) out P →
  PyUFunc_ReduceWrapper operand out wheremask operand_dtype result_dtype
    casting axis_flags reorderable keepdims identity loop data buffersize
    funcname errormask st = (r, st') →
  kept P (world st) (world st').
Proof using All.
  intros Hal Hout. unfold PyUFunc_ReduceWrapper, fail. run_monad.
  destruct (negb reorderable && _).
  { intros Heq. inversion Heq; subst. apply kept_set_pyerr. }
  destruct (bool_decide (is_Some wheremask) && _).
  { intros Heq. inversion Heq; subst. apply kept_set_pyerr. }
  destruct wheremask as [m|]; simpl.
  all: destruct out as [o|]; simpl.
  all: try destruct (negb (bool_decide _)).
  all: try (intros Heq; inversion Heq; subst; apply kept_set_pyerr).
  all: intros Hrun; eapply construct_ok; [| | |exact Hrun]; done.
Qed.
End OperandFrame.

Section OperandUntouched.
Context `{H : Host}.

Variables (operand : ref) (out wheremask : option ref).
Variables (operand_dtype result_dtype : PyArray_Descr) (casting : Z).
Variables (axis_flags : list bool) (reorderable keepdims : bool).
Variables (identity : option Scalar) (loop : PyArray_ReduceLoopFunc).
Variables (data : UserData) (buffersize : Z) (funcname : string).
Variables (errormask : Z) (st : St host_state).

(** C8, as the code has it. In every call, successful or not, the engine
    hands the operand to its collaborators read-only: it is bound to the
    iterator with the read-only flag and without a write flag, and the
    seeder views it through an array created without the writeable flag.
    Whenever moreover the collaborators write only where their contracts say
    (the fill and the copy into their destination, the callback through
    operand 0 of the iterator, the release into the supplied output) and a
    supplied output shares no cell with the operand, the operand's object
    (shape, strides, descriptor, data pointer) and all its elements are the
    same after the call as before. *)
Theorem C8_operand_not_mutated (a : PyArrayObject) (r : option ref)
    (st' : St host_state) :
  PyUFunc_ReduceWrapper operand out wheremask operand_dtype result_dtype
    casting axis_flags reorderable keepdims identity loop data buffersize
    funcname errormask st = (r, st') →
  Forall event_readonly (new_events st st') ∧
  (host_view_frame → host_copy_frame → host_fill_frame → host_reset_frame →
   host_iternext_frame → host_fperr_frame → loop_frame loop →
   host_new_frame → host_new_result → host_dealloc_frame →
   objects (world st) !! operand = Some a →
   allocated (world st) a →
   (∀ o, out = Some o →
         ∃ oa, objects (world st) !! o = Some oa ∧ disjoint_arrays a oa) →
   objects (world st') !! operand = Some a ∧
   elements (world st') a = elements (world st) a).
Proof.
  intros Hrun. split.
  { destruct (wrapper_readonly _ _ _ _ _ _ _ _ _ _ _ _ _ _ _ _ _ _ Hrun)
      as (evs & Hlog & Hro).
    by rewrite (new_events_app _ _ _ Hlog). }
  intros Hv Hc Hf Hr Hi Hp Hl Hn Hres Hd Ha Hal Hout.
  destruct (wrapper_ok loop (footprint a) Hv Hc Hf Hr Hi Hp Hl Hn Hres Hd
              operand out wheremask operand_dtype result_dtype casting
              axis_flags reorderable keepdims identity data buffersize
              funcname errormask st r st')
    as [Hobj Hmem]; [| |exact Hrun|].
  - intros p Hp'. unfold allocated in Hal. rewrite Forall_forall in Hal. auto.
  - intros o Ho. destruct (Hout o Ho) as (oa & Hoa & Hdis).
    exists oa. split; [done|]. unfold disjoint_arrays in Hdis.
    rewrite Forall_forall in Hdis. exact Hdis.
  - split; [by apply Hobj|].
    unfold elements. apply list_fmap_ext. intros i p Hip. simpl.
    unfold allocated in Hal.
    apply Hmem; [by eapply list_elem_of_lookup_2|].
    by eapply (Forall_lookup_1 _ _ _ _ Hal).
Qed.
End OperandUntouched.

(* ===================================================================== *)
(** * The driver on concrete inputs *)
(* ===================================================================== *)

Module Runs.
Import RefHost RefLaws Inputs.

(** [count_axes] on a small flag vector. *)
Example count_axes_3 : count_axes 3 [true; false; true] = 2.
Proof. reflexivity. Qed.

(** The seeder's loop on a 2x3 operand reduced along axis 1 with keepdims:
    the view is 2x1 with strides (3, 0) and [size] is 2. *)
Example seed_view_2x3 :
  (λ l, (take (sl_idim_out l) (sl_shape l),
         take (sl_idim_out l) (sl_strides l), sl_size l))
    <$> seed_view [false; true] true a_2x3
  = Some ([2; 1], [3; 0], 2).
Proof. reflexivity. Qed.

(** The axis mapping of the driver for the same reduction without
    keepdims. *)
Example result_axes_2x3 :
  take 2 (al_result_axes (result_axes_loop 2 [false; true] false))
  = [0; 2 ^ 30 - 1].
Proof. reflexivity. Qed.

(** An identity-seeded reduction along axis 1 of the 2x3 operand: the
    result is a fresh 2-element array filled with the identity. *)
Example reduce_2x3_identity :
  let res := reduce w_2x3 1 None None [false; true] true false (Some 0) "add" in
  fst res = Some 4%positive ∧
  PyArray_SHAPE 4 (world (snd res)) = [2] ∧
  log (snd res) =
    [EvAdvancedNew (wrapper_iter_args 1 None None float64 float64 0 0
                                      [false; true] false w_2x3);
     EvFillWithScalar 4 0; EvReset; EvGetIterNext; EvLoop 0 0;
     EvCheckFPErr 0; EvDeallocate].
Proof. vm_compute. done. Qed.

(** The same reduction without identity: the first slice along axis 1 is
    copied into the result and the callback is told to skip 2 elements. *)
Example reduce_2x3_no_identity :
  let res := reduce w_2x3 1 None None [false; true] true false None "maximum" in
  fst res = Some 4%positive ∧
  elements (world (snd res)) (mkArray [2] [1] float64 302 NPY_ARRAY_WRITEABLE)
    = [Some 1; Some 4] ∧
  EvLoop 0 2 ∈ log (snd res).
Proof.
  vm_compute. split; [done|]. split; [done|].
  apply list_elem_of_In. simpl. auto 10.
Qed.
(** C2 at a concrete input: subtract-like reduction over both axes of the
    2x3 operand. *)
Lemma C2_witness :
  reduce w_2x3 1 None None [true; true] false false None "subtract"
  = (None, raised (start w_2x3) (NonReorderableMultiAxisError "subtract")).
Proof.
  apply (C2_non_reorderable_multi_axis (H := ref_host)).
  - reflexivity.
  - vm_compute. lia.
Defined.

(** C3 at a concrete input: a where-mask, no identity, one flagged axis. *)
Lemma C3_witness :
  reduce w_2x3 1 None (Some 2%positive) [false; true] false false None "subtract"
  = (None, raised (start w_2x3) (WhereWithoutIdentityError "subtract")).
Proof.
  apply (C3_where_without_identity (H := ref_host)) with (m := 2%positive).
  - reflexivity.
  - reflexivity.
  - reflexivity.
  - right. vm_compute. lia.
Defined.

(** C3 as stated fails: with a where-mask and no identity, a non-reorderable
    reduction over two axes fails with NonReorderableMultiAxisError, not
    with WhereWithoutIdentityError. *)
Lemma C3_counterexample :
  let res :=
    reduce w_2x3 1 None (Some 2%positive) [true; true] false false None
           "subtract" in
  fst res = None ∧
  pyerr (world (snd res)) = Some (NonReorderableMultiAxisError "subtract") ∧
  pyerr (world (snd res)) ≠ Some (WhereWithoutIdentityError "subtract").
Proof. vm_compute. split; [done|]. split; [done|]. discriminate. Qed.

(** C6 at a concrete input: a 1-dimensional output for a keepdims
    reduction of the 2x3 operand (expected rank 2). *)
Lemma C6_witness :
  reduce w_2x3 1 (Some 2%positive) None [false; true] true true (Some 0) "add"
  = (None, raised (start w_2x3) (OutputShapeMismatchError "add" true 1 2))
  ∧ fmt (OutputShapeMismatchError "add" true 0 0) ≠
    fmt (OutputShapeMismatchError "add" false 0 0).
Proof.
  apply (C6_output_rank_mismatch (H := ref_host)) with (o := 2%positive).
  - reflexivity.
  - reflexivity.
  - left. reflexivity.
  - left. reflexivity.
  - vm_compute. lia.
Defined.

(** C6 as stated fails: an output of the wrong rank handed to a
    non-reorderable reduction over two axes is answered with
    NonReorderableMultiAxisError. *)
Lemma C6_counterexample :
  let res :=
    reduce w_2x3 1 (Some 2%positive) None [true; true] false false (Some 0)
           "subtract" in
  PyArray_NDIM 2 w_2x3 ≠ expected_rank (PyArray_NDIM 1 w_2x3) [true; true] false ∧
  fst res = None ∧
  pyerr (world (snd res)) = Some (NonReorderableMultiAxisError "subtract") ∧
  ∀ found expected,
    pyerr (world (snd res))
    ≠ Some (OutputShapeMismatchError "subtract" false found expected).
Proof.
  vm_compute. split; [lia|]. split; [done|]. split; [done|].
  intros found expected. discriminate.
Qed.

(** C7 at a concrete input: the 2-element output at reference 3 is what
    the call returns. *)
Lemma C7_witness :
  fst (reduce w_2x3 1 (Some 3%positive) None [false; true] true false
              (Some 0) "add") = Some 3%positive.
Proof.
  destruct (reduce w_2x3 1 (Some 3%positive) None [false; true] true false
                   (Some 0) "add") as [[x|] st'] eqn:Hrun.
  - simpl. f_equal. unfold reduce in Hrun.
    exact (C7_returns_supplied_out (H := ref_host) _ _ _ _ _ _ _ _ _ _ _ _ _
             _ _ _ _ _ Hrun).
  - vm_compute in Hrun. discriminate.
Defined.

(** C9 at a concrete input: the callback got skip count 2 in a call
    without identity, after the seeder's copy. *)
Lemma C9_witness :
  let res := reduce w_2x3 1 None None [false; true] true false None "maximum" in
  (is_Some (@None Scalar) → 2 = 0) ∧
  (2 ≠ 0 → @None Scalar = None ∧
           ∃ dst src, EvCopyInto dst src ∈ new_events (start w_2x3) (snd res)).
Proof.
  intros res.
  apply (C9_skip_count_zero_with_identity (H := ref_host)
           1%positive None None float64 float64 0 [false; true] true false
           None loop_idle tt 0 "maximum" 0 (start w_2x3) (fst res) (snd res) 0 2).
  - apply surjective_pairing.
  - vm_compute. apply list_elem_of_In. simpl. auto 10.
Defined.

(** C10 at a concrete input: seeding from the 0x3 operand along axis 0
    leaves the 3-element result (5, 5, 5) as it was. *)
Lemma C10_witness :
  seed w_0x3 2 1 [true; false] false "maximum"
    = (-1, raised (start w_0x3) (EmptyReductionError "maximum"))
  ∧ memory (world (raised (start w_0x3) (EmptyReductionError "maximum")))
    = memory w_0x3
  ∧ objects (world (raised (start w_0x3) (EmptyReductionError "maximum")))
    = objects w_0x3
  ∧ log (raised (start w_0x3) (EmptyReductionError "maximum")) = [].
Proof.
  apply (C10_seed_error_leaves_result_untouched (H := ref_host)) with (idim := 0%nat).
  - vm_compute. lia.
  - reflexivity.
  - reflexivity.
Defined.

Lemma wf_a_2x3 : wf_array a_2x3.
Proof.
  unfold wf_array. simpl. split; [unfold NPY_MAXDIMS; lia|]. split; [done|].
  split; [repeat constructor; lia|]. by vm_compute.
Qed.

Lemma wf_a_1x3 : wf_array a_1x3.
Proof.
  unfold wf_array. simpl. split; [unfold NPY_MAXDIMS; lia|]. split; [done|].
  split; [repeat constructor; lia|]. by vm_compute.
Qed.

Lemma wf_a_huge : wf_array a_huge.
Proof.
  unfold wf_array. simpl. split; [unfold NPY_MAXDIMS; lia|]. split; [done|].
  split; [repeat constructor; lia|]. by vm_compute.
Qed.

(** C4 at the failing input: for the operand of 2^31 elements, with no
    reduced axis, the view and the copy succeed, the product of the
    non-reduced extents is 2^31, and the seeder returns -2^31. *)
Lemma C4_witness :
  product (kept_extents [false] (f_dimensions a_huge)) = 2147483648 ∧
  fst (seed w_huge 2 1 [false] false "maximum") = -2147483648.
Proof.
  split; [reflexivity|]. unfold seed.
  destruct (C4_seed_returns_narrowed_product (H := ref_host) 2%positive
              1%positive [false] "maximum" false (start w_huge) a_huge
              eq_refl wf_a_huge eq_refl ltac:(constructor))
    as (l & Hview & Hret).
  assert (Hl : seed_view [false] false a_huge
               = Some (mkSeedLocals (2 ^ 31 :: replicate 31 0)
                                    (0 :: replicate 31 0) 1 (2 ^ 31)))
    by reflexivity.
  rewrite Hl in Hview. inversion Hview; subst l; clear Hview Hl.
  set (view := mkArray [2 ^ 31] [0] float64 100 0).
  set (w1 := set_objects (<[3%positive := view]> (objects w_huge)) w_huge).
  assert (Hnew : @PyArray_NewFromDescr ref_host (f_descr a_huge) 1
                   (2 ^ 31 :: replicate 31 0) (0 :: replicate 31 0)
                   (f_data a_huge) 0 (world (start w_huge)) = (Some 3%positive, w1))
    by reflexivity.
  assert (Hcopy : @PyArray_CopyInto ref_host 2%positive 3%positive w1
                  = (0, set_memory (write_list (footprint a_huge_result)
                                               (values w1 view) (memory w1)) w1)).
  { simpl. unfold CopyInto.
    change (objects w1 !! 2%positive) with (Some a_huge_result).
    change (objects w1 !! 3%positive) with (Some view).
    reflexivity. }
  destruct (Hret 3%positive w1 0 _ Hnew Hcopy ltac:(lia)) as (Hrun & _ & _).
  simpl in Hrun. rewrite Hrun. reflexivity.
Defined.

(** C5 at a concrete input: seeding from the 1x3 operand reduced along its
    axis of extent 1 returns 3, the number of elements of the operand, and
    leaves the operand's three elements in the result. *)
Lemma C5_witness :
  let res := seed w_1x3 2 1 [true; false] false "maximum" in
  fst res = Z.of_nat (length (footprint a_1x3)) ∧
  elements (world (snd res)) a_out3 = elements w_1x3 a_1x3.
Proof.
  intros res. subst res.
  destruct (C5_unit_axis_seed (H := ref_host) 2%positive 1%positive
              [true; false] "maximum" false (start w_1x3) a_1x3)
    as (l & Hview & _ & _ & Hret).
  - reflexivity.
  - exact wf_a_1x3.
  - reflexivity.
  - reflexivity.
  - vm_compute in Hview. inversion Hview; subst l; clear Hview.
    destruct (@PyArray_NewFromDescr ref_host (f_descr a_1x3) 1
                (3 :: replicate 31 0) (1 :: replicate 31 0) (f_data a_1x3) 0
                (world (start w_1x3))) as [[v|] w1] eqn:Hnew;
      [|vm_compute in Hnew; discriminate].
    destruct (@PyArray_CopyInto ref_host 2%positive v w1) as [rc w2] eqn:Hcopy.
    assert (Hrc : 0 ≤ rc).
    { vm_compute in Hnew. inversion Hnew; subst v w1; clear Hnew.
      vm_compute in Hcopy. inversion Hcopy; subst rc. lia. }
    unfold seed. simpl in Hret.
    destruct (Hret v w1 rc w2 Hnew Hcopy Hrc) as [Hcount Hres].
    rewrite Hcount by (vm_compute; discriminate).
    split; [reflexivity|].
    apply (Hres ref_view_post ref_view_frame ref_copy_post a_out3).
    + reflexivity.
    + reflexivity.
    + reflexivity.
    + reflexivity.
    + apply (bool_decide_unpack _). by vm_compute.
    + unfold allocated. apply (bool_decide_unpack _). by vm_compute.
Defined.

(** C5 as stated fails: over the single flagged axis of extent 1 of the 1x3
    operand the seeder returns 3, and the driver hands the callback the
    skip count 3, not 0. *)
Lemma C5_counterexample :
  reduced_extents [true; false] (f_dimensions a_1x3) = [1] ∧
  fst (seed w_1x3 2 1 [true; false] false "maximum") = 3 ∧
  EvLoop 0 3 ∈ log (snd (reduce w_1x3 1 None None [true; false] true false
                                None "maximum")) ∧
  ∀ n, EvLoop n 0 ∉ log (snd (reduce w_1x3 1 None None [true; false] true
                                     false None "maximum")).
Proof.
  split; [reflexivity|]. split; [by vm_compute|]. split.
  - vm_compute. apply list_elem_of_In. simpl. auto 10.
  - intros n Hin. vm_compute in Hin. apply list_elem_of_In in Hin. simpl in Hin.
    repeat destruct Hin as [Hin|Hin]; try discriminate. done.
Qed.




Lemma allocated_a_2x3 : allocated w_2x3 a_2x3.
Proof.
  unfold allocated. apply (bool_decide_unpack _). by vm_compute.
Qed.

(** C8 at a concrete input: after an identity-seeded reduction of the 2x3
    operand into a fresh result, the operand is the same object with the
    same six elements. *)
Lemma C8_witness :
  let res := reduce w_2x3 1 None None [false; true] true false (Some 0) "add" in
  Forall event_readonly (new_events (start w_2x3) (snd res)) ∧
  objects (world (snd res)) !! 1%positive = Some a_2x3 ∧
  elements (world (snd res)) a_2x3 = elements w_2x3 a_2x3.
Proof.
  intros res.
  destruct (C8_operand_not_mutated (H := ref_host) 1%positive None None
              float64 float64 0 [false; true] true false (Some 0) loop_idle
              tt 0 "add" 0 (start w_2x3) a_2x3 (fst res) (snd res))
    as [Hro Hkeep].
  - apply surjective_pairing.
  - split; [exact Hro|].
    apply (Hkeep ref_view_frame ref_copy_frame ref_fill_frame ref_reset_frame
                 ref_iternext_frame ref_fperr_frame loop_idle_frame
                 ref_new_frame ref_new_result ref_dealloc_frame).
    + reflexivity.
    + exact allocated_a_2x3.
    + intros o Ho. discriminate.
Defined.

(** C8 as stated fails: when the caller passes the operand itself as the
    output of a keepdims reduction along its axis of extent 1, the call
    succeeds, returns the operand, and the operand's elements 1, 2, 3 have
    become the fill value 7. The operand was still bound read-only and the
    traversal worked on a private copy; the write reaches the operand
    through the output binding when the copy is written back. *)
Lemma C8_counterexample :
  let res := reduce w_1x3 1 (Some 1%positive) None [true; false] true true
                    (Some 7) "add" in
  fst res = Some 1%positive ∧
  objects w_1x3 !! 1%positive = Some a_1x3 ∧
  elements w_1x3 a_1x3 = [Some 1; Some 2; Some 3] ∧
  elements (world (snd res)) a_1x3 = [Some 7; Some 7; Some 7] ∧
  Forall event_readonly (log (snd res)).
Proof.
  intros res. split; [by vm_compute|]. split; [reflexivity|].
  split; [by vm_compute|]. split; [by vm_compute|].
  set (l := log (snd res)). vm_compute in l. subst l.
  repeat (apply Forall_cons_2;
          [first [exact I | eexists; split; [reflexivity|by vm_compute]]|]).
  by apply Forall_nil.
Qed.

End Runs.

(* ===================================================================== *)
(** * More on the axis loops *)
(* ===================================================================== *)

(** X1. [count_axes] returns the number of flags set among the first
    [ndim] entries of the flag vector, a number between 0 and [ndim]; the
    entries from [ndim] on are not looked at. *)
Theorem X1_count_axes_counts_leading_flags (ndim : nat)
    (axis_flags rest : list bool) :
  (ndim ≤ length axis_flags)%nat →
  count_axes ndim axis_flags = Z.of_nat (num_flagged (take ndim axis_flags)) ∧
  0 ≤ count_axes ndim axis_flags ≤ Z.of_nat ndim ∧
  count_axes ndim (take ndim axis_flags ++ rest) = count_axes ndim axis_flags.
Proof.
  intros Hn.
  assert (Hlen : length (take ndim axis_flags) = ndim)
    by (rewrite length_take; lia).
  assert (Hcount : ∀ l, count_axes ndim (take ndim axis_flags ++ l)
                        = Z.of_nat (num_flagged (take ndim axis_flags))).
  { intros l. rewrite count_axes_app_l by lia.
    rewrite <- Hlen at 1. apply count_axes_num_flagged. }
  assert (Heq : count_axes ndim axis_flags
                = Z.of_nat (num_flagged (take ndim axis_flags))).
  { rewrite <- (take_drop ndim axis_flags) at 1. apply Hcount. }
  split; [exact Heq|]. split.
  - rewrite Heq. pose proof (num_flagged_le (take ndim axis_flags)). lia.
  - by rewrite Hcount, Heq.
Qed.

Lemma result_axes_length (n : nat) (l : list bool) (k : bool) :
  length (al_result_axes (result_axes_loop n l k)) = NPY_MAXDIMS.
Proof.
  induction n as [|n IH]; [reflexivity|].
  rewrite result_axes_loop_snoc. unfold axes_step.
  destruct (flag_at l n), k; simpl; by rewrite length_insert.
Qed.

(** The loop of lines 258-272 writes entry [i] in its [i]-th round and
    never again. *)
Lemma result_axes_entry (n : nat) (l : list bool) (k : bool) (i : nat) :
  (n ≤ NPY_MAXDIMS)%nat → (i < n)%nat →
  al_result_axes (result_axes_loop n l k) !! i =
  Some (let c := Z.of_nat (al_curr_axis (result_axes_loop i l k)) in
        if flag_at l i then NPY_ITER_REDUCTION_AXIS (if k then c else -1)
        else c).
Proof.
  intros Hn Hi. induction n as [|n IH]; [lia|].
  rewrite result_axes_loop_snoc.
  pose proof (result_axes_length n l k) as Hlen.
  destruct (decide (i = n)) as [->|Hne].
  - unfold axes_step. destruct (flag_at l n), k; simpl;
      by rewrite list_lookup_insert_eq by lia.
  - rewrite <- IH by lia. unfold axes_step.
    destruct (flag_at l n), k; simpl; by rewrite list_lookup_insert_ne.
Qed.

(** X2. With keepdims the axis mapping handed to the iterator is the
    identity: operand axis [i] is output axis [i], carrying the reduction
    marker when it is flagged, and the planned output rank is the operand's
    rank. *)
Theorem X2_result_axes_keepdims (ndim : nat) (axis_flags : list bool) :
  (ndim ≤ NPY_MAXDIMS)%nat →
  al_curr_axis (result_axes_loop ndim axis_flags true) = ndim ∧
  ∀ i, (i < ndim)%nat →
    al_result_axes (result_axes_loop ndim axis_flags true) !! i =
    Some (if flag_at axis_flags i then NPY_ITER_REDUCTION_AXIS (Z.of_nat i)
          else Z.of_nat i).
Proof.
  intros Hn. split.
  - pose proof (result_axes_loop_curr_axis ndim axis_flags true). lia.
  - intros i Hi. rewrite result_axes_entry by done. simpl.
    pose proof (result_axes_loop_curr_axis i axis_flags true) as Hc.
    simpl in Hc. by rewrite Hc.
Qed.

(** X3. Without keepdims a flagged axis is marked as reduced without an
    output axis, and a non-flagged axis [i] is mapped to the number of
    non-flagged axes before it: the kept axes are numbered 0, 1, 2, ... in
    their order, and the planned output rank is their number. *)
Theorem X3_result_axes_squeezed (ndim : nat) (axis_flags : list bool) :
  (ndim ≤ NPY_MAXDIMS)%nat →
  Z.of_nat (al_curr_axis (result_axes_loop ndim axis_flags false))
    = Z.of_nat ndim - count_axes ndim axis_flags ∧
  ∀ i, (i < ndim)%nat →
    al_result_axes (result_axes_loop ndim axis_flags false) !! i =
    Some (if flag_at axis_flags i then NPY_ITER_REDUCTION_AXIS (-1)
          else Z.of_nat i - count_axes i axis_flags).
Proof.
  intros Hn. split.
  - apply (result_axes_loop_curr_axis ndim axis_flags false).
  - intros i Hi. rewrite result_axes_entry by done. simpl.
    pose proof (result_axes_loop_curr_axis i axis_flags false) as Hc.
    simpl in Hc. by rewrite Hc.
Qed.

(* ===================================================================== *)
(** * More on the seeder's view *)
(* ===================================================================== *)

(** Keeping a reduced axis with extent 1 and stride 0, or dropping it,
    denotes the same elements as cutting the axis down to its first index
    under the operand's own stride. *)
Lemma offsets_view_first_slice (fs : list bool) (k : bool) (ds ss : list Z) :
  length ds = length fs → length ss = length fs →
  offsets (view_shape fs k ds) (view_strides fs k ss)
  = offsets (first_slice fs ds) ss.
Proof.
  revert ds ss. induction fs as [|f fs IH]; intros [|d ds] [|s ss] Hd Hs;
    try done.
  simpl in Hd, Hs.
  destruct f; simpl view_shape; simpl view_strides; simpl first_slice.
  - rewrite (offsets_unit_axis s).
    destruct k; [rewrite offsets_unit_axis|]; apply IH; lia.
  - cbn [offsets]. by rewrite IH by lia.
Qed.

Lemma offsets_first_index (d s : Z) (ds ss : list Z) (o : Z) :
  0 < d → o ∈ offsets ds ss → o ∈ offsets (d :: ds) (s :: ss).
Proof.
  intros Hd Ho. cbn [offsets]. apply list_elem_of_bind. exists 0. split.
  - apply list_elem_of_fmap. exists o. split; [lia|done].
  - apply elem_of_seqZ. lia.
Qed.

Lemma offsets_first_slice_subseteq (fs : list bool) (ds ss : list Z) :
  length ds = length fs → length ss = length fs →
  Forall (λ d, 0 ≤ d) ds → Forall (λ d, d ≠ 0) (reduced_extents fs ds) →
  offsets (first_slice fs ds) ss ⊆ offsets ds ss.
Proof.
  revert ds ss. induction fs as [|f fs IH]; intros [|d ds] [|s ss] Hd Hs Hnn Hnz;
    try done.
  simpl in Hd, Hs. apply Forall_cons in Hnn as [Hd0 Hnn].
  destruct f; simpl in Hnz; simpl first_slice.
  - apply Forall_cons in Hnz as [Hdz Hnz]. rewrite offsets_unit_axis.
    intros o Ho. apply offsets_first_index; [lia|].
    apply (IH ds ss); done || lia.
  - intros o Ho. cbn [offsets] in *.
    apply list_elem_of_bind in Ho as (i & Ho & Hi).
    apply list_elem_of_fmap in Ho as (o' & -> & Ho').
    apply list_elem_of_bind. exists i. split; [|done].
    apply list_elem_of_fmap. exists o'. split; [done|].
    apply (IH ds ss); done || lia.
Qed.

Lemma view_shape_length (fs : list bool) (k : bool) (ds : list Z) :
  length ds = length fs →
  length (view_shape fs k ds) = expected_rank (length fs) fs k.
Proof.
  unfold expected_rank, num_flagged.
  revert ds. induction fs as [|f fs IH]; intros [|d ds] Hd; try done.
  { by destruct k. }
  simpl in Hd. specialize (IH ds ltac:(lia)).
  pose proof (length_filter Is_true fs) as Hle.
  destruct f; simpl view_shape.
  - rewrite filter_cons_True by done. destruct k; simpl in *; lia.
  - rewrite filter_cons_False by (by intros ?). destruct k; simpl in *; lia.
Qed.

Lemma product_view_shape (fs : list bool) (k : bool) (ds : list Z) :
  product (view_shape fs k ds) = product (kept_extents fs ds).
Proof.
  unfold product. revert ds. induction fs as [|f fs IH]; intros [|d ds];
    try done.
  simpl. destruct f, k; simpl; rewrite IH; lia.
Qed.

Lemma view_shape_nonneg (fs : list bool) (k : bool) (ds : list Z) :
  Forall (λ d, 0 ≤ d) ds → Forall (λ d, 0 ≤ d) (view_shape fs k ds).
Proof.
  intros Hall. revert fs.
  induction Hall as [|d ds Hd Hds IH]; intros [|f fs]; simpl; try done.
  destruct f, k; repeat constructor; done || lia || apply IH.
Qed.

(** A reduced extent that is zero sits at a flagged axis. *)
Lemma reduced_zero_index (fs : list bool) (ds : list Z) :
  ¬ Forall (λ d, d ≠ 0) (reduced_extents fs ds) →
  ∃ i, (i < length ds)%nat ∧ flag_at fs i = true ∧ intp_at ds i = 0.
Proof.
  revert ds. induction fs as [|f fs IH]; intros [|d ds] Hnot;
    try (by destruct Hnot; constructor).
  simpl in Hnot. destruct f.
  - destruct (decide (d = 0)) as [->|Hd].
    + exists 0%nat. simpl. split; [lia|done].
    + destruct (IH ds) as (i & Hi & Hf & Hz).
      { intros Hall. apply Hnot. by constructor. }
      exists (S i). simpl. split; [lia|done].
  - destruct (IH ds Hnot) as (i & Hi & Hf & Hz).
    exists (S i). simpl. split; [lia|done].
Qed.

(** The loop of the seeder passes exactly when no reduced axis is empty. *)
Lemma seed_view_nonzero (fs : list bool) (k : bool) (a : PyArrayObject)
    (l : SeedLocals) :
  seed_view fs k a = Some l →
  Forall (λ d, d ≠ 0) (reduced_extents fs (f_dimensions a)).
Proof.
  intros Hview.
  destruct (decide (Forall (λ d, d ≠ 0) (reduced_extents fs (f_dimensions a))))
    as [Hall|Hnot]; [done|].
  apply reduced_zero_index in Hnot as (i & Hi & Hf & Hz).
  unfold seed_view in Hview.
  rewrite (seed_axes_none _ _ _ _ _ _ i) in Hview; try done.
  apply elem_of_seq. lia.
Qed.

(** X4. What the seeder copies from is the subarray of the operand at
    index 0 along each reduction axis: whether the reduced axes are kept
    with extent 1 and stride 0 (keepdims) or removed, the view denotes that
    subarray's elements in its order, and all of them are elements of the
    operand. *)
Theorem X4_seed_view_is_first_subarray (axis_flags : list bool)
    (keepdims : bool) (a : PyArrayObject) (l : SeedLocals) :
  wf_array a →
  length axis_flags = length (f_dimensions a) →
  seed_view axis_flags keepdims a = Some l →
  (λ o, f_data a + o) <$> offsets (take (sl_idim_out l) (sl_shape l))
                                  (take (sl_idim_out l) (sl_strides l))
    = footprint (first_subarray axis_flags a) ∧
  footprint (first_subarray axis_flags a) ⊆ footprint a.
Proof.
  intros Hwf Hlen Hview.
  pose proof (seed_view_nonzero _ _ _ _ Hview) as Hnz.
  destruct (seed_view_some axis_flags keepdims a Hwf Hlen Hnz)
    as (l' & Hview' & _ & Hshape & Hstrides & _).
  rewrite Hview in Hview'. inversion Hview'; subst l'; clear Hview'.
  destruct Hwf as (_ & Hs & Hnn & _). split.
  - rewrite Hshape, Hstrides. unfold footprint. simpl.
    rewrite offsets_view_first_slice; done || lia.
  - unfold footprint. simpl. intros p Hp.
    apply list_elem_of_fmap in Hp as (o & -> & Ho).
    apply list_elem_of_fmap. exists o. split; [done|].
    eapply offsets_first_slice_subseteq; [| | | |exact Ho]; done || lia.
Qed.

Lemma view_shape_keepdims_first_slice (fs : list bool) (ds : list Z) :
  view_shape fs true ds = first_slice fs ds.
Proof.
  revert ds. induction fs as [|f fs IH]; intros [|d ds]; try done.
  simpl. destruct f; by rewrite IH.
Qed.

Lemma view_strides_keepdims (fs : list bool) (ss : list Z) :
  view_strides fs true ss = zip_with (λ (f : bool) s, if f then 0 else s) fs ss.
Proof.
  revert ss. induction fs as [|f fs IH]; intros [|s ss]; try done.
  simpl. destruct f; by rewrite IH.
Qed.

Lemma view_strides_no_keepdims (fs : list bool) (ss : list Z) :
  view_strides fs false ss = kept_extents fs ss.
Proof.
  revert ss. induction fs as [|f fs IH]; intros [|s ss]; try done.
  simpl. destruct f; by rewrite IH.
Qed.

(** X5. The extents and strides the seeder hands to the view
    constructor, in closed form.  With keepdims the view has the operand's
    extents with every reduced extent replaced by 1, and the operand's
    strides with every reduced stride replaced by 0; without keepdims it
    has the extents and the strides of the non-reduced axes, in their
    order. *)
Theorem X5_seed_view_extents_and_strides (axis_flags : list bool)
    (keepdims : bool) (a : PyArrayObject) (l : SeedLocals) :
  wf_array a →
  length axis_flags = length (f_dimensions a) →
  seed_view axis_flags keepdims a = Some l →
  take (sl_idim_out l) (sl_shape l)
  = (if keepdims then first_slice axis_flags (f_dimensions a)
     else kept_extents axis_flags (f_dimensions a)) ∧
  take (sl_idim_out l) (sl_strides l)
  = (if keepdims
     then zip_with (λ (f : bool) s, if f then 0 else s) axis_flags (f_strides a)
     else kept_extents axis_flags (f_strides a)).
Proof.
  intros Hwf Hlen Hview.
  pose proof (seed_view_nonzero _ _ _ _ Hview) as Hnz.
  destruct (seed_view_some axis_flags keepdims a Hwf Hlen Hnz)
    as (l' & Hview' & _ & Hshape & Hstrides & _).
  rewrite Hview in Hview'. inversion Hview'; subst l'; clear Hview'.
  rewrite Hshape, Hstrides. destruct keepdims.
  - by rewrite view_shape_keepdims_first_slice, view_strides_keepdims.
  - by rewrite view_shape_no_keepdims, view_strides_no_keepdims.
Qed.

(** X6. The seeder and the driver agree on the rank: the view the seeder
    builds has the rank the driver planned for the output (and checked a
    supplied output against), the operand's rank with keepdims and the
    number of non-reduced axes without. *)
Theorem X6_seed_view_rank_is_planned_rank (axis_flags : list bool)
    (keepdims : bool) (a : PyArrayObject) (l : SeedLocals) :
  wf_array a →
  length axis_flags = length (f_dimensions a) →
  seed_view axis_flags keepdims a = Some l →
  sl_idim_out l
  = al_curr_axis (result_axes_loop (length (f_dimensions a)) axis_flags keepdims)
  ∧ sl_idim_out l
  = (if keepdims then length (f_dimensions a)
     else length (f_dimensions a) - num_flagged axis_flags)%nat.
Proof.
  intros Hwf Hlen Hview.
  pose proof (seed_view_nonzero _ _ _ _ Hview) as Hnz.
  destruct (seed_view_some axis_flags keepdims a Hwf Hlen Hnz)
    as (l' & Hview' & Hout & _).
  rewrite Hview in Hview'. inversion Hview'; subst l'; clear Hview'.
  rewrite Hout, view_shape_length by done.
  rewrite <- Hlen, curr_axis_expected_rank. done.
Qed.

(** X7. The count the seeder computes is the number of elements of the
    view, that is the number of elements the copy initialises in the
    result. *)
Theorem X7_seed_size_counts_view_elements (axis_flags : list bool)
    (keepdims : bool) (a : PyArrayObject) (l : SeedLocals) :
  wf_array a →
  length axis_flags = length (f_dimensions a) →
  seed_view axis_flags keepdims a = Some l →
  sl_size l
  = Z.of_nat (length (offsets (take (sl_idim_out l) (sl_shape l))
                              (take (sl_idim_out l) (sl_strides l)))).
Proof.
  intros Hwf Hlen Hview.
  pose proof (seed_view_nonzero _ _ _ _ Hview) as Hnz.
  destruct (seed_view_some axis_flags keepdims a Hwf Hlen Hnz)
    as (l' & Hview' & _ & Hshape & Hstrides & Hsize).
  rewrite Hview in Hview'. inversion Hview'; subst l'; clear Hview'.
  destruct Hwf as (_ & Hs & Hnn & _).
  rewrite Hshape, Hstrides, length_offsets.
  - by rewrite product_view_shape.
  - apply view_strides_length; lia.
  - by apply view_shape_nonneg.
Qed.

Lemma view_shape_no_flags (fs : list bool) (k : bool) (ds : list Z) :
  length ds = length fs → num_flagged fs = 0%nat → view_shape fs k ds = ds.
Proof.
  unfold num_flagged.
  revert ds. induction fs as [|f fs IH]; intros [|d ds] Hd Hno; try done.
  simpl in Hd. destruct f.
  - by rewrite filter_cons_True in Hno by done.
  - rewrite filter_cons_False in Hno by (by intros ?).
    simpl. rewrite IH; done || lia.
Qed.

Lemma view_strides_no_flags (fs : list bool) (k : bool) (ss : list Z) :
  length ss = length fs → num_flagged fs = 0%nat → view_strides fs k ss = ss.
Proof.
  unfold num_flagged.
  revert ss. induction fs as [|f fs IH]; intros [|s ss] Hs Hno; try done.
  simpl in Hs. destruct f.
  - by rewrite filter_cons_True in Hno by done.
  - rewrite filter_cons_False in Hno by (by intros ?).
    simpl. rewrite IH; done || lia.
Qed.

Lemma kept_extents_no_flags (fs : list bool) (ds : list Z) :
  length ds = length fs → num_flagged fs = 0%nat → kept_extents fs ds = ds.
Proof.
  intros Hd Hno. rewrite <- view_shape_no_keepdims.
  by apply view_shape_no_flags.
Qed.

(** X8. With no axis flagged the seeder's loop always passes, the view is
    the operand itself (same extents, same strides) whatever keepdims is,
    and the count is the operand's number of elements. *)
Theorem X8_seed_without_reduction_axes (axis_flags : list bool)
    (keepdims : bool) (a : PyArrayObject) :
  wf_array a →
  length axis_flags = length (f_dimensions a) →
  num_flagged axis_flags = 0%nat →
  ∃ l, seed_view axis_flags keepdims a = Some l ∧
    take (sl_idim_out l) (sl_shape l) = f_dimensions a ∧
    take (sl_idim_out l) (sl_strides l) = f_strides a ∧
    sl_size l = product (f_dimensions a).
Proof.
  intros Hwf Hlen Hno.
  assert (Hnz : Forall (λ d, d ≠ 0) (reduced_extents axis_flags (f_dimensions a))).
  { destruct (decide (Forall (λ d, d ≠ 0)
                        (reduced_extents axis_flags (f_dimensions a))))
      as [Hall|Hnot]; [done|].
    apply reduced_zero_index in Hnot as (i & Hi & Hf & _).
    exfalso. unfold flag_at in Hf.
    destruct (axis_flags !! i) as [b|] eqn:Hb; [|done]. simpl in Hf. subst b.
    assert (Hin : true ∈ filter Is_true axis_flags).
    { apply list_elem_of_filter. split; [done|].
      by eapply list_elem_of_lookup_2. }
    unfold num_flagged in Hno. apply nil_length_inv in Hno.
    rewrite Hno in Hin. by apply not_elem_of_nil in Hin. }
  destruct (seed_view_some axis_flags keepdims a Hwf Hlen Hnz)
    as (l & Hview & _ & Hshape & Hstrides & Hsize).
  destruct Hwf as (_ & Hs & _).
  exists l. split; [done|].
  rewrite Hshape, Hstrides, Hsize.
  rewrite view_shape_no_flags, view_strides_no_flags, kept_extents_no_flags;
    done || lia.
Qed.


(* ===================================================================== *)
(** * What the seeder leaves in the result *)
(* ===================================================================== *)

Section SeededContents.
Context `{H : Host}.

Variables (result operand : ref) (axis_flags : list bool).
Variables (funcname : string) (keepdims : bool) (st : St host_state).

(** X9. After a successful seeding, a result that has the extents of the
    view (the operand's extents with every reduced extent 1 under
    keepdims, the non-reduced extents otherwise) and the operand's element
    type holds, element by element in index order, the subarray of the
    operand at index 0 along each reduction axis.  This is for a view
    constructor that builds the view it is asked for, a copy that copies
    element by element when there is nothing to broadcast and nothing to
    cast, a result with one cell per element and an operand whose cells are
    allocated. *)
Theorem X9_seeding_copies_first_subarray (a ra : PyArrayObject)
    (l : SeedLocals) (v : ref) (w1 w2 : World host_state) (rc : Z) :
  host_view_post → host_view_frame → host_copy_post →
  objects (world st) !! operand = Some a →
  wf_array a →
  length axis_flags = length (f_dimensions a) →
  allocated (world st) a →
  objects (world st) !! result = Some ra →
  f_dimensions ra = (if keepdims then first_slice axis_flags (f_dimensions a)
                     else kept_extents axis_flags (f_dimensions a)) →
  f_descr ra = f_descr a →
  length (f_strides ra) = length (f_dimensions ra) →
  NoDup (footprint ra) →
  seed_view axis_flags keepdims a = Some l →
  PyArray_NewFromDescr (f_descr a) (sl_idim_out l) (sl_shape l)
                       (sl_strides l) (f_data a) 0 (world st) = (Some v, w1) →
  PyArray_CopyInto result v w1 = (rc, w2) →
  0 ≤ rc →
  world (snd (PyArray_CopyInitialReduceValues result operand axis_flags
                funcname keepdims st)) = w2 ∧
  elements w2 ra = elements (world st) (first_subarray axis_flags a).
Proof.
  intros Hvpost Hvframe Hcpost Ha Hwf Hlen Hal Hra Hrad Hrat Hras Hnd Hview
         Hnew Hcopy Hrc.
  split.
  { by rewrite (seed_returns result operand axis_flags funcname keepdims st
                             a l v w1 w2 rc). }
  pose proof (seed_view_nonzero _ _ _ _ Hview) as Hnz.
  destruct (seed_view_some axis_flags keepdims a Hwf Hlen Hnz)
    as (l' & Hview' & _ & Hshape & Hstrides & _).
  rewrite Hview in Hview'. inversion Hview'; subst l'; clear Hview'.
  pose proof Hwf as (_ & Hs & Hnn & _).
  pose proof (Hvpost _ _ _ _ _ _ _ _ _ Hnew) as Hv.
  destruct (Hvframe _ _ _ _ _ _ _ _ _ Hnew) as [Hst Hmem].
  set (va := mkArray (take (sl_idim_out l) (sl_shape l))
                     (take (sl_idim_out l) (sl_strides l))
                     (f_descr a) (f_data a) 0) in *.
  assert (Hfv : footprint va = footprint (first_subarray axis_flags a)).
  { unfold footprint. simpl. rewrite Hshape, Hstrides.
    rewrite offsets_view_first_slice; done || lia. }
  assert (Hsub : footprint (first_subarray axis_flags a) ⊆ footprint a).
  { unfold footprint. simpl. intros p Hp.
    apply list_elem_of_fmap in Hp as (o & -> & Ho).
    apply list_elem_of_fmap. exists o. split; [done|].
    eapply offsets_first_slice_subseteq; [| | | |exact Ho]; done || lia. }
  assert (Hsl : Forall (λ p, is_Some (memory (world st) !! p))
                       (footprint (first_subarray axis_flags a))).
  { apply Forall_forall. intros p Hp.
    apply (proj1 (Forall_forall _ _) Hal). by apply Hsub. }
  assert (Hel : elements w1 va
                = elements (world st) (first_subarray axis_flags a)).
  { unfold elements. rewrite Hfv. apply list_fmap_ext. intros i p Hip.
    apply Hmem; [|apply not_elem_of_nil].
    exact (Forall_lookup_1 _ _ _ _ Hsl Hip). }
  rewrite <- Hel.
  apply (Hcpost result v w1 rc w2 ra va Hcopy Hrc (Hst _ _ Hra) Hv).
  - subst va. simpl. rewrite Hrad, Hshape. destruct keepdims.
    + by rewrite view_shape_keepdims_first_slice.
    + by rewrite view_shape_no_keepdims.
  - exact Hrat.
  - exact Hras.
  - subst va. simpl. rewrite Hshape, Hstrides.
    apply view_strides_length; lia.
  - exact Hnd.
  - unfold allocated. rewrite Hfv. apply Forall_forall. intros p Hp.
    rewrite Hmem; [|by apply (proj1 (Forall_forall _ _) Hsl)
                   |apply not_elem_of_nil].
    by apply (proj1 (Forall_forall _ _) Hsl).
Qed.
End SeededContents.

(* ===================================================================== *)
(** * The call protocol of the driver *)
(* ===================================================================== *)

Lemma phase_run_app (id : option Scalar) (m : Z) (p : Phase)
    (evs1 evs2 : list Event) :
  phase_run id m p (evs1 ++ evs2)
  = phase_run id m p evs1 ≫= λ q, phase_run id m q evs2.
Proof.
  revert p. induction evs1 as [|ev evs1 IH]; intros p; [done|].
  simpl. destruct (phase_step id m p ev); [apply IH|done].
Qed.

Lemma phase_run_released (id : option Scalar) (m : Z) (evs : list Event)
    (q : Phase) :
  phase_run id m PReleased evs = Some q → evs = [].
Proof. destruct evs as [|ev evs]; [done|]. by destruct ev. Qed.

(** A sequence of calls that ends with the iterator released ends with the
    release, and has no other. *)
Lemma phase_run_release_last (id : option Scalar) (m : Z) (evs : list Event) :
  ∀ p, p ≠ PReleased → phase_run id m p evs = Some PReleased →
  ∃ mid, evs = mid ++ [EvDeallocate] ∧ EvDeallocate ∉ mid.
Proof.
  induction evs as [|ev evs IH]; intros p Hp Hrun.
  { simpl in Hrun. congruence. }
  simpl in Hrun. destruct (phase_step id m p ev) as [p'|] eqn:Hstep; [|done].
  destruct (decide (p' = PReleased)) as [->|Hp'].
  - apply phase_run_released in Hrun as ->. exists []. split.
    + destruct p, ev; simpl in Hstep; try done;
        repeat case_match; by simplify_eq.
    + apply not_elem_of_nil.
  - destruct (IH p' Hp' Hrun) as (mid & -> & Hmid).
    exists (ev :: mid). split; [done|].
    apply not_elem_of_cons. split; [|done].
    intros <-. destruct p; simpl in Hstep; repeat case_match; simplify_eq.
Qed.

(** The callback comes at most once in a sequence of calls in order, and
    never with a negative skip count. *)
Lemma phase_run_loop (id : option Scalar) (m : Z) (evs : list Event) :
  ∀ p q, phase_run id m p evs = Some q →
  (length (filter (λ ev, is_loop ev) evs) ≤ 1)%nat ∧
  (p = PLooped ∨ p = PChecked ∨ p = PReleased →
   length (filter (λ ev, is_loop ev) evs) = 0%nat) ∧
  ∀ n s, EvLoop n s ∈ evs → 0 ≤ s.
Proof.
  induction evs as [|ev evs IH]; intros p q Hrun.
  { split; [simpl; lia|]. split; [done|].
    intros n s Hin. by apply not_elem_of_nil in Hin. }
  simpl in Hrun. destruct (phase_step id m p ev) as [p'|] eqn:Hstep; [|done].
  destruct (IH p' q Hrun) as (Hle & Hzero & Hskip).
  assert (Hcase : (is_loop ev = false ∧ (p = PLooped ∨ p = PChecked ∨ p = PReleased
                                         → p' = PLooped ∨ p' = PChecked ∨ p' = PReleased))
                  ∨ (∃ n s, ev = EvLoop n s ∧ 0 ≤ s ∧ p = PNext ∧ p' = PLooped)).
  { destruct p, ev; simpl in Hstep; try done;
      repeat case_match; simplify_eq;
      first [ left; split; [done|]; intros [?|[?|?]]; simplify_eq; by auto
            | right; eexists _, _; repeat split; try done; by apply Z.leb_le ]. }
  destruct Hcase as [[Hnl Hmono] | (n & s & -> & Hs & -> & ->)].
  - rewrite filter_cons_False by (rewrite Hnl; intros []). 
    split; [done|]. split; [intros Hp; by apply Hzero, Hmono|].
    intros n s Hin. apply elem_of_cons in Hin as [<-|Hin]; [done|].
    by eapply Hskip.
  - rewrite filter_cons_True by done. simpl.
    rewrite Hzero by auto. split; [lia|]. split; [by intros [?|[?|?]]|].
    intros n' s' Hin. apply elem_of_cons in Hin as [Heq|Hin].
    + by inversion Heq; subst.
    + by eapply Hskip.
Qed.

Ltac phase_solve :=
  simpl;
  repeat first
    [ case_bool_decide; [simpl|congruence]
    | match goal with
      | Hs : (?s <? 0) = false |- context [0 <=? ?s] =>
          replace (0 <=? s) with true
            by (symmetry; apply Z.leb_le; apply Z.ltb_ge in Hs; lia);
          simpl
      end ];
  try reflexivity.

Section Protocol.
Context `{H : Host}.

Implicit Types (st : St host_state) (evs : list Event).

Lemma iterate_phases id out loop data errormask iter result needs_api
      skip st r st' :
  0 ≤ skip →
  reduce_iterate out loop data errormask iter result needs_api skip st
    = (r, st') →
  ∃ evs, log st' = log st ++ evs ∧
    phase_run id errormask PSeeded evs = Some PReleased ∧
    (is_Some r → EvCheckFPErr errormask ∈ evs).
Proof.
  intros Hskip. assert ((skip <? 0) = false) by (by apply Z.ltb_ge).
  unfold reduce_iterate, fail. run_monad. intros Hrun. steps;
    (eexists; split; [log_ext|]; split; [phase_solve|];
     intros [x Hx]; try discriminate;
     repeat first [ apply list_elem_of_here | apply list_elem_of_further ]).
Qed.

Lemma seed_phases result operand axis_flags funcname keepdims errormask
      st r st' :
  PyArray_CopyInitialReduceValues result operand axis_flags funcname
                                  keepdims st = (r, st') →
  ∃ evs p, log st' = log st ++ evs ∧
    phase_run None errormask PConstructed evs = Some p ∧
    (p = PConstructed ∨ p = PViewed ∨ p = PSeeded) ∧
    (0 ≤ r → p = PSeeded).
Proof.
  unfold PyArray_CopyInitialReduceValues. run_monad. intros Hrun. steps;
    (eexists _, _; split; [log_ext|]; split; [phase_solve|];
     split; [auto|]; try lia; done).
Qed.

Lemma reduce_seed_phases operand out axis_flags keepdims identity loop data
      funcname errormask iter st r st' :
  reduce_seed operand out axis_flags keepdims identity loop data funcname
              errormask iter st = (r, st') →
  ∃ evs, log st' = log st ++ evs ∧
    phase_run identity errormask PConstructed evs = Some PReleased ∧
    (is_Some r → EvCheckFPErr errormask ∈ evs).
Proof.
  unfold reduce_seed, fail. run_monad. intros Hrun.
  destruct identity as [v|]; run_monad.
  - destruct (PyArray_FillWithScalar _ _ _) as [rc w1] eqn:Hfill.
    destruct (rc <? 0).
    + steps. eexists. split; [log_ext|]. split; [phase_solve|].
      by intros [? ?].
    + apply (iterate_phases (Some v)) in Hrun as (evs & Hlog & Hph & Hok);
        [|lia].
      simpl in Hlog. eexists. split.
      { rewrite Hlog, <- app_assoc. reflexivity. }
      split; [by phase_solve|].
      intros Hr. apply list_elem_of_further. by apply Hok.
  - destruct (PyArray_CopyInitialReduceValues _ _ _ _ _ _)
      as [skip st1] eqn:Hseed.
    apply (seed_phases _ _ _ _ _ errormask) in Hseed
      as (evs1 & p & Hlog1 & Hph1 & Hp & Hnonneg).
    destruct (skip <? 0) eqn:Hneg.
    + steps. eexists. split.
      { rewrite Hlog1, <- app_assoc. reflexivity. }
      split; [|by intros [? ?]].
      rewrite phase_run_app, Hph1. simpl.
      destruct Hp as [->|[->| ->]]; by phase_solve.
    + apply Z.ltb_ge in Hneg. rewrite (Hnonneg Hneg) in Hph1.
      apply (iterate_phases None) in Hrun as (evs & Hlog & Hph & Hok);
        [|done].
      eexists. split.
      { rewrite Hlog, Hlog1, <- app_assoc. reflexivity. }
      split.
      * by rewrite phase_run_app, Hph1.
      * intros Hr. apply elem_of_app. right. by apply Hok.
Qed.

Lemma construct_phases operand out axis_flags keepdims identity loop data
      funcname errormask args st r st' :
  reduce_construct operand out axis_flags keepdims identity loop data
                   funcname errormask args st = (r, st') →
  ∃ evs p, log st' = log st ++ EvAdvancedNew args :: evs ∧
    phase_run identity errormask PConstructed evs = Some p ∧
    (p = PConstructed ∨ p = PReleased) ∧
    (is_Some r → p = PReleased ∧ EvCheckFPErr errormask ∈ evs).
Proof.
  unfold reduce_construct, fail. run_monad. intros Hrun.
  destruct (NpyIter_AdvancedNew args (world st)) as [[iter|] w1].
  - apply reduce_seed_phases in Hrun as (evs & Hlog & Hph & Hok).
    simpl in Hlog. exists evs, PReleased. split.
    { rewrite Hlog, <- app_assoc. reflexivity. }
    split; [done|]. split; [by right|]. intros Hr. split; [done|by apply Hok].
  - inversion Hrun; subst. exists [], PConstructed.
    split; [done|]. split; [done|]. split; [by left|]. by intros [? ?].
Qed.

(** The calls of a whole run, from the start. *)
Lemma wrapper_phases operand out wheremask operand_dtype result_dtype
      casting axis_flags reorderable keepdims identity loop data buffersize
      funcname errormask st r st' :
  PyUFunc_ReduceWrapper operand out wheremask operand_dtype result_dtype
    casting axis_flags reorderable keepdims identity loop data buffersize
    funcname errormask st = (r, st') →
  ∃ evs p, log st' = log st ++ evs ∧
    phase_run identity errormask PStart evs = Some p ∧
    phase_final p = true ∧
    (is_Some r → p = PReleased ∧ EvCheckFPErr errormask ∈ evs).
Proof.
  unfold PyUFunc_ReduceWrapper, fail. run_monad. intros Hrun.
  assert (Hnil : r = None → log st' = log st →
                 ∃ evs p, log st' = log st ++ evs ∧
                   phase_run identity errormask PStart evs = Some p ∧
                   phase_final p = true ∧
                   (is_Some r → p = PReleased ∧ EvCheckFPErr errormask ∈ evs)).
  { intros -> Hl. exists [], PStart. rewrite app_nil_r.
    split; [done|]. split; [done|]. split; [done|]. by intros [? ?]. }
  assert (Hcons : ∀ args,
            reduce_construct operand out axis_flags keepdims identity loop
              data funcname errormask args st = (r, st') →
            ∃ evs p, log st' = log st ++ evs ∧
              phase_run identity errormask PStart evs = Some p ∧
              phase_final p = true ∧
              (is_Some r → p = PReleased ∧ EvCheckFPErr errormask ∈ evs)).
  { intros args Hc.
    apply construct_phases in Hc as (evs & p & Hlog & Hph & Hp & Hok).
    exists (EvAdvancedNew args :: evs), p. split; [done|].
    split; [done|]. split; [by destruct Hp as [-> | ->]|].
    intros Hr. destruct (Hok Hr) as [-> Hin]. split; [done|by right]. }
  destruct (negb reorderable && _).
  { steps. by apply Hnil. }
  destruct (bool_decide (is_Some wheremask) && _).
  { steps. by apply Hnil. }
  destruct wheremask as [m|]; simpl in Hrun.
  all: destruct out as [o|]; [|by eapply Hcons].
  all: destruct (negb (bool_decide _)).
  all: try (by eapply Hcons).
  all: inversion Hrun; subst; by apply Hnil.
Qed.

Variables (operand : ref) (out wheremask : option ref).
Variables (operand_dtype result_dtype : PyArray_Descr) (casting : Z).
Variables (axis_flags : list bool) (reorderable keepdims : bool).
Variables (identity : option Scalar) (loop : PyArray_ReduceLoopFunc).
Variables (data : UserData) (buffersize : Z) (funcname : string).
Variables (errormask : Z) (st : St host_state).

(** X10. The collaborator calls of every run of the driver come in one
    order: construction, then the seeding (the fill with the identity, or
    the seeder's view and copy when there is none), then reset, fetching
    the advance function, the callback, the floating-point check, and the
    release of the iterator; a run stops early only before the
    construction (a validation error), right after a failed construction,
    or by going straight to the release.  A run that returns an array has
    made the floating-point check with the caller's error mask and has
    released the iterator. *)
Theorem X10_call_protocol (r : option ref) (st' : St host_state) :
  PyUFunc_ReduceWrapper operand out wheremask operand_dtype result_dtype
    casting axis_flags reorderable keepdims identity loop data buffersize
    funcname errormask st = (r, st') →
  ∃ p, phase_run identity errormask PStart (new_events st st') = Some p ∧
    phase_final p = true ∧
    (is_Some r →
     p = PReleased ∧ EvCheckFPErr errormask ∈ new_events st st').
Proof.
  intros Hrun. apply wrapper_phases in Hrun as (evs & p & Hlog & Hph & Hp & Hok).
  rewrite (new_events_app _ _ _ Hlog). by exists p.
Qed.

(** X11. The accumulation callback is invoked at most once per call of the
    driver, and never with a negative skip count. *)
Theorem X11_callback_at_most_once (r : option ref) (st' : St host_state) :
  PyUFunc_ReduceWrapper operand out wheremask operand_dtype result_dtype
    casting axis_flags reorderable keepdims identity loop data buffersize
    funcname errormask st = (r, st') →
  (length (filter (λ ev, is_loop ev) (new_events st st')) ≤ 1)%nat ∧
  ∀ n s, EvLoop n s ∈ new_events st st' → 0 ≤ s.
Proof.
  intros Hrun. apply wrapper_phases in Hrun as (evs & p & Hlog & Hph & _).
  rewrite (new_events_app _ _ _ Hlog).
  destruct (phase_run_loop _ _ _ _ _ Hph) as (Hle & _ & Hs). done.
Qed.
End Protocol.

(* ===================================================================== *)
(** * Validation, construction and release *)
(* ===================================================================== *)

Section Driver.
Context `{H : Host}.

Variables (operand : ref) (out wheremask : option ref).
Variables (operand_dtype result_dtype : PyArray_Descr) (casting : Z).
Variables (axis_flags : list bool) (reorderable keepdims : bool).
Variables (identity : option Scalar) (loop : PyArray_ReduceLoopFunc).
Variables (data : UserData) (buffersize : Z) (funcname : string).
Variables (errormask : Z) (st : St host_state).

Abbreviation run_wrapper :=
  (PyUFunc_ReduceWrapper operand out wheremask operand_dtype result_dtype
     casting axis_flags reorderable keepdims identity loop data buffersize
     funcname errormask st).

Abbreviation planned_args :=
  (wrapper_iter_args operand out wheremask operand_dtype result_dtype
     casting buffersize axis_flags keepdims (world st)).

(** X12. Validation is all or nothing.  Either the three checks pass, and
    then the first collaborator called is the iterator constructor, with
    the planned arguments; or one of them fails, and then the driver
    returns NULL with NonReorderableMultiAxisError,
    WhereWithoutIdentityError or OutputShapeMismatchError pending and has
    done nothing else: no collaborator was called, objects and memory are
    as before. *)
Theorem X12_validation_gate (r : option ref) (st' : St host_state) :
  length axis_flags = PyArray_NDIM operand (world st) →
  run_wrapper = (r, st') →
  (validation_passes operand out wheremask axis_flags reorderable keepdims
                     identity st ∧
   ∃ evs, new_events st st' = EvAdvancedNew planned_args :: evs)
  ∨
  (¬ validation_passes operand out wheremask axis_flags reorderable keepdims
                       identity st ∧
   r = None ∧
   ∃ e, st' = raised st e ∧
     (e = NonReorderableMultiAxisError funcname ∨
      e = WhereWithoutIdentityError funcname ∨
      ∃ o, out = Some o ∧
        e = OutputShapeMismatchError funcname keepdims
              (Z.of_nat (PyArray_NDIM o (world st)))
              (Z.of_nat (expected_rank (PyArray_NDIM operand (world st))
                                       axis_flags keepdims)))).
Proof.
  intros Hlen Hrun.
  destruct (decide (reorderable = true ∨ (num_flagged axis_flags ≤ 1)%nat))
    as [Hre|Hre].
  2:{ right. split; [by intros (? & _)|].
      assert (reorderable = false) as -> by (destruct reorderable; tauto).
      revert Hrun. unfold PyUFunc_ReduceWrapper. run_monad.
      rewrite <- Hlen, count_axes_num_flagged.
      replace (1 <? Z.of_nat (num_flagged axis_flags)) with true
        by (symmetry; apply Z.ltb_lt; lia).
      intros Hrun. inversion Hrun; subst. split; [done|].
      eexists. split; [reflexivity|]. by left. }
  assert (Hre' : negb reorderable && (1 <? Z.of_nat (num_flagged axis_flags))
                 = false).
  { destruct Hre as [-> | Hle]; [done|].
    apply andb_false_iff. right. apply Z.ltb_ge. lia. }
  destruct (decide (wheremask = None ∨ identity ≠ None)) as [Hwh|Hwh].
  2:{ right. split; [by intros (_ & ? & _)|].
      destruct wheremask as [m|]; [|tauto].
      destruct identity as [v|]; [by destruct Hwh; right|].
      revert Hrun. unfold PyUFunc_ReduceWrapper. run_monad.
      rewrite <- Hlen, count_axes_num_flagged, Hre'.
      intros Hrun. inversion Hrun; subst. split; [done|].
      eexists. split; [reflexivity|]. right. by left. }
  assert (Hrank : (∀ o, out = Some o →
                     PyArray_NDIM o (world st) =
                     expected_rank (PyArray_NDIM operand (world st))
                                   axis_flags keepdims)
                  ∨ ∃ o, out = Some o ∧
                     PyArray_NDIM o (world st) ≠
                     expected_rank (PyArray_NDIM operand (world st))
                                   axis_flags keepdims).
  { destruct out as [o|]; [|by left].
    destruct (decide (PyArray_NDIM o (world st) =
                      expected_rank (PyArray_NDIM operand (world st))
                                    axis_flags keepdims)) as [Heq|Hne].
    - left. intros ? [= <-]. done.
    - right. by exists o. }
  destruct Hrank as [Hrank | (o & Ho & Hne)].
  - left. split; [done|].
    rewrite wrapper_past_validation in Hrun by done.
    apply construct_phases in Hrun as (evs & p & Hlog & _).
    exists evs. by apply new_events_app.
  - right. split; [intros (_ & _ & Hr); by apply Hne, Hr|].
    revert Hrun. unfold PyUFunc_ReduceWrapper. run_monad.
    rewrite <- Hlen in *. rewrite count_axes_num_flagged, Hre'.
    replace (bool_decide (is_Some wheremask) && bool_decide (identity = None))
      with false.
    2:{ symmetry. apply andb_false_iff. destruct Hwh as [-> | Hid].
        - left. apply bool_decide_eq_false. by intros [? ?].
        - right. by apply bool_decide_eq_false. }
    rewrite curr_axis_expected_rank. subst out.
    destruct wheremask as [m|]; simpl.
    all: rewrite bool_decide_eq_false_2 by done; simpl.
    all: intros Hrun; inversion Hrun; subst; split; [done|].
    all: eexists; split; [reflexivity|]; right; right; exists o.
    all: split; [done|]; unfold OutputShapeMismatchError; by destruct keepdims.
Qed.

Hypothesis flags_rank : length axis_flags = PyArray_NDIM operand (world st).
Hypothesis valid :
  validation_passes operand out wheremask axis_flags reorderable keepdims
                    identity st.

(** X13. When the iterator constructor fails, the driver returns NULL and
    stops there: it calls nothing else (no release of an iterator that does
    not exist) and leaves the world, the pending error included, as the
    constructor left it. *)
Theorem X13_construction_failure (w1 : World host_state) :
  NpyIter_AdvancedNew planned_args (world st) = (None, w1) →
  run_wrapper = (None, mkSt w1 (log st ++ [EvAdvancedNew planned_args])).
Proof using flags_rank valid.
  intros Hnew. rewrite wrapper_past_validation by done.
  unfold reduce_construct, fail. run_monad. by rewrite Hnew.
Qed.

(** X14. Once the iterator has been constructed it is released exactly
    once, by the last collaborator call of the run, whether the run
    succeeds or fails in the seeding, the reset, the callback or the error
    check. *)
Theorem X14_iterator_released_once (it : NpyIter) (w1 : World host_state)
    (r : option ref) (st' : St host_state) :
  NpyIter_AdvancedNew planned_args (world st) = (Some it, w1) →
  run_wrapper = (r, st') →
  ∃ mid, new_events st st'
         = EvAdvancedNew planned_args :: mid ++ [EvDeallocate] ∧
         EvDeallocate ∉ mid.
Proof using flags_rank valid.
  intros Hnew. rewrite wrapper_past_validation by done.
  unfold reduce_construct. run_monad. rewrite Hnew. intros Hrun.
  apply reduce_seed_phases in Hrun as (evs & Hlog & Hph & _).
  apply phase_run_release_last in Hph as (mid & -> & Hmid); [|done].
  exists mid. split; [|done].
  apply new_events_app. simpl in Hlog. rewrite Hlog, <- app_assoc. done.
Qed.
End Driver.

(* ===================================================================== *)
(** * What is seeded, what is returned, what the callback is told *)
(* ===================================================================== *)

Section Targets.
Context `{H : Host}.

Implicit Types (st : St host_state) (evs : list Event).

Lemma iterate_no_seeding out loop data errormask iter result needs_api
      skip st r st' :
  reduce_iterate out loop data errormask iter result needs_api skip st
    = (r, st') →
  ∃ evs, log st' = log st ++ evs ∧
    (∀ arr v, EvFillWithScalar arr v ∉ evs) ∧
    (∀ dst src, EvCopyInto dst src ∉ evs).
Proof.
  unfold reduce_iterate, fail. run_monad. intros Hrun. steps;
    (eexists; split; [log_ext|]; split; intros ? ? Hin; event_cases Hin).
Qed.

Lemma seed_targets result operand axis_flags funcname keepdims st r st' :
  PyArray_CopyInitialReduceValues result operand axis_flags funcname
                                  keepdims st = (r, st') →
  ∃ evs, log st' = log st ++ evs ∧
    (∀ arr v, EvFillWithScalar arr v ∉ evs) ∧
    (∀ dst src, EvCopyInto dst src ∈ evs → dst = result).
Proof.
  unfold PyArray_CopyInitialReduceValues. run_monad. intros Hrun. steps;
    (eexists; split; [log_ext|]; split; intros ? ? Hin; event_cases Hin).
Qed.

Lemma reduce_seed_targets operand out axis_flags keepdims identity loop data
      funcname errormask iter st r st' :
  reduce_seed operand out axis_flags keepdims identity loop data funcname
              errormask iter st = (r, st') →
  ∃ evs, log st' = log st ++ evs ∧
    (∀ arr v, EvFillWithScalar arr v ∈ evs →
              arr = NpyIter_GetOperandArray iter 0 ∧ identity = Some v) ∧
    (∀ dst src, EvCopyInto dst src ∈ evs →
                dst = NpyIter_GetOperandArray iter 0 ∧ identity = None).
Proof.
  unfold reduce_seed, fail. run_monad. intros Hrun.
  destruct identity as [v|]; run_monad.
  - destruct (PyArray_FillWithScalar _ _ _) as [rc w1] eqn:Hfill.
    destruct (rc <? 0).
    + steps. eexists. split; [log_ext|].
      split; intros ? ? Hin; event_cases Hin.
    + apply iterate_no_seeding in Hrun as (evs & Hlog & Hnf & Hnc).
      simpl in Hlog. eexists. split.
      { rewrite Hlog, <- app_assoc. reflexivity. }
      split; intros ? ? Hin; apply elem_of_cons in Hin as [Heq|Hin];
        try discriminate.
      * by inversion Heq.
      * by apply Hnf in Hin.
      * by apply Hnc in Hin.
  - destruct (PyArray_CopyInitialReduceValues _ _ _ _ _ _)
      as [skip st1] eqn:Hseed.
    apply seed_targets in Hseed as (evs1 & Hlog1 & Hnf1 & Hc1).
    destruct (skip <? 0).
    + steps. eexists. split.
      { rewrite Hlog1, <- app_assoc. reflexivity. }
      split; intros ? ? Hin; apply elem_of_app in Hin as [Hin|Hin].
      * by apply Hnf1 in Hin.
      * event_cases Hin.
      * split; [by eapply Hc1|done].
      * event_cases Hin.
    + apply iterate_no_seeding in Hrun as (evs & Hlog & Hnf & Hnc).
      eexists. split.
      { rewrite Hlog, Hlog1, <- app_assoc. reflexivity. }
      split; intros ? ? Hin; apply elem_of_app in Hin as [Hin|Hin].
      * by apply Hnf1 in Hin.
      * by apply Hnf in Hin.
      * split; [by eapply Hc1|done].
      * by apply Hnc in Hin.
Qed.

Lemma construct_returns operand out axis_flags keepdims identity loop data
      funcname errormask args st x st' :
  reduce_construct operand out axis_flags keepdims identity loop data
                   funcname errormask args st = (Some x, st') →
  ∃ it w1, NpyIter_AdvancedNew args (world st) = (Some it, w1) ∧
    x = from_option id (NpyIter_GetOperandArray it 0) out ∧
    (∀ arr v, EvFillWithScalar arr v ∈ new_events st st' →
              arr = NpyIter_GetOperandArray it 0 ∧ identity = Some v) ∧
    (∀ dst src, EvCopyInto dst src ∈ new_events st st' →
                dst = NpyIter_GetOperandArray it 0 ∧ identity = None).
Proof.
  unfold reduce_construct, fail. run_monad.
  destruct (NpyIter_AdvancedNew args (world st)) as [[it|] w1]; [|done].
  intros Hrun. exists it, w1. split; [done|].
  pose proof Hrun as Hret. apply reduce_seed_run in Hret as [Hret _].
  split; [by apply Hret|].
  apply reduce_seed_targets in Hrun as (evs & Hlog & Hf & Hc).
  simpl in Hlog. rewrite <- app_assoc in Hlog.
  rewrite (new_events_app _ _ _ Hlog).
  split; intros ? ? Hin; apply elem_of_cons in Hin as [Heq|Hin];
    try discriminate; first [exact (Hf _ _ Hin) | exact (Hc _ _ Hin)].
Qed.

Variables (operand : ref) (out wheremask : option ref).
Variables (operand_dtype result_dtype : PyArray_Descr) (casting : Z).
Variables (axis_flags : list bool) (reorderable keepdims : bool).
Variables (identity : option Scalar) (loop : PyArray_ReduceLoopFunc).
Variables (data : UserData) (buffersize : Z) (funcname : string).
Variables (errormask : Z) (st : St host_state).

(** X15. A call that returns an array has constructed an iterator with the
    planned arguments; what it returns is the supplied output, or, when
    none was supplied, operand 0 of that iterator (the array the iterator
    allocated).  The seeding always goes into operand 0 of the iterator,
    which need not be the supplied output: the fill (identity given) and
    the seeder's copy (no identity) have it as their target. *)
Theorem X15_result_is_iterator_operand (x : ref) (st' : St host_state) :
  PyUFunc_ReduceWrapper operand out wheremask operand_dtype result_dtype
    casting axis_flags reorderable keepdims identity loop data buffersize
    funcname errormask st = (Some x, st') →
  ∃ it w1,
    NpyIter_AdvancedNew
      (wrapper_iter_args operand out wheremask operand_dtype result_dtype
         casting buffersize axis_flags keepdims (world st)) (world st)
      = (Some it, w1) ∧
    x = from_option id (NpyIter_GetOperandArray it 0) out ∧
    (∀ arr v, EvFillWithScalar arr v ∈ new_events st st' →
              arr = NpyIter_GetOperandArray it 0 ∧ identity = Some v) ∧
    (∀ dst src, EvCopyInto dst src ∈ new_events st st' →
                dst = NpyIter_GetOperandArray it 0 ∧ identity = None).
Proof.
  unfold PyUFunc_ReduceWrapper, wrapper_iter_args, fail. run_monad.
  intros Hrun.
  destruct (negb reorderable && _); [by steps|].
  destruct (bool_decide (is_Some wheremask) && _); [by steps|].
  destruct wheremask as [m|]; simpl in Hrun.
  all: destruct out as [o|]; [|by eapply construct_returns].
  all: destruct (negb (bool_decide _)); [by inversion Hrun|].
  all: by eapply construct_returns.
Qed.
End Targets.

Section SkipCount.
Context `{H : Host}.

Implicit Types (st : St host_state) (evs : list Event).

(** What the seeder can return on a well-formed operand. *)
Lemma seed_value result operand axis_flags funcname keepdims st r st'
      (a : PyArrayObject) :
  PyArray_CopyInitialReduceValues result operand axis_flags funcname
                                  keepdims st = (r, st') →
  objects (world st) !! operand = Some a →
  wf_array a →
  length axis_flags = length (f_dimensions a) →
  r = -1 ∨ r = to_int (product (kept_extents axis_flags (f_dimensions a))).
Proof.
  intros Hrun Ha Hwf Hlen. revert Hrun.
  unfold PyArray_CopyInitialReduceValues. run_monad.
  unfold PyArray_NDIM, PyArray_SHAPE, PyArray_STRIDES. rewrite Ha. simpl.
  destruct (seed_view axis_flags keepdims a) as [l|] eqn:Hview;
    unfold seed_view in Hview; rewrite Hview.
  - pose proof (seed_view_nonzero axis_flags keepdims a l Hview) as Hnz.
    destruct (seed_view_some axis_flags keepdims a Hwf Hlen Hnz)
      as (l' & Hview' & _ & _ & _ & Hsize).
    unfold seed_view in Hview'. rewrite Hview in Hview'.
    inversion Hview'; subst l'; clear Hview'.
    rewrite Hsize. intros Hrun. steps; auto.
  - intros Hrun. steps. auto.
Qed.

Lemma iterate_no_loop out loop data errormask iter result needs_api skip
      st r st' :
  NpyIter_GetIterSize iter = 0 →
  reduce_iterate out loop data errormask iter result needs_api skip st
    = (r, st') →
  ∃ evs, log st' = log st ++ evs ∧ no_loop evs.
Proof.
  intros Hsize. unfold reduce_iterate, fail. run_monad. rewrite Hsize. simpl.
  intros Hrun. steps;
    (eexists; split; [log_ext|]; intros ? ? Hin; event_cases Hin).
Qed.

Lemma no_loop_app evs1 evs2 : no_loop evs1 → no_loop evs2 → no_loop (evs1 ++ evs2).
Proof.
  intros H1 H2 n s Hin. apply elem_of_app in Hin as [Hin|Hin];
    [by eapply H1|by eapply H2].
Qed.

Lemma loop_skip_app k evs1 evs2 :
  no_loop evs1 → loop_skip k evs2 → loop_skip k (evs1 ++ evs2).
Proof.
  intros H1 H2 n s Hin. apply elem_of_app in Hin as [Hin|Hin];
    [by destruct (H1 n s)|by eapply H2].
Qed.

Lemma no_loop_skip k evs : no_loop evs → loop_skip k evs.
Proof. intros Hn n s Hin. by destruct (Hn n s). Qed.

Variables (operand : ref) (out wheremask : option ref).
Variables (operand_dtype result_dtype : PyArray_Descr) (casting : Z).
Variables (axis_flags : list bool) (reorderable keepdims : bool).
Variables (loop : PyArray_ReduceLoopFunc).
Variables (data : UserData) (buffersize : Z) (funcname : string).
Variables (errormask : Z) (st : St host_state) (a : PyArrayObject).

Hypothesis operand_obj : objects (world st) !! operand = Some a.

Lemma construct_skip (args : IterArgs) (r : option ref) (st' : St host_state) :
  host_new_stable →
  wf_array a →
  length axis_flags = length (f_dimensions a) →
  product (kept_extents axis_flags (f_dimensions a)) ≤ INT_MAX →
  reduce_construct operand out axis_flags keepdims None loop data funcname
                   errormask args st = (r, st') →
  ∃ evs, log st' = log st ++ evs ∧
    loop_skip (product (kept_extents axis_flags (f_dimensions a))) evs.
Proof using operand_obj.
  intros Hstable Hwf Hlen Hfit.
  unfold reduce_construct, reduce_seed, fail. run_monad.
  destruct (NpyIter_AdvancedNew args (world st)) as [[it|] w1] eqn:Hnew.
  2:{ intros Hrun. inversion Hrun; subst. eexists. split; [done|].
      intros ? ? Hin. event_cases Hin. }
  pose proof (Hstable _ _ _ _ Hnew _ _ operand_obj) as Ha1.
  destruct (PyArray_CopyInitialReduceValues _ _ _ _ _ _)
    as [skip st1] eqn:Hseed.
  pose proof (seed_value _ _ _ _ _ _ _ _ a Hseed Ha1 Hwf Hlen) as Hval.
  apply seed_run in Hseed as (evs1 & Hlog1 & Hno & _). simpl in Hlog1.
  destruct (skip <? 0) eqn:Hneg.
  - intros Hrun. steps. eexists. split.
    { rewrite Hlog1, <- !app_assoc. reflexivity. }
    apply no_loop_skip. intros ? ? Hin.
    apply elem_of_cons in Hin as [Heq|Hin]; [done|].
    apply elem_of_app in Hin as [Hin|Hin]; [by eapply Hno|event_cases Hin].
  - apply Z.ltb_ge in Hneg. intros Hrun.
    apply reduce_iterate_run in Hrun as [_ (evs & Hlog & Hskip)].
    destruct Hwf as (_ & _ & Hnn & _).
    pose proof (product_nonneg _ (kept_extents_nonneg axis_flags _ Hnn)).
    rewrite to_int_small in Hval by lia.
    destruct Hval as [-> | ->]; [lia|].
    eexists. split.
    { rewrite Hlog, Hlog1, <- !app_assoc. reflexivity. }
    intros n s Hin. apply elem_of_cons in Hin as [Heq|Hin]; [done|].
    apply elem_of_app in Hin as [Hin|Hin]; [by destruct (Hno n s)|].
    by eapply Hskip.
Qed.

(** X16. In a call without identity on a well-formed operand, whenever the
    accumulation callback is invoked the skip count it is handed is the
    product of the extents of the non-reduced axes, one element to skip per
    element of the output (provided that product fits the seeder's [int]
    return type and the operand object survives the construction of the
    iterator). *)
Theorem X16_skip_count_is_kept_product (r : option ref) (st' : St host_state) :
  host_new_stable →
  wf_array a →
  length axis_flags = length (f_dimensions a) →
  product (kept_extents axis_flags (f_dimensions a)) ≤ INT_MAX →
  PyUFunc_ReduceWrapper operand out wheremask operand_dtype result_dtype
    casting axis_flags reorderable keepdims None loop data buffersize
    funcname errormask st = (r, st') →
  loop_skip (product (kept_extents axis_flags (f_dimensions a)))
            (new_events st st').
Proof using operand_obj.
  intros Hstable Hwf Hlen Hfit.
  unfold PyUFunc_ReduceWrapper, fail. run_monad. intros Hrun.
  assert (Hnil : log st' = log st →
                 loop_skip (product (kept_extents axis_flags (f_dimensions a)))
                           (new_events st st')).
  { intros Hl. rewrite (new_events_app st st' []) by (by rewrite app_nil_r).
    intros ? ? Hin. by apply not_elem_of_nil in Hin. }
  assert (Hcons : ∀ args,
            reduce_construct operand out axis_flags keepdims None loop data
                             funcname errormask args st = (r, st') →
            loop_skip (product (kept_extents axis_flags (f_dimensions a)))
                      (new_events st st')).
  { intros args Hc.
    apply construct_skip in Hc as (evs & Hlog & Hskip); try done.
    by rewrite (new_events_app _ _ _ Hlog). }
  destruct (negb reorderable && _).
  { steps. by apply Hnil. }
  destruct (bool_decide (is_Some wheremask) && _).
  { steps. by apply Hnil. }
  destruct wheremask as [m|]; simpl in Hrun.
  all: destruct out as [o|]; [|by eapply Hcons].
  all: destruct (negb (bool_decide _)).
  all: try (by eapply Hcons).
  all: inversion Hrun; subst; by apply Hnil.
Qed.

Variable identity : option Scalar.

Lemma construct_empty (args : IterArgs) (r : option ref) (st' : St host_state) :
  host_iter_size →
  ia_operand args = Some operand →
  product (f_dimensions a) = 0 →
  reduce_construct operand out axis_flags keepdims identity loop data
                   funcname errormask args st = (r, st') →
  ∃ evs, log st' = log st ++ evs ∧ no_loop evs.
Proof using operand_obj.
  intros Hsize Hop Hzero.
  unfold reduce_construct, reduce_seed, fail. run_monad.
  destruct (NpyIter_AdvancedNew args (world st)) as [[it|] w1] eqn:Hnew.
  2:{ intros Hrun. inversion Hrun; subst. eexists. split; [done|].
      intros ? ? Hin. event_cases Hin. }
  assert (Hsize0 : NpyIter_GetIterSize it = 0).
  { by rewrite (Hsize _ _ _ _ _ _ Hnew Hop operand_obj). }
  destruct identity as [v|]; run_monad.
  - destruct (PyArray_FillWithScalar _ _ _) as [rc w2].
    destruct (rc <? 0).
    + intros Hrun. steps. eexists. split; [log_ext|].
      intros ? ? Hin. event_cases Hin.
    + intros Hrun.
      apply (iterate_no_loop _ _ _ _ _ _ _ _ _ _ _ Hsize0) in Hrun
        as (evs & Hlog & Hno).
      simpl in Hlog. eexists. split.
      { rewrite Hlog, <- !app_assoc. reflexivity. }
      intros n s Hin. apply elem_of_cons in Hin as [Heq|Hin]; [done|].
      apply elem_of_cons in Hin as [Heq|Hin]; [done|]. by eapply Hno.
  - destruct (PyArray_CopyInitialReduceValues _ _ _ _ _ _)
      as [skip st1] eqn:Hseed.
    apply seed_run in Hseed as (evs1 & Hlog1 & Hno1 & _). simpl in Hlog1.
    destruct (skip <? 0).
    + intros Hrun. steps. eexists. split.
      { rewrite Hlog1, <- !app_assoc. reflexivity. }
      intros n s Hin. apply elem_of_cons in Hin as [Heq|Hin]; [done|].
      apply elem_of_app in Hin as [Hin|Hin]; [by eapply Hno1|event_cases Hin].
    + intros Hrun.
      apply (iterate_no_loop _ _ _ _ _ _ _ _ _ _ _ Hsize0) in Hrun
        as (evs & Hlog & Hno).
      eexists. split.
      { rewrite Hlog, Hlog1, <- !app_assoc. reflexivity. }
      intros n s Hin. apply elem_of_cons in Hin as [Heq|Hin]; [done|].
      apply elem_of_app in Hin as [Hin|Hin]; [by eapply Hno1|by eapply Hno].
Qed.

(** X17. For an operand without elements (some extent is 0, on a reduced
    axis or not) the accumulation callback is never invoked, with or
    without identity, whether the call succeeds or fails: the iteration
    size is the operand's element count, and the driver skips the
    iteration when it is 0. *)
Theorem X17_empty_operand_no_callback (r : option ref) (st' : St host_state) :
  host_iter_size →
  product (f_dimensions a) = 0 →
  PyUFunc_ReduceWrapper operand out wheremask operand_dtype result_dtype
    casting axis_flags reorderable keepdims identity loop data buffersize
    funcname errormask st = (r, st') →
  no_loop (new_events st st').
Proof using operand_obj.
  intros Hsize Hzero.
  unfold PyUFunc_ReduceWrapper, fail. run_monad. intros Hrun.
  assert (Hnil : log st' = log st → no_loop (new_events st st')).
  { intros Hl. rewrite (new_events_app st st' []) by (by rewrite app_nil_r).
    intros ? ? Hin. by apply not_elem_of_nil in Hin. }
  assert (Hcons : ∀ args, ia_operand args = Some operand →
            reduce_construct operand out axis_flags keepdims identity loop
                             data funcname errormask args st = (r, st') →
            no_loop (new_events st st')).
  { intros args Hop Hc.
    apply construct_empty in Hc as (evs & Hlog & Hno); try done.
    by rewrite (new_events_app _ _ _ Hlog). }
  destruct (negb reorderable && _).
  { steps. by apply Hnil. }
  destruct (bool_decide (is_Some wheremask) && _).
  { steps. by apply Hnil. }
  destruct wheremask as [m|]; simpl in Hrun.
  all: destruct out as [o|]; [|eapply Hcons; [|exact Hrun]; reflexivity].
  all: destruct (negb (bool_decide _)).
  all: try (eapply Hcons; [|exact Hrun]; reflexivity).
  all: inversion Hrun; subst; by apply Hnil.
Qed.
End SkipCount.

(* ===================================================================== *)
(** * The floating-point status at entry *)
(* ===================================================================== *)

Section FloatStatus.
Context `{H : Host}.

(** The seeding and the iteration start from cleared status flags. *)
Lemma reduce_seed_clears operand out axis_flags keepdims identity loop data
    funcname errormask (iter : NpyIter) (w1 w2 : World host_state)
    (lg : list Event) :
  set_fpstatus 0 w1 = set_fpstatus 0 w2 →
  reduce_seed operand out axis_flags keepdims identity loop data funcname
              errormask iter (mkSt w1 lg)
  = reduce_seed operand out axis_flags keepdims identity loop data funcname
                errormask iter (mkSt w2 lg).
Proof. intros Heq. unfold reduce_seed. run_monad. by rewrite Heq. Qed.

Lemma construct_fp_blind operand out axis_flags keepdims identity loop data
    funcname errormask (args : IterArgs) (w : World host_state)
    (lg : list Event) (f : Z) :
  host_new_fp_blind →
  let run st0 := reduce_construct operand out axis_flags keepdims identity
                   loop data funcname errormask args st0 in
  fst (run (mkSt (set_fpstatus f w) lg)) = fst (run (mkSt w lg)) ∧
  log (snd (run (mkSt (set_fpstatus f w) lg))) = log (snd (run (mkSt w lg))) ∧
  set_fpstatus 0 (world (snd (run (mkSt (set_fpstatus f w) lg))))
  = set_fpstatus 0 (world (snd (run (mkSt w lg)))).
Proof.
  intros Hblind. simpl. unfold reduce_construct, fail, bind, call, ret.
  cbn [world log].
  destruct (Hblind args w f) as [Hfst Hsnd].
  destruct (NpyIter_AdvancedNew args (set_fpstatus f w)) as [it1 w1f].
  destruct (NpyIter_AdvancedNew args w) as [it2 w1].
  simpl in Hfst, Hsnd. subst it2. destruct it1 as [it|].
  - by rewrite (reduce_seed_clears _ _ _ _ _ _ _ _ _ it w1f w1).
  - done.
Qed.

Variables (operand : ref) (out wheremask : option ref).
Variables (operand_dtype result_dtype : PyArray_Descr) (casting : Z).
Variables (axis_flags : list bool) (reorderable keepdims : bool).
Variables (identity : option Scalar) (loop : PyArray_ReduceLoopFunc).
Variables (data : UserData) (buffersize : Z) (funcname : string).
Variables (errormask : Z).

(** X18. Floating-point status flags that are raised when the driver is
    entered do not influence the call: started with other flags it
    returns the same, makes the same collaborator calls and leaves the
    same world, the status flags apart (for an iterator constructor that
    does not look at the flags).  The driver clears the flags after the
    construction, before it seeds and iterates. *)
Theorem X18_stale_float_status_ignored (st : St host_state) (f : Z) :
  host_new_fp_blind →
  let run st0 :=
    PyUFunc_ReduceWrapper operand out wheremask operand_dtype result_dtype
      casting axis_flags reorderable keepdims identity loop data buffersize
      funcname errormask st0 in
  let st_f := mkSt (set_fpstatus f (world st)) (log st) in
  fst (run st_f) = fst (run st) ∧
  log (snd (run st_f)) = log (snd (run st)) ∧
  set_fpstatus 0 (world (snd (run st_f)))
  = set_fpstatus 0 (world (snd (run st))).
Proof.
  intros Hblind. destruct st as [w lg]. simpl.
  unfold PyUFunc_ReduceWrapper, fail, bind, gets, ret, PyErr_Format, modify.
  cbn [world log].
  change (PyArray_NDIM operand (set_fpstatus f w))
    with (PyArray_NDIM operand w).
  destruct (negb reorderable && _); [done|].
  destruct (bool_decide (is_Some wheremask) && _); [done|].
  destruct wheremask as [m|]; cbn [world log].
  all: destruct out as [o|]; cbn [world log].
  all: try change (PyArray_NDIM o (set_fpstatus f w))
         with (PyArray_NDIM o w).
  all: try change (PyArray_DESCR m (set_fpstatus f w))
         with (PyArray_DESCR m w).
  all: try destruct (negb (bool_decide _)); try done.
  all: by apply construct_fp_blind.
Qed.
End FloatStatus.


(* ===================================================================== *)
(** * The iterator binding and the conditions of success *)
(* ===================================================================== *)

(** The constructor is the first call of a sequence in order, and only
    the first. *)
Lemma phase_run_no_new (id : option Scalar) (m : Z) (evs : list Event) :
  ∀ p q, p ≠ PStart → phase_run id m p evs = Some q →
  ∀ args, EvAdvancedNew args ∉ evs.
Proof.
  induction evs as [|ev evs IH]; intros p q Hp Hrun args Hin.
  { by apply not_elem_of_nil in Hin. }
  simpl in Hrun. destruct (phase_step id m p ev) as [p'|] eqn:Hstep; [|done].
  apply elem_of_cons in Hin as [<-|Hin].
  - by destruct p.
  - eapply (IH p' q); [|exact Hrun|exact Hin].
    destruct p, ev; simpl in Hstep; repeat case_match; by simplify_eq.
Qed.

Section Binding.
Context `{H : Host}.

Implicit Types (st : St host_state) (evs : list Event).

Lemma iterate_success out loop data errormask iter result needs_api skip
      st x st' :
  reduce_iterate out loop data errormask iter result needs_api skip st
    = (Some x, st') →
  ∃ w rc wc, pyerr w = None ∧
    _check_ufunc_fperr errormask w = (rc, wc) ∧ 0 ≤ rc ∧
    NpyIter_Deallocate iter wc = (true, world st').
Proof.
  unfold reduce_iterate, fail. run_monad. intros Hrun. steps.
  all: try done.
  all: match goal with
       | Hp : PyErr_Occurred ?w = false,
         Hc : _check_ufunc_fperr _ ?w = (?rc, ?wc),
         Hd : NpyIter_Deallocate _ ?wc = (?b, _),
         Hrc : (?rc <? 0) = false |- _ =>
           exists w, rc, wc; split;
           [ apply bool_decide_eq_false in Hp;
             by destruct (pyerr w); [destruct Hp|]
           | split; [exact Hc|]; split; [by apply Z.ltb_ge|];
             by destruct b ]
       end.
Qed.

Lemma reduce_seed_success operand out axis_flags keepdims identity loop data
      funcname errormask iter st x st' :
  reduce_seed operand out axis_flags keepdims identity loop data funcname
              errormask iter st = (Some x, st') →
  ∃ w rc wc, pyerr w = None ∧
    _check_ufunc_fperr errormask w = (rc, wc) ∧ 0 ≤ rc ∧
    NpyIter_Deallocate iter wc = (true, world st').
Proof.
  unfold reduce_seed, fail. run_monad. intros Hrun.
  destruct identity as [v|]; run_monad.
  - destruct (PyArray_FillWithScalar _ _ _) as [rc w1].
    destruct (rc <? 0); [by steps|]. by eapply iterate_success.
  - destruct (PyArray_CopyInitialReduceValues _ _ _ _ _ _) as [skip st1].
    destruct (skip <? 0); [by steps|]. by eapply iterate_success.
Qed.

Lemma construct_success operand out axis_flags keepdims identity loop data
      funcname errormask args st x st' :
  reduce_construct operand out axis_flags keepdims identity loop data
                   funcname errormask args st = (Some x, st') →
  ∃ it w1 w rc wc,
    NpyIter_AdvancedNew args (world st) = (Some it, w1) ∧
    pyerr w = None ∧
    _check_ufunc_fperr errormask w = (rc, wc) ∧ 0 ≤ rc ∧
    NpyIter_Deallocate it wc = (true, world st').
Proof.
  unfold reduce_construct, fail. run_monad.
  destruct (NpyIter_AdvancedNew args (world st)) as [[it|] w1]; [|done].
  intros Hrun. apply reduce_seed_success in Hrun as (w & rc & wc & Hrun).
  by exists it, w1, w, rc, wc.
Qed.

Variables (operand : ref) (out wheremask : option ref).
Variables (operand_dtype result_dtype : PyArray_Descr) (casting : Z).
Variables (axis_flags : list bool) (reorderable keepdims : bool).
Variables (identity : option Scalar) (loop : PyArray_ReduceLoopFunc).
Variables (data : UserData) (buffersize : Z) (funcname : string).
Variables (errormask : Z) (st : St host_state).

(** X19. The iterator constructor is called at most once per run, with
    the planned arguments: as many operands, operand flags and requested
    descriptors as the operand count says (two without a where-mask,
    three with one); the output first, the operand second; the where-mask,
    when there is one, third, bound read-only with its own descriptor; an
    axis mapping for the output only, over the operand's rank. *)
Theorem X19_iterator_binding (r : option ref) (st' : St host_state)
    (args : IterArgs) :
  PyUFunc_ReduceWrapper operand out wheremask operand_dtype result_dtype
    casting axis_flags reorderable keepdims identity loop data buffersize
    funcname errormask st = (r, st') →
  EvAdvancedNew args ∈ new_events st st' →
  (length (filter (λ ev, is_new ev) (new_events st st')) = 1)%nat ∧
  args = wrapper_iter_args operand out wheremask operand_dtype result_dtype
           casting buffersize axis_flags keepdims (world st) ∧
  ia_nop args = Z.of_nat (length (ia_op args)) ∧
  length (ia_op_flags args) = length (ia_op args) ∧
  length (ia_op_dtypes args) = length (ia_op args) ∧
  ia_op args = [out; Some operand] ++ option_list (Some <$> wheremask) ∧
  ia_oa_ndim args = PyArray_NDIM operand (world st) ∧
  (∃ axes, ia_op_axes args = [Some axes; None; None]) ∧
  (∀ m, wheremask = Some m →
        ia_op_dtypes args !! 2%nat = Some (PyArray_DESCR m (world st)) ∧
        ∃ fl, ia_op_flags args !! 2%nat = Some fl ∧
              flag_set fl NPY_ITER_READONLY = true ∧
              flag_clear fl NPY_ITER_READWRITE = true ∧
              flag_clear fl NPY_ITER_WRITEONLY = true).
Proof.
  unfold PyUFunc_ReduceWrapper, fail. run_monad. intros Hrun Hin.
  assert (Hnil : log st' = log st → False).
  { intros Hl.
    rewrite (new_events_app st st' []) in Hin by (by rewrite app_nil_r).
    by apply not_elem_of_nil in Hin. }
  assert (Hone : ∀ args0,
            reduce_construct operand out axis_flags keepdims identity loop
              data funcname errormask args0 st = (r, st') →
            args = args0 ∧
            length (filter (λ ev, is_new ev) (new_events st st')) = 1%nat).
  { intros args0 Hc.
    apply construct_phases in Hc as (evs & p & Hlog & Hph & _).
    rewrite (new_events_app _ _ _ Hlog) in *.
    assert (Hne : PConstructed ≠ PStart) by done.
    pose proof (phase_run_no_new _ _ _ _ _ Hne Hph) as Hno.
    apply elem_of_cons in Hin as [[= ->]|Hin]; [|by apply Hno in Hin].
    split; [done|]. rewrite filter_cons_True by done. simpl. f_equal.
    apply length_zero_iff_nil, elem_of_nil_inv.
    intros ev Hev. apply list_elem_of_filter in Hev as [Hnew Hev].
    destruct ev; try done. by apply Hno in Hev. }
  destruct (negb reorderable && _).
  { exfalso. steps. by apply Hnil. }
  destruct (bool_decide (is_Some wheremask) && _).
  { exfalso. steps. by apply Hnil. }
  destruct wheremask as [m|]; simpl in Hrun.
  all: destruct out as [o|].
  all: try destruct (negb (bool_decide _)).
  all: try (exfalso; inversion Hrun; subst; by apply Hnil).
  all: apply Hone in Hrun as [-> Hcount].
  all: split; [exact Hcount|].
  all: repeat (split; [reflexivity|]).
  all: split; [by eexists|].
  all: intros m' Hm'; try discriminate.
  all: inversion Hm'; subst m'.
  all: split; [reflexivity|].
  all: eexists; split; [reflexivity|]; by vm_compute.
Qed.

(** X20. A call returns an array only if, after the iteration, no Python
    error was pending, the floating-point check (made with the caller's
    error mask) did not report an error, and the release of the iterator
    succeeded; the world it leaves is the one the release left. *)
Theorem X20_success_conditions (x : ref) (st' : St host_state) :
  PyUFunc_ReduceWrapper operand out wheremask operand_dtype result_dtype
    casting axis_flags reorderable keepdims identity loop data buffersize
    funcname errormask st = (Some x, st') →
  ∃ it w1 w rc wc,
    NpyIter_AdvancedNew
      (wrapper_iter_args operand out wheremask operand_dtype result_dtype
         casting buffersize axis_flags keepdims (world st)) (world st)
      = (Some it, w1) ∧
    pyerr w = None ∧
    _check_ufunc_fperr errormask w = (rc, wc) ∧ 0 ≤ rc ∧
    NpyIter_Deallocate it wc = (true, world st').
Proof.
  unfold PyUFunc_ReduceWrapper, wrapper_iter_args, fail. run_monad.
  intros Hrun.
  destruct (negb reorderable && _); [by steps|].
  destruct (bool_decide (is_Some wheremask) && _); [by steps|].
  destruct wheremask as [m|]; simpl in Hrun.
  all: destruct out as [o|]; [|by eapply construct_success].
  all: destruct (negb (bool_decide _)); [by inversion Hrun|].
  all: by eapply construct_success.
Qed.
End Binding.


(* ===================================================================== *)
(** * Further runs on the reference collaborators *)
(* ===================================================================== *)

Module MoreRuns.
Import RefHost RefLaws Inputs.

Lemma ref_new_stable : host_new_stable.
Proof. intros args w it w' Hnew. exact (proj1 (ref_new_frame _ _ _ _ Hnew)). Qed.

Lemma ref_new_fp_blind : host_new_fp_blind.
Proof.
  intros args w f. destruct w as [objs mem err fp hs]. simpl.
  unfold AdvancedNew, alloc, raise, values. simpl.
  repeat case_match; simplify_eq/=; done.
Qed.

Lemma valid_2x3 (flags : list bool) (keepdims : bool)
    (identity : option Scalar) :
  validation_passes 1%positive None None flags true keepdims identity
                    (start w_2x3).
Proof. split; [by left|]. split; [by left|]. intros o Ho. discriminate. Qed.

(** X1 on three flags of which the first two are looked at. *)
Lemma X1_witness :
  count_axes 2 [true; false; true] = 1 ∧
  count_axes 2 ([true; false] ++ [false; false]) = 1.
Proof.
  destruct (X1_count_axes_counts_leading_flags 2 [true; false; true]
              [false; false]) as (Hc & _ & Hrest).
  - simpl. lia.
  - split; [exact Hc|]. exact (eq_trans Hrest Hc).
Defined.

(** X2 on a rank-3 operand reduced along its middle axis. *)
Lemma X2_witness :
  al_result_axes (result_axes_loop 3 [false; true; false] true) !! 1%nat
  = Some (NPY_ITER_REDUCTION_AXIS 1) ∧
  al_result_axes (result_axes_loop 3 [false; true; false] true) !! 2%nat
  = Some 2.
Proof.
  destruct (X2_result_axes_keepdims 3 [false; true; false]) as [_ Hent].
  - unfold NPY_MAXDIMS. lia.
  - split; [apply (Hent 1%nat)|apply (Hent 2%nat)]; lia.
Defined.

(** X3 on the same operand: the last axis becomes output axis 1. *)
Lemma X3_witness :
  al_result_axes (result_axes_loop 3 [false; true; false] false) !! 1%nat
  = Some (NPY_ITER_REDUCTION_AXIS (-1)) ∧
  al_result_axes (result_axes_loop 3 [false; true; false] false) !! 2%nat
  = Some 1.
Proof.
  destruct (X3_result_axes_squeezed 3 [false; true; false]) as [_ Hent].
  - unfold NPY_MAXDIMS. lia.
  - split; [apply (Hent 1%nat)|apply (Hent 2%nat)]; lia.
Defined.

(** X4 on the 2x3 operand reduced along axis 1: the view denotes the cells
    100 and 103, the first column. *)
Lemma X4_witness :
  ∃ l, seed_view [false; true] true a_2x3 = Some l ∧
    (λ o, f_data a_2x3 + o) <$> offsets (take (sl_idim_out l) (sl_shape l))
                                        (take (sl_idim_out l) (sl_strides l))
      = footprint (first_subarray [false; true] a_2x3) ∧
    footprint (first_subarray [false; true] a_2x3) ⊆ footprint a_2x3.
Proof.
  eexists. split; [vm_compute; reflexivity|].
  apply (X4_seed_view_is_first_subarray [false; true] true a_2x3).
  - exact Runs.wf_a_2x3.
  - reflexivity.
  - vm_compute. reflexivity.
Defined.

(** X5 on the 2x3 operand reduced along axis 1 with keepdims: a 2x1 view
    with strides 3 and 0. *)
Lemma X5_witness :
  ∃ l, seed_view [false; true] true a_2x3 = Some l ∧
    take (sl_idim_out l) (sl_shape l) = [2; 1] ∧
    take (sl_idim_out l) (sl_strides l) = [3; 0].
Proof.
  eexists. split; [vm_compute; reflexivity|].
  apply (X5_seed_view_extents_and_strides [false; true] true a_2x3).
  - exact Runs.wf_a_2x3.
  - reflexivity.
  - vm_compute. reflexivity.
Defined.

(** X6 on the 2x3 operand reduced along axis 1 without keepdims: rank 1. *)
Lemma X6_witness :
  ∃ l, seed_view [false; true] false a_2x3 = Some l ∧
    sl_idim_out l
    = al_curr_axis (result_axes_loop 2 [false; true] false) ∧
    sl_idim_out l = 1%nat.
Proof.
  eexists. split; [vm_compute; reflexivity|].
  apply (X6_seed_view_rank_is_planned_rank [false; true] false a_2x3).
  - exact Runs.wf_a_2x3.
  - reflexivity.
  - vm_compute. reflexivity.
Defined.

(** X7 on the 2x3 operand reduced along axis 0: three elements. *)
Lemma X7_witness :
  ∃ l, seed_view [true; false] true a_2x3 = Some l ∧
    sl_size l
    = Z.of_nat (length (offsets (take (sl_idim_out l) (sl_shape l))
                                (take (sl_idim_out l) (sl_strides l)))).
Proof.
  eexists. split; [vm_compute; reflexivity|].
  apply (X7_seed_size_counts_view_elements [true; false] true a_2x3).
  - exact Runs.wf_a_2x3.
  - reflexivity.
  - vm_compute. reflexivity.
Defined.

(** X8 on the 2x3 operand with no axis flagged. *)
Lemma X8_witness :
  ∃ l, seed_view [false; false] true a_2x3 = Some l ∧
    take (sl_idim_out l) (sl_shape l) = [2; 3] ∧
    take (sl_idim_out l) (sl_strides l) = [3; 1] ∧
    sl_size l = 6.
Proof.
  apply (X8_seed_without_reduction_axes [false; false] true a_2x3).
  - exact Runs.wf_a_2x3.
  - reflexivity.
  - reflexivity.
Defined.

(** X9 on the 2x3 operand reduced along axis 0: the 3-element result
    holds the operand's first row. *)
Lemma X9_witness :
  let res := seed w_2x3 2 1 [true; false] false "maximum" in
  elements (world (snd res)) a_out3
  = elements w_2x3 (first_subarray [true; false] a_2x3).
Proof.
  intros res.
  destruct (seed_view [true; false] false a_2x3) as [l|] eqn:Hview;
    [|vm_compute in Hview; discriminate].
  destruct (@PyArray_NewFromDescr ref_host (f_descr a_2x3) (sl_idim_out l)
              (sl_shape l) (sl_strides l) (f_data a_2x3) 0
              (world (start w_2x3))) as [[v|] w1] eqn:Hnew.
  2:{ vm_compute in Hview. inversion Hview; subst l.
      vm_compute in Hnew. discriminate. }
  destruct (@PyArray_CopyInto ref_host 2%positive v w1) as [rc w2] eqn:Hcopy.
  assert (Hrc : 0 ≤ rc).
  { vm_compute in Hview. inversion Hview; subst l.
    vm_compute in Hnew. inversion Hnew; subst v w1.
    vm_compute in Hcopy. inversion Hcopy; subst rc. lia. }
  assert (Hnd : NoDup (footprint a_out3))
    by (apply (bool_decide_unpack _); by vm_compute).
  destruct (X9_seeding_copies_first_subarray (H := ref_host) 2%positive
              1%positive [true; false] "maximum" false (start w_2x3) a_2x3
              a_out3 l v w1 w2 rc ref_view_post ref_view_frame ref_copy_post
              eq_refl Runs.wf_a_2x3 eq_refl Runs.allocated_a_2x3 eq_refl
              eq_refl eq_refl eq_refl Hnd Hview Hnew Hcopy Hrc) as [Hw Hel].
  subst res. unfold seed. rewrite <- Hw in Hel. exact Hel.
Defined.

(** X10 on an identity-seeded reduction of the 2x3 operand. *)
Lemma X10_witness :
  let res := reduce w_2x3 1 None None [false; true] true false (Some 0) "add" in
  ∃ p, phase_run (Some 0) 0 PStart (new_events (start w_2x3) (snd res)) = Some p ∧
    phase_final p = true ∧
    (is_Some (fst res) →
     p = PReleased ∧ EvCheckFPErr 0 ∈ new_events (start w_2x3) (snd res)).
Proof.
  intros res.
  apply (X10_call_protocol (H := ref_host) 1%positive None None float64
           float64 0 [false; true] true false (Some 0) loop_idle tt 0 "add"
           0 (start w_2x3) (fst res) (snd res)).
  apply surjective_pairing.
Defined.

(** X11 on a reduction of the 2x3 operand without identity. *)
Lemma X11_witness :
  let res := reduce w_2x3 1 None None [false; true] true false None "maximum" in
  (length (filter (λ ev, is_loop ev) (new_events (start w_2x3) (snd res))) ≤ 1)%nat ∧
  ∀ n s, EvLoop n s ∈ new_events (start w_2x3) (snd res) → 0 ≤ s.
Proof.
  intros res.
  apply (X11_callback_at_most_once (H := ref_host) 1%positive None None
           float64 float64 0 [false; true] true false None loop_idle tt 0
           "maximum" 0 (start w_2x3) (fst res) (snd res)).
  apply surjective_pairing.
Defined.

(** X12 on a valid call and on a call with a where-mask and no identity. *)
Lemma X12_witness :
  (let res := reduce w_2x3 1 None None [false; true] true false (Some 0) "add" in
   validation_passes 1%positive None None [false; true] true false (Some 0)
                     (start w_2x3) ∧
   ∃ args evs, new_events (start w_2x3) (snd res) = EvAdvancedNew args :: evs) ∧
  (let res := reduce w_2x3 1 None (Some 2%positive) [false; true] true false
                     None "maximum" in
   fst res = None ∧ new_events (start w_2x3) (snd res) = []).
Proof.
  split; intros res.
  - destruct (X12_validation_gate (H := ref_host) 1%positive None None
                float64 float64 0 [false; true] true false (Some 0)
                loop_idle tt 0 "add" 0 (start w_2x3) (fst res) (snd res))
      as [[Hv (evs & Hevs)] | [Hnv _]].
    + reflexivity.
    + apply surjective_pairing.
    + split; [exact Hv|]. by eexists _, evs.
    + destruct Hnv. apply valid_2x3.
  - destruct (X12_validation_gate (H := ref_host) 1%positive None
                (Some 2%positive) float64 float64 0 [false; true] true false
                None loop_idle tt 0 "maximum" 0 (start w_2x3) (fst res)
                (snd res))
      as [[(_ & [Hw | Hi] & _) _] | (_ & Hr & e & He & _)].
    + reflexivity.
    + apply surjective_pairing.
    + discriminate.
    + by destruct Hi.
    + split; [exact Hr|]. rewrite He. unfold new_events, raised. simpl.
      reflexivity.
Defined.

(** X13 on a supplied output of the right rank and the wrong extent, which
    the reference iterator refuses. *)
Lemma X13_witness :
  ∃ w1,
    reduce w_2x3 1 (Some 3%positive) None [true; false] true false (Some 0)
           "add"
    = (None,
       mkSt w1 [EvAdvancedNew
                  (wrapper_iter_args 1%positive (Some 3%positive) None
                     float64 float64 0 0 [true; false] false
                     (world (start w_2x3)))]).
Proof.
  destruct (@NpyIter_AdvancedNew ref_host
              (wrapper_iter_args 1%positive (Some 3%positive) None float64
                 float64 0 0 [true; false] false (world (start w_2x3)))
              (world (start w_2x3))) as [[it|] w1] eqn:Hnew;
    [vm_compute in Hnew; discriminate|].
  exists w1.
  apply (X13_construction_failure (H := ref_host) 1%positive
           (Some 3%positive) None float64 float64 0 [true; false] true false
           (Some 0) loop_idle tt 0 "add" 0 (start w_2x3)).
  - reflexivity.
  - split; [by left|]. split; [by left|]. intros o [= <-]. reflexivity.
  - exact Hnew.
Defined.

(** X14 on an identity-seeded reduction of the 2x3 operand. *)
Lemma X14_witness :
  let res := reduce w_2x3 1 None None [false; true] true false (Some 0) "add" in
  ∃ args mid, new_events (start w_2x3) (snd res)
              = EvAdvancedNew args :: mid ++ [EvDeallocate] ∧
              EvDeallocate ∉ mid.
Proof.
  intros res.
  destruct (@NpyIter_AdvancedNew ref_host
              (wrapper_iter_args 1%positive None None float64 float64 0 0
                 [false; true] false (world (start w_2x3)))
              (world (start w_2x3))) as [[it|] w1] eqn:Hnew;
    [|vm_compute in Hnew; discriminate].
  destruct (X14_iterator_released_once (H := ref_host) 1%positive None None
              float64 float64 0 [false; true] true false (Some 0) loop_idle
              tt 0 "add" 0 (start w_2x3) eq_refl
              (valid_2x3 [false; true] false (Some 0)) it w1 (fst res)
              (snd res) Hnew (surjective_pairing _)) as (mid & Hevs & Hmid).
  by eexists _, mid.
Defined.

(** X15 on a reduction of the 2x3 operand without a supplied output. *)
Lemma X15_witness :
  ∃ x st' it w1,
    reduce w_2x3 1 None None [false; true] true false (Some 0) "add"
    = (Some x, st') ∧
    @NpyIter_AdvancedNew ref_host
      (wrapper_iter_args 1%positive None None float64 float64 0 0
         [false; true] false (world (start w_2x3))) (world (start w_2x3))
    = (Some it, w1) ∧
    x = ri_result it.
Proof.
  destruct (reduce w_2x3 1 None None [false; true] true false (Some 0) "add")
    as [[x|] st'] eqn:Hrun; [|vm_compute in Hrun; discriminate].
  unfold reduce in Hrun.
  destruct (X15_result_is_iterator_operand (H := ref_host) _ _ _ _ _ _ _ _ _
              _ _ _ _ _ _ _ _ _ Hrun) as (it & w1 & Hnew & Hx & _).
  by exists x, st', it, w1.
Defined.

(** X16 on a reduction of the 2x3 operand along axis 1 without identity:
    the callback is told to skip 2 elements. *)
Lemma X16_witness :
  let res := reduce w_2x3 1 None None [false; true] true false None "maximum" in
  loop_skip 2 (new_events (start w_2x3) (snd res)).
Proof.
  intros res.
  apply (X16_skip_count_is_kept_product (H := ref_host) 1%positive None None
           float64 float64 0 [false; true] true false loop_idle tt 0
           "maximum" 0 (start w_2x3) a_2x3 eq_refl (fst res) (snd res)
           ref_new_stable Runs.wf_a_2x3 eq_refl).
  - vm_compute. discriminate.
  - apply surjective_pairing.
Defined.

(** X17 on the 0x3 operand reduced along its axis of extent 3. *)
Lemma X17_witness :
  let res := reduce w_0x3 1 None None [false; true] true false (Some 0) "add" in
  no_loop (new_events (start w_0x3) (snd res)).
Proof.
  intros res.
  apply (X17_empty_operand_no_callback (H := ref_host) 1%positive None None
           float64 float64 0 [false; true] true false loop_idle tt 0 "add" 0
           (start w_0x3) a_0x3 eq_refl (Some 0) (fst res) (snd res)
           ref_iter_size eq_refl).
  apply surjective_pairing.
Defined.

(** X18 on the 2x3 operand with status flags raised at entry. *)
Lemma X18_witness :
  fst (PyUFunc_ReduceWrapper (H := ref_host) 1%positive None None float64
         float64 0 [false; true] true false (Some 0) loop_idle tt 0 "add" 0
         (mkSt (set_fpstatus 5 w_2x3) []))
  = fst (reduce w_2x3 1 None None [false; true] true false (Some 0) "add").
Proof.
  destruct (X18_stale_float_status_ignored (H := ref_host) 1%positive None
              None float64 float64 0 [false; true] true false (Some 0)
              loop_idle tt 0 "add" 0 (start w_2x3) 5 ref_new_fp_blind)
    as [Hfst _].
  exact Hfst.
Defined.

(** X19 on a call with a where-mask: three operands are bound, by the one
    construction of the run. *)
Lemma X19_witness :
  let res := reduce w_2x3 1 None (Some 2%positive) [false; true] true false
                    (Some 0) "add" in
  let args := wrapper_iter_args 1%positive None (Some 2%positive) float64
                float64 0 0 [false; true] false (world (start w_2x3)) in
  (length (filter (λ ev, is_new ev) (new_events (start w_2x3) (snd res)))
   = 1)%nat ∧
  ia_nop args = 3.
Proof.
  intros res args.
  assert (Hin : EvAdvancedNew args ∈ new_events (start w_2x3) (snd res)).
  { vm_compute. apply list_elem_of_here. }
  destruct (X19_iterator_binding (H := ref_host) 1%positive None
              (Some 2%positive) float64 float64 0 [false; true] true false
              (Some 0) loop_idle tt 0 "add" 0 (start w_2x3) (fst res)
              (snd res) args (surjective_pairing _) Hin)
    as (Hcount & _ & Hnop & _).
  split; [exact Hcount|]. rewrite Hnop. reflexivity.
Defined.

(** X20 on a successful reduction of the 2x3 operand. *)
Lemma X20_witness :
  ∃ x st' w rc wc,
    reduce w_2x3 1 None None [false; true] true false (Some 0) "add"
    = (Some x, st') ∧
    pyerr w = None ∧ check_fperr 0 w = (rc, wc) ∧ 0 ≤ rc.
Proof.
  destruct (reduce w_2x3 1 None None [false; true] true false (Some 0) "add")
    as [[x|] st'] eqn:Hrun; [|vm_compute in Hrun; discriminate].
  unfold reduce in Hrun.
  destruct (X20_success_conditions (H := ref_host) _ _ _ _ _ _ _ _ _ _ _ _ _
              _ _ _ _ _ Hrun)
    as (it & w1 & w & rc & wc & _ & Hpy & Hc & Hrc & _).
  by exists x, st', w, rc, wc.
Defined.
End MoreRuns.
